(** * Aishachat-backend, books/pdf_processing: extraction of annotated text

    A shallow embedding of [extract_pdf.py] (class [VietnamesePDFExtractor]
    and [main]) and of [process_books.py] (class [BookProcessor] and
    [main]), with the fragment of Python's [re] and [str] that the two
    files use.

    - A Python [str] is a sequence of Unicode code points: [len] counts code
      points and the regular expressions consume one code point at a time,
      so a string is a [list N] here.  The character tables ([\s], [\d],
      lower case) are those of CPython 3.11 (Unicode 14.0).
    - The regular expressions are kept as syntax trees and run by a
      backtracking matcher with the engine's priorities; [re.sub] and
      [re.match] are defined on top of it.
    - The PDF library and the file system are a [world] of operations that
      return a value or raise; [try] ... [except Exception] is a function
      on such results.  [print] is an operation of the world as well.
    - The command-line tools run in a [system]: the [world] together with
      the directories, the path operations, the file sizes and the clock.
      The JSON encoding of the report is left to the system. *)

From Stdlib Require Import List NArith Arith Bool Lia String Ascii.
From Stdlib Require Import DecimalString.
Import ListNotations.

(** ** Characters and strings *)

Definition char : Type := N.
Definition str : Type := list char.

Module Utf8.
(** The source files are UTF-8 (their coding line says so); a literal of
    the Python text is written here as the same bytes and decoded. *)

Definition byte_of (a : ascii) : N := N_of_ascii a.

Fixpoint bytes (s : string) : list N :=
  match s with
  | EmptyString => []
  | String a s' => byte_of a :: bytes s'
  end.

Definition cont (b : N) : N := N.land b 0x3F.

(** [fuel] bounds the number of code points, the length of the byte list
    is always enough. *)
Fixpoint decode (fuel : nat) (bs : list N) : str :=
  match fuel with
  | O => []
  | S fuel' =>
      match bs with
      | [] => []
      | b0 :: r0 =>
          if (b0 <? 0x80)%N then b0 :: decode fuel' r0
          else if (b0 <? 0xE0)%N then
            match r0 with
            | b1 :: r1 =>
                (N.shiftl (N.land b0 0x1F) 6 + cont b1)%N :: decode fuel' r1
            | _ => []
            end
          else if (b0 <? 0xF0)%N then
            match r0 with
            | b1 :: b2 :: r2 =>
                (N.shiftl (N.land b0 0x0F) 12 + N.shiftl (cont b1) 6 + cont b2)%N
                  :: decode fuel' r2
            | _ => []
            end
          else
            match r0 with
            | b1 :: b2 :: b3 :: r3 =>
                (N.shiftl (N.land b0 0x07) 18 + N.shiftl (cont b1) 12
                 + N.shiftl (cont b2) 6 + cont b3)%N :: decode fuel' r3
            | _ => []
            end
      end
  end.
End Utf8.

(** [py "..."] is the Python string written between the quotes. *)
Definition py (s : string) : str :=
  let bs := Utf8.bytes s in Utf8.decode (List.length bs) bs.

Definition LF : char := 10%N.
Definition SPACE : char := 32%N.

Definition str_eqb (a b : str) : bool :=
  if list_eq_dec N.eq_dec a b then true else false.

(** ** Character tables of the runtime *)

Module Unicode.

(** [str.isspace], [str.strip] and [\s] agree on this set. *)
Definition whitespace : list (N * N) :=
  [ (0x09, 0x0D); (0x1C, 0x20); (0x85, 0x85); (0xA0, 0xA0); (0x1680, 0x1680);
    (0x2000, 0x200A); (0x2028, 0x2029); (0x202F, 0x202F); (0x205F, 0x205F);
    (0x3000, 0x3000) ]%N.

(** General category Nd, what [\d] matches in a [str] pattern. *)
Definition decimal_digits : list (N * N) :=
  [ (0x30,0x39); (0x660,0x669); (0x6F0,0x6F9); (0x7C0,0x7C9); (0x966,0x96F); (0x9E6,0x9EF);
    (0xA66,0xA6F); (0xAE6,0xAEF); (0xB66,0xB6F); (0xBE6,0xBEF); (0xC66,0xC6F); (0xCE6,0xCEF);
    (0xD66,0xD6F); (0xDE6,0xDEF); (0xE50,0xE59); (0xED0,0xED9); (0xF20,0xF29); (0x1040,0x1049);
    (0x1090,0x1099); (0x17E0,0x17E9); (0x1810,0x1819); (0x1946,0x194F); (0x19D0,0x19D9);
    (0x1A80,0x1A89); (0x1A90,0x1A99); (0x1B50,0x1B59); (0x1BB0,0x1BB9); (0x1C40,0x1C49);
    (0x1C50,0x1C59); (0xA620,0xA629); (0xA8D0,0xA8D9); (0xA900,0xA909); (0xA9D0,0xA9D9);
    (0xA9F0,0xA9F9); (0xAA50,0xAA59); (0xABF0,0xABF9); (0xFF10,0xFF19); (0x104A0,0x104A9);
    (0x10D30,0x10D39); (0x11066,0x1106F); (0x110F0,0x110F9); (0x11136,0x1113F);
    (0x111D0,0x111D9); (0x112F0,0x112F9); (0x11450,0x11459); (0x114D0,0x114D9);
    (0x11650,0x11659); (0x116C0,0x116C9); (0x11730,0x11739); (0x118E0,0x118E9);
    (0x11950,0x11959); (0x11C50,0x11C59); (0x11D50,0x11D59); (0x11DA0,0x11DA9);
    (0x16A60,0x16A69); (0x16AC0,0x16AC9); (0x16B50,0x16B59); (0x1D7CE,0x1D7FF);
    (0x1E140,0x1E149); (0x1E2F0,0x1E2F9); (0x1E950,0x1E959); (0x1FBF0,0x1FBF9) ]%N.

Definition in_range (c : char) (r : N * N) : bool :=
  ((fst r <=? c) && (c <=? snd r))%N.

Definition in_ranges (rs : list (N * N)) (c : char) : bool :=
  existsb (in_range c) rs.

Definition is_space (c : char) : bool := in_ranges whitespace c.
Definition is_digit (c : char) : bool := in_ranges decimal_digits c.

(** Simple lower-case mapping, the one the regular-expression engine
    applies under IGNORECASE.  An entry [(first, last, step, target)] maps
    [first + k * step] (up to [last]) to [target + k * step]. *)
Definition lower_runs : list (N * N * N * N) :=
  [
    (0x41,0x5A,1,0x61); (0xC0,0xD6,1,0xE0); (0xD8,0xDE,1,0xF8); (0x100,0x12E,2,0x101);
    (0x130,0x130,1,0x69); (0x132,0x136,2,0x133); (0x139,0x147,2,0x13A); (0x14A,0x176,2,0x14B);
    (0x178,0x178,1,0xFF); (0x179,0x17D,2,0x17A); (0x181,0x181,1,0x253); (0x182,0x184,2,0x183);
    (0x186,0x186,1,0x254); (0x187,0x187,1,0x188); (0x189,0x18A,1,0x256); (0x18B,0x18B,1,0x18C);
    (0x18E,0x18E,1,0x1DD); (0x18F,0x18F,1,0x259); (0x190,0x190,1,0x25B); (0x191,0x191,1,0x192);
    (0x193,0x193,1,0x260); (0x194,0x194,1,0x263); (0x196,0x196,1,0x269); (0x197,0x197,1,0x268);
    (0x198,0x198,1,0x199); (0x19C,0x19C,1,0x26F); (0x19D,0x19D,1,0x272); (0x19F,0x19F,1,0x275);
    (0x1A0,0x1A4,2,0x1A1); (0x1A6,0x1A6,1,0x280); (0x1A7,0x1A7,1,0x1A8); (0x1A9,0x1A9,1,0x283);
    (0x1AC,0x1AC,1,0x1AD); (0x1AE,0x1AE,1,0x288); (0x1AF,0x1AF,1,0x1B0); (0x1B1,0x1B2,1,0x28A);
    (0x1B3,0x1B5,2,0x1B4); (0x1B7,0x1B7,1,0x292); (0x1B8,0x1B8,1,0x1B9); (0x1BC,0x1BC,1,0x1BD);
    (0x1C4,0x1C4,1,0x1C6); (0x1C5,0x1C5,1,0x1C6); (0x1C7,0x1C7,1,0x1C9); (0x1C8,0x1C8,1,0x1C9);
    (0x1CA,0x1CA,1,0x1CC); (0x1CB,0x1DB,2,0x1CC); (0x1DE,0x1EE,2,0x1DF); (0x1F1,0x1F1,1,0x1F3);
    (0x1F2,0x1F4,2,0x1F3); (0x1F6,0x1F6,1,0x195); (0x1F7,0x1F7,1,0x1BF); (0x1F8,0x21E,2,0x1F9);
    (0x220,0x220,1,0x19E); (0x222,0x232,2,0x223); (0x23A,0x23A,1,0x2C65); (0x23B,0x23B,1,0x23C);
    (0x23D,0x23D,1,0x19A); (0x23E,0x23E,1,0x2C66); (0x241,0x241,1,0x242); (0x243,0x243,1,0x180);
    (0x244,0x244,1,0x289); (0x245,0x245,1,0x28C); (0x246,0x24E,2,0x247); (0x370,0x372,2,0x371);
    (0x376,0x376,1,0x377); (0x37F,0x37F,1,0x3F3); (0x386,0x386,1,0x3AC); (0x388,0x38A,1,0x3AD);
    (0x38C,0x38C,1,0x3CC); (0x38E,0x38F,1,0x3CD); (0x391,0x3A1,1,0x3B1); (0x3A3,0x3AB,1,0x3C3);
    (0x3CF,0x3CF,1,0x3D7); (0x3D8,0x3EE,2,0x3D9); (0x3F4,0x3F4,1,0x3B8); (0x3F7,0x3F7,1,0x3F8);
    (0x3F9,0x3F9,1,0x3F2); (0x3FA,0x3FA,1,0x3FB); (0x3FD,0x3FF,1,0x37B); (0x400,0x40F,1,0x450);
    (0x410,0x42F,1,0x430); (0x460,0x480,2,0x461); (0x48A,0x4BE,2,0x48B); (0x4C0,0x4C0,1,0x4CF);
    (0x4C1,0x4CD,2,0x4C2); (0x4D0,0x52E,2,0x4D1); (0x531,0x556,1,0x561); (0x10A0,0x10C5,1,0x2D00);
    (0x10C7,0x10C7,1,0x2D27); (0x10CD,0x10CD,1,0x2D2D); (0x13A0,0x13EF,1,0xAB70);
    (0x13F0,0x13F5,1,0x13F8); (0x1C90,0x1CBA,1,0x10D0); (0x1CBD,0x1CBF,1,0x10FD);
    (0x1E00,0x1E94,2,0x1E01); (0x1E9E,0x1E9E,1,0xDF); (0x1EA0,0x1EFE,2,0x1EA1);
    (0x1F08,0x1F0F,1,0x1F00); (0x1F18,0x1F1D,1,0x1F10); (0x1F28,0x1F2F,1,0x1F20);
    (0x1F38,0x1F3F,1,0x1F30); (0x1F48,0x1F4D,1,0x1F40); (0x1F59,0x1F5F,2,0x1F51);
    (0x1F68,0x1F6F,1,0x1F60); (0x1F88,0x1F8F,1,0x1F80); (0x1F98,0x1F9F,1,0x1F90);
    (0x1FA8,0x1FAF,1,0x1FA0); (0x1FB8,0x1FB9,1,0x1FB0); (0x1FBA,0x1FBB,1,0x1F70);
    (0x1FBC,0x1FBC,1,0x1FB3); (0x1FC8,0x1FCB,1,0x1F72); (0x1FCC,0x1FCC,1,0x1FC3);
    (0x1FD8,0x1FD9,1,0x1FD0); (0x1FDA,0x1FDB,1,0x1F76); (0x1FE8,0x1FE9,1,0x1FE0);
    (0x1FEA,0x1FEB,1,0x1F7A); (0x1FEC,0x1FEC,1,0x1FE5); (0x1FF8,0x1FF9,1,0x1F78);
    (0x1FFA,0x1FFB,1,0x1F7C); (0x1FFC,0x1FFC,1,0x1FF3); (0x2126,0x2126,1,0x3C9);
    (0x212A,0x212A,1,0x6B); (0x212B,0x212B,1,0xE5); (0x2132,0x2132,1,0x214E);
    (0x2160,0x216F,1,0x2170); (0x2183,0x2183,1,0x2184); (0x24B6,0x24CF,1,0x24D0);
    (0x2C00,0x2C2F,1,0x2C30); (0x2C60,0x2C60,1,0x2C61); (0x2C62,0x2C62,1,0x26B);
    (0x2C63,0x2C63,1,0x1D7D); (0x2C64,0x2C64,1,0x27D); (0x2C67,0x2C6B,2,0x2C68);
    (0x2C6D,0x2C6D,1,0x251); (0x2C6E,0x2C6E,1,0x271); (0x2C6F,0x2C6F,1,0x250);
    (0x2C70,0x2C70,1,0x252); (0x2C72,0x2C72,1,0x2C73); (0x2C75,0x2C75,1,0x2C76);
    (0x2C7E,0x2C7F,1,0x23F); (0x2C80,0x2CE2,2,0x2C81); (0x2CEB,0x2CED,2,0x2CEC);
    (0x2CF2,0x2CF2,1,0x2CF3); (0xA640,0xA66C,2,0xA641); (0xA680,0xA69A,2,0xA681);
    (0xA722,0xA72E,2,0xA723); (0xA732,0xA76E,2,0xA733); (0xA779,0xA77B,2,0xA77A);
    (0xA77D,0xA77D,1,0x1D79); (0xA77E,0xA786,2,0xA77F); (0xA78B,0xA78B,1,0xA78C);
    (0xA78D,0xA78D,1,0x265); (0xA790,0xA792,2,0xA791); (0xA796,0xA7A8,2,0xA797);
    (0xA7AA,0xA7AA,1,0x266); (0xA7AB,0xA7AB,1,0x25C); (0xA7AC,0xA7AC,1,0x261);
    (0xA7AD,0xA7AD,1,0x26C); (0xA7AE,0xA7AE,1,0x26A); (0xA7B0,0xA7B0,1,0x29E);
    (0xA7B1,0xA7B1,1,0x287); (0xA7B2,0xA7B2,1,0x29D); (0xA7B3,0xA7B3,1,0xAB53);
    (0xA7B4,0xA7C2,2,0xA7B5); (0xA7C4,0xA7C4,1,0xA794); (0xA7C5,0xA7C5,1,0x282);
    (0xA7C6,0xA7C6,1,0x1D8E); (0xA7C7,0xA7C9,2,0xA7C8); (0xA7D0,0xA7D0,1,0xA7D1);
    (0xA7D6,0xA7D8,2,0xA7D7); (0xA7F5,0xA7F5,1,0xA7F6); (0xFF21,0xFF3A,1,0xFF41);
    (0x10400,0x10427,1,0x10428); (0x104B0,0x104D3,1,0x104D8); (0x10570,0x1057A,1,0x10597);
    (0x1057C,0x1058A,1,0x105A3); (0x1058C,0x10592,1,0x105B3); (0x10594,0x10595,1,0x105BB);
    (0x10C80,0x10CB2,1,0x10CC0); (0x118A0,0x118BF,1,0x118C0); (0x16E40,0x16E5F,1,0x16E60);
    (0x1E900,0x1E921,1,0x1E922) ]%N.

Fixpoint lower_in (runs : list (N * N * N * N)) (c : char) : char :=
  match runs with
  | [] => c
  | (first, last, step, target) :: runs' =>
      if ((first <=? c) && (c <=? last) && ((c - first) mod step =? 0))%N
      then (target + (c - first))%N
      else lower_in runs' c
  end.

Definition lower (c : char) : char := lower_in lower_runs c.

(** Characters that match each other under IGNORECASE although their
    lower-case forms differ (the engine's table of extra cases). *)
Definition extra_cases : list (N * list N) :=
  [
    (0x69,[0x131]); (0x73,[0x17F]); (0xB5,[0x3BC]); (0x131,[0x69]); (0x17F,[0x73]);
    (0x345,[0x3B9; 0x1FBE]); (0x390,[0x1FD3]); (0x3B0,[0x1FE3]); (0x3B2,[0x3D0]); (0x3B5,[0x3F5]);
    (0x3B8,[0x3D1]); (0x3B9,[0x345; 0x1FBE]); (0x3BA,[0x3F0]); (0x3BC,[0xB5]); (0x3C0,[0x3D6]);
    (0x3C1,[0x3F1]); (0x3C2,[0x3C3]); (0x3C3,[0x3C2]); (0x3C6,[0x3D5]); (0x3D0,[0x3B2]);
    (0x3D1,[0x3B8]); (0x3D5,[0x3C6]); (0x3D6,[0x3C0]); (0x3F0,[0x3BA]); (0x3F1,[0x3C1]);
    (0x3F5,[0x3B5]); (0x432,[0x1C80]); (0x434,[0x1C81]); (0x43E,[0x1C82]); (0x441,[0x1C83]);
    (0x442,[0x1C84; 0x1C85]); (0x44A,[0x1C86]); (0x463,[0x1C87]); (0x1C80,[0x432]); (0x1C81,[0x434]);
    (0x1C82,[0x43E]); (0x1C83,[0x441]); (0x1C84,[0x442; 0x1C85]); (0x1C85,[0x442; 0x1C84]);
    (0x1C86,[0x44A]); (0x1C87,[0x463]); (0x1C88,[0xA64B]); (0x1E61,[0x1E9B]); (0x1E9B,[0x1E61]);
    (0x1FBE,[0x345; 0x3B9]); (0x1FD3,[0x390]); (0x1FE3,[0x3B0]); (0xA64B,[0x1C88]);
    (0xFB05,[0xFB06]); (0xFB06,[0xFB05]) ]%N.

Fixpoint extra_of (tbl : list (N * list N)) (c : char) : list char :=
  match tbl with
  | [] => []
  | (k, v) :: tbl' => if (k =? c)%N then v else extra_of tbl' c
  end.

End Unicode.


(** ** The fragment of [re] that the extractor uses

    Every repetition in the patterns of [extract_pdf.py] is applied to a
    one-character pattern ([\s+], [\d+], [.*], [[A-Z\s]{2,30}], ...), so the
    syntax below repeats atoms only.  Matching is the engine's backtracking
    search: alternatives are tried left to right, repetitions are greedy, and
    the first way to succeed is the match. *)

Module Re.

Record flags : Type := { IGNORECASE : bool; MULTILINE : bool }.

Definition no_flags : flags := {| IGNORECASE := false; MULTILINE := false |}.
Definition I : flags := {| IGNORECASE := true; MULTILINE := false |}.
Definition M : flags := {| IGNORECASE := false; MULTILINE := true |}.

(** Members of a bracketed set. *)
Inductive item : Type :=
| IChar (c : char)
| IRange (lo hi : char)
| ISpace
| IDigit.

(** Patterns that consume exactly one character. *)
Inductive atom : Type :=
| Lit (c : char)
| Dot
| Space
| Digit
| Set_ (items : list item).

Inductive regex : Type :=
| Eps
| One (a : atom)
| Rep (a : atom) (lo : nat) (hi : option nat)
| Bol
| Eol
| Cat (r1 r2 : regex)
| Alt (r1 r2 : regex)
| Group (n : nat) (r : regex).

Definition star (a : atom) : regex := Rep a 0 None.
Definition plus (a : atom) : regex := Rep a 1 None.

Fixpoint Seq (rs : list regex) : regex :=
  match rs with
  | [] => Eps
  | [r] => r
  | r :: rs' => Cat r (Seq rs')
  end.

Definition Str (s : str) : regex := Seq (map (fun c => One (Lit c)) s).

Definition chars (s : str) : list item := map IChar s.

(** *** One character *)

(** Under IGNORECASE a pattern character [x] matches [c] when the lower
    case of [c] is the lower case of [x] or one of its extra cases.  (The
    engine compares a pattern character that has no case exactly; that is
    the same thing unless another character lower-cases to it, which
    happens for no literal of the patterns below.) *)
Definition ci_eq (x c : char) : bool :=
  let lx := Unicode.lower x in
  let lc := Unicode.lower c in
  (lc =? lx)%N || existsb (N.eqb lc) (Unicode.extra_of Unicode.extra_cases lx).

Definition char_eq (fl : flags) (x c : char) : bool :=
  if IGNORECASE fl then ci_eq x c else (c =? x)%N.

Definition range_chars (lo hi : char) : list char :=
  map (fun k => (lo + N.of_nat k)%N) (seq 0 (N.to_nat (hi + 1 - lo))).

Definition item_matches (fl : flags) (it : item) (c : char) : bool :=
  match it with
  | IChar x => char_eq fl x c
  | IRange lo hi =>
      if IGNORECASE fl then existsb (fun x => ci_eq x c) (range_chars lo hi)
      else ((lo <=? c) && (c <=? hi))%N
  | ISpace => Unicode.is_space c
  | IDigit => Unicode.is_digit c
  end.

Definition atom_matches (fl : flags) (a : atom) (c : char) : bool :=
  match a with
  | Lit x => char_eq fl x c
  | Dot => negb (c =? LF)%N
  | Space => Unicode.is_space c
  | Digit => Unicode.is_digit c
  | Set_ items => existsb (fun it => item_matches fl it c) items
  end.

(** *** Matching state *)

Record mstate : Type :=
  { pos : nat;              (* index of the next character *)
    prev : option char;     (* the character before it, if any *)
    rest : str;             (* the characters from [pos] on *)
    caps : list (nat * str) (* the groups closed so far, latest first *) }.

Definition start (s : str) : mstate :=
  {| pos := 0; prev := None; rest := s; caps := [] |}.

(** [^]: at the beginning of the string, with MULTILINE also after a
    line feed. *)
Definition at_bol (fl : flags) (st : mstate) : bool :=
  match prev st with
  | None => true
  | Some c => MULTILINE fl && (c =? LF)%N
  end.

(** [$]: at the end of the string or before a line feed that ends the
    string, with MULTILINE before any line feed. *)
Definition at_eol (fl : flags) (st : mstate) : bool :=
  match rest st with
  | [] => true
  | c :: r => (c =? LF)%N && (MULTILINE fl || match r with [] => true | _ => false end)
  end.

Definition can_repeat (hi : option nat) : bool :=
  match hi with
  | Some 0 => false
  | _ => true
  end.

Definition dec (hi : option nat) : option nat :=
  match hi with
  | Some n => Some (Nat.pred n)
  | None => None
  end.

(** Greedy repetition of a one-character test between [lo] and [hi] times:
    one more character is taken first; the continuation [k] is tried at
    the current point only when what follows has failed. *)
Fixpoint rep {A : Type} (p : char -> bool) (lo : nat) (hi : option nat)
    (n : nat) (pv : option char) (s : str)
    (k : nat -> option char -> str -> option A) : option A :=
  let stop := match lo with O => k n pv s | S _ => None end in
  match s with
  | c :: s' =>
      if p c && can_repeat hi then
        match rep p (Nat.pred lo) (dec hi) (S n) (Some c) s' k with
        | Some x => Some x
        | None => stop
        end
      else stop
  | [] => stop
  end.

Fixpoint exec {A : Type} (fl : flags) (r : regex) (st : mstate)
    (k : mstate -> option A) : option A :=
  match r with
  | Eps => k st
  | One a =>
      match rest st with
      | c :: s' =>
          if atom_matches fl a c
          then k {| pos := S (pos st); prev := Some c; rest := s'; caps := caps st |}
          else None
      | [] => None
      end
  | Rep a lo hi =>
      rep (atom_matches fl a) lo hi (pos st) (prev st) (rest st)
        (fun n pv s => k {| pos := n; prev := pv; rest := s; caps := caps st |})
  | Bol => if at_bol fl st then k st else None
  | Eol => if at_eol fl st then k st else None
  | Cat r1 r2 => exec fl r1 st (fun st' => exec fl r2 st' k)
  | Alt r1 r2 =>
      match exec fl r1 st k with
      | Some x => Some x
      | None => exec fl r2 st k
      end
  | Group n r =>
      exec fl r st
        (fun st' =>
           k {| pos := pos st'; prev := prev st'; rest := rest st';
                caps := (n, firstn (pos st' - pos st) (rest st)) :: caps st' |})
  end.

(** *** [re.match] and the match object *)

Definition match_ (fl : flags) (r : regex) (s : str) : option mstate :=
  exec fl r (start s) (fun st => Some st).

(** [len(m.groups())]: the number of groups of the pattern. *)
Fixpoint groups (r : regex) : nat :=
  match r with
  | Cat r1 r2 | Alt r1 r2 => groups r1 + groups r2
  | Group _ r' => S (groups r')
  | _ => 0
  end.

Fixpoint assoc (n : nat) (l : list (nat * str)) : option str :=
  match l with
  | [] => None
  | (m, v) :: l' => if Nat.eqb m n then Some v else assoc n l'
  end.

(** [m.group(n)].  Every group of the patterns below takes part in every
    match of its pattern, so the [None] of a group that did not is not
    modelled. *)
Definition group (m : mstate) (n : nat) : str :=
  match assoc n (caps m) with
  | Some v => v
  | None => []
  end.

(** *** [re.sub] with a literal replacement

    The engine looks for the leftmost match from the current position,
    copies the text before it, writes the replacement and goes on after
    the match; right after an empty match the next match may not be empty
    at the same position.  [skip] counts the characters of the last match
    still to be passed over. *)

Definition attempt (fl : flags) (r : regex) (n : nat) (pv : option char)
    (s : str) (must_advance : bool) : option nat :=
  exec fl r {| pos := n; prev := pv; rest := s; caps := [] |}
    (fun st' =>
       let len := pos st' - n in
       if must_advance && Nat.eqb len 0 then None else Some len).

Fixpoint sub_from (fl : flags) (r : regex) (repl : str)
    (n : nat) (pv : option char) (s : str) (skip : nat) : str :=
  let next (k : nat) : str :=
    match s with
    | c :: s' => sub_from fl r repl (S n) (Some c) s' k
    | [] => []
    end in
  let copy : str :=
    match s with
    | c :: s' => c :: sub_from fl r repl (S n) (Some c) s' 0
    | [] => []
    end in
  match skip with
  | S k => next k
  | O =>
      match attempt fl r n pv s false with
      | None => copy
      | Some (S len) => repl ++ next len
      | Some O =>
          repl ++
          match attempt fl r n pv s true with
          | Some (S len) => repl ++ next len
          | _ => copy
          end
      end
  end.

Definition sub (fl : flags) (r : regex) (repl : str) (s : str) : str :=
  sub_from fl r repl 0 None s 0.

End Re.

(** ** The [str] methods and built-ins the two files call *)

Module Py.

(** [not x] for a string or a list [x]. *)
Definition is_empty {A : Type} (l : list A) : bool :=
  match l with
  | [] => true
  | _ => false
  end.

Fixpoint lstrip (s : str) : str :=
  match s with
  | c :: s' => if Unicode.is_space c then lstrip s' else s
  | [] => []
  end.

Fixpoint rstrip (s : str) : str :=
  match s with
  | [] => []
  | c :: s' =>
      match rstrip s' with
      | [] => if Unicode.is_space c then [] else [c]
      | r => c :: r
      end
  end.

(** [s.strip()] *)
Definition strip (s : str) : str := rstrip (lstrip s).

(** [s.split(sep)] for a one-character separator. *)
Fixpoint split (sep : char) (s : str) : list str :=
  match s with
  | [] => [[]]
  | c :: s' =>
      if (c =? sep)%N then [] :: split sep s'
      else
        match split sep s' with
        | l :: ls => (c :: l) :: ls
        | [] => [[c]]
        end
  end.

(** [sep.join(parts)] *)
Fixpoint join (sep : str) (parts : list str) : str :=
  match parts with
  | [] => []
  | [p] => p
  | p :: ps => p ++ sep ++ join sep ps
  end.

(** [s.startswith(t)] *)
Fixpoint startswith (s t : str) {struct t} : bool :=
  match t, s with
  | [], _ => true
  | x :: t', c :: s' => (c =? x)%N && startswith s' t'
  | _ :: _, [] => false
  end.

(** [s.count(t)]: occurrences of [t] found from left to right, each search
    resuming after the end of the last one.  [skip] counts the characters
    of the last occurrence still to be passed over. *)
Fixpoint count_from (t s : str) (skip : nat) : nat :=
  match s with
  | [] => 0
  | _ :: s' =>
      match skip with
      | S k => count_from t s' k
      | O => if startswith s t
             then S (count_from t s' (Nat.pred (List.length t)))
             else count_from t s' 0
      end
  end.

Definition count (s t : str) : nat :=
  match t with
  | [] => S (List.length s)
  | _ => count_from t s 0
  end.

(** [s.find(t, i)]: the least index at or after [i] where [t] occurs,
    [None] for Python's -1. *)
Fixpoint find_from (t s : str) (i : nat) : option nat :=
  if startswith s t then Some i
  else
    match s with
    | [] => None
    | _ :: s' => find_from t s' (S i)
    end.

Definition find (s t : str) (i : nat) : option nat :=
  if Nat.leb i (List.length s) then find_from t (skipn i s) i else None.

(** [s[a:b]] for indices that are not negative. *)
Definition slice (s : str) (a b : nat) : str := firstn (b - a) (skipn a s).

(** [str(n)] of an integer that is not negative. *)
Definition str_of_nat (n : nat) : str := py (NilZero.string_of_uint (Nat.to_uint n)).

End Py.

(** ** Exceptions and the outside world *)

(** What the [try] blocks of the source distinguish: an instance of
    [Exception] (I/O errors, decoding errors, errors of the PDF library),
    which [except Exception] catches, and the exceptions that derive from
    [BaseException] only (keyboard interrupt, interpreter exit), which it
    lets through. *)
Inductive exn : Type :=
| Exception (msg : str)
| BaseExceptionOnly (msg : str).

Inductive result (A : Type) : Type :=
| Ok (a : A)
| Raise (e : exn).

Arguments Ok {A} a.
Arguments Raise {A} e.

Definition bind {A B : Type} (m : result A) (f : A -> result B) : result B :=
  match m with
  | Ok a => f a
  | Raise e => Raise e
  end.

Notation "x <- m ;; f" := (bind m (fun x => f))
  (at level 61, m at next level, right associativity).

(** [try: body  except Exception: handler] *)
Definition try_except {A : Type} (body : result A) (handler : str -> result A) : result A :=
  match body with
  | Raise (Exception msg) => handler msg
  | other => other
  end.

(** A page of an opened document is what its [extract_text()] does: it
    returns a text, returns [None], or raises. *)
Definition page : Type := result (option str).

Record world : Type :=
  { pdfplumber_open : str -> result (list page);  (* the pages of the file at a path *)
    write_text : str -> str -> result unit;        (* open(path, 'w') and f.write(text) *)
    read_text : str -> result str;                 (* open(path, 'r') and f.read() *)
    print : str -> str -> result unit              (* print(text, end=e) *) }.

(** [print(text)]: the end is a line feed. *)
Definition println (w : world) (text : str) : result unit := print w text [LF].

(** A [Path] object as the loops over a directory use it. *)
Record Path : Type :=
  { as_str : str;      (* str(p) *)
    path_name : str;   (* p.name *)
    path_stem : str    (* p.stem *) }.

(** ** [extract_pdf.py]: class [VietnamesePDFExtractor] *)

Module VietnamesePDFExtractor.
Import Re Py.

Definition FULL_STOP : char := 46%N.
Definition COLON : char := 58%N.

(** The first four chapter patterns have one shape, for two spellings [w]
    and [W] of a word; written piece by piece, with each piece of the
    source pattern next to it. *)
Definition word_pattern (w W : str) : regex :=
  Seq [ Bol;                                             (* ^ *)
        Group 1 (Alt (Str w) (Str W));                   (* (w|W) *)
        plus Space;                                      (* \s+ *)
        Group 2 (Alt (plus Digit)                        (* (\d+| *)
                     (plus (Set_ (chars (py "IVXLCDM"))))); (* [IVXLCDM]+) *)
        star (Set_ [ISpace; IChar FULL_STOP; IChar COLON]); (* [\s\.:]* *)
        Group 3 (star Dot);                              (* group 3: any characters, greedy *)
        Eol ].                                           (* $ *)

Definition chapter_patterns : list regex :=
  [ word_pattern (py "Chương") (py "CHƯƠNG");
    word_pattern (py "Chapter") (py "CHAPTER");
    word_pattern (py "Phần") (py "PHẦN");
    word_pattern (py "Bài") (py "BÀI");
    (* numbered chapters like 1. Introduction *)
    Seq [ Bol;                                           (* ^ *)
          Group 1 (plus Digit);                          (* (\d+) *)
          plus (Set_ [IChar FULL_STOP; ISpace]);         (* [\.\s]+ *)
          Group 2 (Rep Dot 1 (Some 50));                 (* (.{1,50}) *)
          Eol ] ].                                       (* $ *)

Definition upper_AZ : item := IRange 65%N 90%N.              (* A-Z *)

Definition section_patterns : list regex :=
  [ (* 1.1 Section *)
    Seq [ Bol;                                           (* ^ *)
          Group 1 (Seq [plus Digit; One (Lit FULL_STOP); plus Digit]); (* (\d+\.\d+) *)
          plus (Set_ [ISpace; IChar FULL_STOP; IChar COLON]);          (* [\s\.:]+ *)
          Group 2 (star Dot);                            (* group 2: any characters, greedy *)
          Eol ];                                         (* $ *)
    (* ALL CAPS headings *)
    Seq [ Bol;                                           (* ^ *)
          Group 1 (Seq [ One (Set_ [upper_AZ]);          (* ([A-Z] *)
                         Rep (Set_ [upper_AZ; ISpace]) 2 (Some 30) ]); (* [A-Z\s]{2,30}) *)
          Eol ] ].                                       (* $ *)

(** The header and footer patterns of [clean_text], which are compiled
    with MULTILINE, and the pattern of its rule for line breaks. *)

(* ^\s*\d+\s*$ *)
Definition page_number : regex :=
  Seq [Bol; star Space; plus Digit; star Space; Eol].

(* ^\s*Page\s+\d+\s*$ and the same with Trang *)
Definition page_header (word : str) : regex :=
  Seq [Bol; star Space; Str word; plus Space; plus Digit; star Space; Eol].

(* \n\s*\n\s*\n+ *)
Definition blank_lines : regex :=
  Seq [One (Lit LF); star Space; One (Lit LF); star Space; plus (Lit LF)].

Definition clean_text (text : str) : str :=
  if is_empty text then []
  else
    (* Remove excessive whitespace *)
    let text := sub no_flags (plus Space) [SPACE] text in
    (* Remove page numbers and headers/footers *)
    let text := sub M page_number [] text in
    let text := sub M (page_header (py "Page")) [] text in
    let text := sub M (page_header (py "Trang")) [] text in
    (* Remove excessive line breaks *)
    let text := sub no_flags blank_lines [LF; LF] text in
    strip text.

Definition CHAPTER : str := py "CHAPTER".
Definition SECTION : str := py "SECTION".

(** The [for pattern in self.chapter_patterns] loop of [detect_chapter]. *)
Fixpoint chapter_loop (patterns : list regex) (line : str) : option (str * str) :=
  match patterns with
  | [] => None
  | pattern :: patterns' =>
      match match_ I pattern line with
      | Some m =>
          if 3 <=? groups pattern then
            let chapter_type := group m 1 in
            let chapter_num := group m 2 in
            let chapter_title := strip (group m 3) in
            let full_title := chapter_type ++ [SPACE] ++ chapter_num in
            let full_title :=
              if is_empty chapter_title then full_title
              else full_title ++ py ": " ++ chapter_title in
            Some (CHAPTER, full_title)
          else if 2 <=? groups pattern then
            Some (CHAPTER, group m 1 ++ [SPACE] ++ group m 2)
          else chapter_loop patterns' line
      | None => chapter_loop patterns' line
      end
  end.

Definition detect_chapter (line : str) : option (str * str) :=
  let line := strip line in
  if is_empty line || (100 <? List.length line) then None
  else chapter_loop chapter_patterns line.

Fixpoint section_loop (patterns : list regex) (line : str) : option (str * str) :=
  match patterns with
  | [] => None
  | pattern :: patterns' =>
      match match_ no_flags pattern line with
      | Some m =>
          if 2 <=? groups pattern then
            Some (SECTION, group m 1 ++ [SPACE] ++ group m 2)
          else Some (SECTION, group m 1)
      | None => section_loop patterns' line
      end
  end.

Definition detect_section (line : str) : option (str * str) :=
  let line := strip line in
  if is_empty line || (80 <? List.length line) then None
  else section_loop section_patterns line.

Definition chapter_marker (title : str) : str := py "[CHAPTER:" ++ title ++ py "]".
Definition section_marker (title : str) : str := py "[SECTION:" ++ title ++ py "]".
Definition page_marker (page_num : nat) : str := py "[PAGE:" ++ str_of_nat page_num ++ py "]".

Definition same_chapter (current_chapter : option str) (title : str) : bool :=
  match current_chapter with
  | Some t => str_eqb t title
  | None => false
  end.

(** The body of [for line in lines], on the pair of [current_chapter] and
    [page_content]. *)
Definition process_line (st : option str * list str) (line : str)
  : option str * list str :=
  let (current_chapter, page_content) := st in
  let line := strip line in
  if is_empty line then st
  else
    match detect_chapter line with
    | Some chapter_match =>
        if negb (same_chapter current_chapter (snd chapter_match)) then
          let current_chapter := snd chapter_match in
          (Some current_chapter, page_content ++ [chapter_marker current_chapter])
        else st
    | None =>
        match detect_section line with
        | Some section_match =>
            (current_chapter, page_content ++ [section_marker (snd section_match)])
        | None => (current_chapter, page_content ++ [line])
        end
    end.

(** The body of [for page_num, page in enumerate(pdf.pages, 1)] once the
    page's text is there, on the pair of [current_chapter] and
    [extracted_content]. *)
Definition process_page (st : option str * list str) (page_num : nat)
    (page_text : option str) : option str * list str :=
  let (current_chapter, extracted_content) := st in
  match page_text with
  | None => st
  | Some page_text =>
      if is_empty page_text then st
      else
        let page_text := clean_text page_text in
        if is_empty page_text then st
        else
          let lines := split LF page_text in
          let (current_chapter, page_content) :=
            fold_left process_line lines (current_chapter, []) in
          if is_empty page_content then (current_chapter, extracted_content)
          else
            (current_chapter,
             extracted_content ++ [page_marker page_num] ++ page_content ++ [[]])
  end.

Fixpoint pages_loop (pages : list page) (page_num : nat) (st : option str * list str)
  : result (option str * list str) :=
  match pages with
  | [] => Ok st
  | p :: pages' =>
      page_text <- p ;;
      pages_loop pages' (S page_num) (process_page st page_num page_text)
  end.

Definition CR : char := 13%N.

(** The pages as the loop of [extract_text_from_pdf] meets them: for each
    page the progress line is printed, with a carriage return as its end,
    and then the text of the page is extracted. *)
Definition announced (w : world) (total_pages : nat) (pages : list page) : list page :=
  map (fun numbered : nat * page =>
         let (page_num, p) := numbered in
         _ <- print w (py "Processing page " ++ str_of_nat page_num ++ py "/"
                       ++ str_of_nat total_pages ++ py "...") [CR] ;;
         p)
      (combine (seq 1 (List.length pages)) pages).

Definition extract_text_from_pdf (w : world) (pdf_path output_path : str) : result bool :=
  try_except
    (_ <- println w (py "Processing: " ++ pdf_path) ;;
     pages <- pdfplumber_open w pdf_path ;;
     let total_pages := List.length pages in
     _ <- println w (py "Total pages: " ++ str_of_nat total_pages) ;;
     st <- pages_loop (announced w total_pages pages) 1 (None, []) ;;
     _ <- println w ([LF] ++ py "Extraction completed. Writing to: " ++ output_path) ;;
     (* Write to output file with UTF-8 encoding *)
     _ <- write_text w output_path (join [LF] (snd st)) ;;
     _ <- println w (py "Successfully extracted " ++ str_of_nat total_pages
                     ++ py " pages to " ++ output_path) ;;
     Ok true)
    (fun msg =>
       _ <- println w (py "Error processing " ++ pdf_path ++ py ": " ++ msg) ;;
       Ok false).

(** The [for pdf_file in pdf_files] loop of [process_directory], on the
    pairs of a file and its output file; the outcomes are kept in order. *)
Fixpoint directory_loop (w : world) (files : list (Path * Path)) : result (list bool) :=
  match files with
  | [] => Ok []
  | (pdf_file, output_file) :: files' =>
      success <- extract_text_from_pdf w (as_str pdf_file) (as_str output_file) ;;
      _ <- (if success
            then println w (py "✅ " ++ path_name pdf_file ++ py " -> " ++ path_name output_file)
            else println w (py "❌ Failed to process " ++ path_name pdf_file)) ;;
      outcomes <- directory_loop w files' ;;
      Ok (success :: outcomes)
  end.

End VietnamesePDFExtractor.

(** ** [process_books.py]: the metadata functions of class [BookProcessor] *)

Module BookProcessor.
Import Py.

(** The [try] block of [count_pages_in_text] once the file is read. *)
Definition count_pages (content : str) : nat :=
  (* Count page markers *)
  let page_count := count content (py "[PAGE:") in
  if 0 <? page_count then page_count else 1.

Definition count_pages_in_text (w : world) (text_file : str) : result nat :=
  try_except
    (content <- read_text w text_file ;;
     Ok (count_pages content))
    (fun _ => Ok 1).

Record book_info : Type :=
  { title : option str;
    chapter_count : nat;
    description : str }.

(** [for line in lines] of [extract_book_info], with its [break]. *)
Fixpoint description_loop (lines : list str) (description_lines : list str) : list str :=
  match lines with
  | [] => description_lines
  | line :: lines' =>
      if negb (is_empty (strip line)) && negb (startswith line (py "[")) then
        let description_lines := description_lines ++ [strip line] in
        if 3 <=? List.length description_lines then description_lines
        else description_loop lines' description_lines
      else description_loop lines' description_lines
  end.

(** The [try] block of [extract_book_info] once the file is read. *)
Definition book_info_of (content : str) : book_info :=
  (* Extract first chapter as potential title *)
  let title :=
    match find content (py "[CHAPTER:") 0 with
    | Some first_chapter_match =>
        match find content (py "]") first_chapter_match with
        | Some end_match => Some (slice content (first_chapter_match + 9) end_match)
        | None => None
        end
    | None => None
    end in
  (* Count chapters *)
  let chapter_count := count content (py "[CHAPTER:") in
  (* Get first few lines as description *)
  let lines := split LF content in
  let description_lines := description_loop lines [] in
  let description :=
    if is_empty description_lines then []
    else firstn 200 (join [SPACE] description_lines) ++ py "..." in
  {| title := title; chapter_count := chapter_count; description := description |}.

Definition extract_book_info (w : world) (text_file : str) : result book_info :=
  try_except
    (content <- read_text w text_file ;;
     Ok (book_info_of content))
    (fun _ => Ok {| title := None; chapter_count := 0; description := [] |}).

End BookProcessor.

(** ** Closed forms used in the proofs

    What the substitutions of [clean_text] compute, written as direct
    recursions over the text; the lemmas below prove them equal to the
    engine's result. *)

Module Closed.
Import Unicode Py Re VietnamesePDFExtractor.

(** Two tables of ranges that share no character. *)
Definition disjoint (a b : list (N * N)) : bool :=
  forallb (fun r1 => forallb (fun r2 => (snd r1 <? fst r2)%N || (snd r2 <? fst r1)%N) b) a.

(** Every run of whitespace becomes one space; [in_run] says that the
    character before was whitespace. *)
Fixpoint collapse (in_run : bool) (s : str) : str :=
  match s with
  | [] => []
  | c :: s' =>
      if is_space c then
        if in_run then collapse true s' else SPACE :: collapse true s'
      else c :: collapse false s'
  end.

(** The number of whitespace characters a text begins with. *)
Fixpoint run_length (s : str) : nat :=
  match s with
  | c :: s' => if is_space c then S (run_length s') else 0
  | [] => 0
  end.

Definition all_space (s : str) : bool := forallb is_space s.

(** Digits, then whitespace to the end; [number_tail] is entered after the
    first digit. *)
Fixpoint number_tail (s : str) : bool :=
  match s with
  | [] => true
  | c :: s' => if is_digit c then number_tail s' else all_space s
  end.

Definition number_body (s : str) : bool :=
  match s with
  | c :: s' => is_digit c && number_tail s'
  | [] => false
  end.

(** The whole text is a page number: whitespace, digits, whitespace. *)
Definition is_page_number (s : str) : bool := number_body (lstrip s).

(** The whole text is [word], whitespace and a number, with whitespace
    around. *)
Definition header_body (word s : str) : bool :=
  startswith s word &&
  match skipn (List.length word) s with
  | c :: s' => is_space c && number_body (lstrip s')
  | [] => false
  end.

Definition is_page_header (word s : str) : bool := header_body word (lstrip s).

(** The text is one of the three header or footer shapes. *)
Definition erased (s : str) : bool :=
  is_page_number s || is_page_header (py "Page") s || is_page_header (py "Trang") s.

(** Whitespace inside the text is a single space between two characters
    that are not whitespace. *)
Fixpoint single_spaced (s : str) : bool :=
  match s with
  | [] => true
  | c :: s' =>
      (if is_space c
       then (c =? SPACE)%N && match s' with c' :: _ => negb (is_space c') | [] => true end
       else true)
      && single_spaced s'
  end.

(** The number of positions of [s] at which [t] occurs. *)
Fixpoint occurrences (t s : str) : nat :=
  match s with
  | [] => 0
  | _ :: s' => (if startswith s t then 1 else 0) + occurrences t s'
  end.

(** An all-capitals heading: a letter A to Z, then [lo] to [hi] characters
    that are letters A to Z or whitespace. *)
Definition is_AZ (c : char) : bool := ((65 <=? c) && (c <=? 90))%N.

Fixpoint caps_tail (lo hi : nat) (s : str) : bool :=
  match s with
  | [] => Nat.eqb lo 0
  | c :: s' => (is_AZ c || is_space c) && negb (Nat.eqb hi 0)
               && caps_tail (Nat.pred lo) (Nat.pred hi) s'
  end.

Definition caps_heading (s : str) : bool :=
  match s with
  | c :: s' => is_AZ c && caps_tail 2 30 s'
  | [] => false
  end.

(** The same in words: 3 to 31 characters, the first a letter A to Z, the
    others letters A to Z or whitespace. *)
Definition caps_line (s : str) : Prop :=
  3 <= List.length s <= 31 /\
  exists c r, s = c :: r /\ is_AZ c = true /\
              Forall (fun x => is_AZ x = true \/ is_space x = true) r.

(** *** Names for states, continuations and pieces of the patterns *)

Definition mk (n : nat) (pv : option char) (s : str) (cs : list (nat * str)) : mstate :=
  {| pos := n; prev := pv; rest := s; caps := cs |}.

(** A continuation that looks at the position only, like the one of
    [attempt]. *)
Definition pos_only {A : Type} (k : mstate -> option A) : Prop :=
  forall st, k st = k (mk (pos st) None [] []).

(** What such a continuation answers at position [n]. *)
Definition done {A : Type} (k : mstate -> option A) (n : nat) : option A :=
  k (mk n None [] []).

(** The continuation of [attempt] when the match may be empty. *)
Definition length_found (st : mstate) : option nat := Some (pos st - 0).

(** Whitespace to the end of the text, and digits then whitespace. *)
Definition spaces_eol : regex := Cat (star Space) Eol.
Definition number_eol : regex := Cat (plus Digit) spaces_eol.

Definition numbered_section_pattern : regex := nth 0 section_patterns Eps.
Definition caps_pattern : regex := nth 1 section_patterns Eps.

(** The character before the position reached after [s]. *)
Definition prev_after (pv : option char) (s : str) : option char := last (map Some s) pv.

Definition ends_with_LF (s : str) : Prop := exists a, s = a ++ [LF].

End Closed.

(** A result that is a value or an instance of [Exception]. *)
Definition only_Exception {A : Type} (r : result A) : Prop :=
  match r with
  | Raise (BaseExceptionOnly _) => False
  | _ => True
  end.

(** Every failure of the outside world is an instance of [Exception]: the
    file cannot be opened or parsed, a page cannot be decoded, the output
    cannot be written. *)
Definition failures_are_Exceptions (w : world) : Prop :=
  (forall path, only_Exception (pdfplumber_open w path)) /\
  (forall path pages, pdfplumber_open w path = Ok pages -> Forall only_Exception pages) /\
  (forall path text, only_Exception (write_text w path text)).

(** The console can be written to: no [print] fails. *)
Definition console_works (w : world) : Prop :=
  forall text e, print w text e = Ok tt.

(** The lines written for a document whose pages gave these texts: the
    pages are numbered from 1 and taken in order, each with the state the
    pages before it left. *)
Definition document (texts : list (option str)) : list str :=
  snd (fold_left
         (fun st numbered => VietnamesePDFExtractor.process_page st (fst numbered) (snd numbered))
         (combine (seq 1 (List.length texts)) texts)
         (None, [])).

(** ** Documents and worlds of the examples *)

(** The page of the end-to-end example: a heading line and a body line. *)
Definition example_page : str :=
  py "Chương 1: Mở đầu" ++ [LF] ++ py "Nội dung đầu tiên.".

(** A world where the first file cannot be opened, a page of the second
    cannot be decoded, and any other file has a page with a heading and a
    page without text. *)
Definition example_world : world :=
  {| pdfplumber_open := fun path =>
       if str_eqb path (py "missing.pdf") then Raise (Exception (py "No such file"))
       else if str_eqb path (py "broken.pdf")
            then Ok [Ok (Some (py "Chapter 1")); Raise (Exception (py "decode error"))]
            else Ok [Ok (Some (py "Chapter 1")); Ok None];
     write_text := fun _ _ => Ok tt;
     read_text := fun _ => Raise (Exception (py "No such file"));
     print := fun _ _ => Ok tt |}.

(** The text written for a document whose pages 1 and 3 have a chapter
    heading each and whose page 2 has no text. *)
Definition sparse_document : str :=
  match VietnamesePDFExtractor.pages_loop
          [Ok (Some (py "Chapter 1")); Ok None; Ok (Some (py "Chapter 2"))]
          1 (None, []) with
  | Ok st => Py.join [LF] (snd st)
  | Raise _ => []
  end.

(** A world whose text files all hold [sparse_document]. *)
Definition sparse_world : world :=
  {| pdfplumber_open := fun _ => Raise (Exception []);
     write_text := fun _ _ => Ok tt;
     read_text := fun _ => Ok sparse_document;
     print := fun _ _ => Ok tt |}.

(** A world in which nothing can be printed and no file can be opened. *)
Definition silent_world : world :=
  {| pdfplumber_open := fun _ => Raise (Exception (py "No such file"));
     write_text := fun _ _ => Ok tt;
     read_text := fun _ => Raise (Exception (py "No such file"));
     print := fun _ _ => Raise (Exception (py "Broken pipe")) |}.

(** The PDF file with this stem in the current directory, and its text
    file. *)
Definition example_file (stem : str) : Path :=
  {| as_str := stem ++ py ".pdf"; path_name := stem ++ py ".pdf"; path_stem := stem |}.

Definition example_text_file (stem : str) : Path :=
  {| as_str := stem ++ py ".txt"; path_name := stem ++ py ".txt"; path_stem := stem |}.

(** The three files of [example_world]: one that cannot be opened, one
    with a page that cannot be decoded, one that can be extracted. *)
Definition example_files : list Path :=
  [example_file (py "missing"); example_file (py "broken"); example_file (py "book")].

Definition example_pairs : list (Path * Path) :=
  map (fun pdf_file => (pdf_file, example_text_file (path_stem pdf_file))) example_files.

(** Two pages that start with the same heading line and go on with
    different text. *)
Definition repeated_heading_pages : list page :=
  [Ok (Some (py "Chapter 1" ++ [LF] ++ py "It begins."));
   Ok (Some (py "Chapter 1" ++ [LF] ++ py "It goes on."))].

(** ** Words for the metadata properties *)

(** The lines [extract_book_info] takes into the description: not blank
    and not starting with an opening bracket. *)
Definition description_line (line : str) : bool :=
  negb (Py.is_empty (Py.strip line)) && negb (Py.startswith line (py "[")).

Definition RIGHT_BRACKET : char := 93%N.

(** ** Words for the properties of the chapter patterns *)

(** The ranges of characters that the lower-case table changes, and the
    test that a character lies in the image of one of its entries. *)
Definition lower_sources : list (N * N) :=
  map (fun run => match run with (first, last, _, _) => (first, last) end) Unicode.lower_runs.

Definition in_targets (runs : list (N * N * N * N)) (x : char) : bool :=
  existsb (fun run => match run with
                      | (first, last, _, target) =>
                          ((target <=? x) && (x <=? target + (last - first)))%N
                      end) runs.

(** The separators after the number of a numbered line, "[\.\s]", and after
    the number of a chapter word, "[\s\.:]". *)
Definition number_separator (c : char) : bool :=
  (c =? VietnamesePDFExtractor.FULL_STOP)%N || Unicode.is_space c.

Definition heading_separator (c : char) : bool :=
  Unicode.is_space c || (c =? VietnamesePDFExtractor.FULL_STOP)%N
  || (c =? VietnamesePDFExtractor.COLON)%N.

Definition not_LF (c : char) : bool := negb (c =? LF)%N.

(** The fifth chapter pattern, for numbered lines. *)
Definition numbered_chapter_pattern : Re.regex :=
  nth 4 VietnamesePDFExtractor.chapter_patterns Re.Eps.

(** [w] is a prefix of [s] up to case, as the engine compares under
    IGNORECASE. *)
Fixpoint prefix_ci (w s : str) {struct w} : bool :=
  match w, s with
  | [], _ => true
  | x :: w', c :: s' => Re.ci_eq x c && prefix_ci w' s'
  | _ :: _, [] => false
  end.

(** The first character of a text satisfies [p]; the empty text has none. *)
Definition head_is (p : char -> bool) (s : str) : bool :=
  match s with
  | c :: _ => p c
  | [] => false
  end.

(** What follows the word in the first four chapter patterns, and the
    continuation that closes group [g], opened at position [from] of
    [full]. *)
Definition after_word : Re.regex :=
  Re.Seq [ Re.plus Re.Space;
           Re.Group 2 (Re.Alt (Re.plus Re.Digit)
                              (Re.plus (Re.Set_ (Re.chars (py "IVXLCDM")))));
           Re.star (Re.Set_ [Re.ISpace; Re.IChar VietnamesePDFExtractor.FULL_STOP;
                             Re.IChar VietnamesePDFExtractor.COLON]);
           Re.Group 3 (Re.star Re.Dot);
           Re.Eol ].

Definition close_group {A : Type} (g : nat) (full : str) (from : nat)
    (k : Re.mstate -> option A) (st : Re.mstate) : option A :=
  k {| Re.pos := Re.pos st; Re.prev := Re.prev st; Re.rest := Re.rest st;
       Re.caps := (g, firstn (Re.pos st - from) full) :: Re.caps st |}.

(** A line made of a number, separators and a text of 1 to 50 characters. *)
Definition numbered_line (d seps body : str) : Prop :=
  d <> [] /\ forallb Unicode.is_digit d = true /\
  seps <> [] /\ forallb number_separator seps = true /\
  1 <= List.length body <= 50 /\
  head_is number_separator body = false /\
  forallb not_LF body = true /\
  Py.rstrip body = body.

(** ** Words for the properties of the word patterns *)

(** The set of numeral letters as the chapter patterns read it, that is
    under IGNORECASE. *)
Definition numeral (c : char) : bool :=
  Re.atom_matches Re.I (Re.Set_ (Re.chars (py "IVXLCDM"))) c.

(** The first spelling of each chapter word, in the order of the patterns. *)
Definition chapter_words : list str :=
  [py "Chương"; py "Chapter"; py "Phần"; py "Bài"].

(** [s] is the word [w] up to case. *)
Fixpoint eq_ci (w s : str) {struct w} : bool :=
  match w, s with
  | [], [] => true
  | x :: w', c :: s' => Re.ci_eq x c && eq_ci w' s'
  | _, _ => false
  end.

(** The characters whose lower case a pattern character accepts. *)
Definition ci_class (x : char) : list char :=
  Unicode.lower x :: Unicode.extra_of Unicode.extra_cases (Unicode.lower x).

Definition disjointb (a b : list char) : bool :=
  forallb (fun x => negb (existsb (N.eqb x) b)) a.

(** Two words that differ, whatever the case, at a position both have. *)
Fixpoint ci_apart (v w : str) {struct v} : bool :=
  match v, w with
  | x :: v', y :: w' => disjointb (ci_class x) (ci_class y) || ci_apart v' w'
  | _, _ => false
  end.

(** A heading written with a chapter word: the word in any case, white
    space, a decimal number or numeral letters, separators and a title. *)
Definition heading_line (word sp num seps title : str) : Prop :=
  existsb (fun w => eq_ci w word) chapter_words = true /\
  sp <> [] /\ forallb Unicode.is_space sp = true /\
  num <> [] /\
  (forallb Unicode.is_digit num = true /\ head_is Unicode.is_digit (seps ++ title) = false \/
   forallb numeral num = true /\ head_is numeral (seps ++ title) = false) /\
  forallb heading_separator seps = true /\
  head_is heading_separator title = false /\
  forallb not_LF title = true /\
  Py.rstrip (seps ++ title) = seps ++ title.

(** ** Words for the properties of the numbered section pattern *)

(** A numbered section heading: two decimal numbers with a full stop
    between them, separators and a title. *)
Definition section_line (major minor seps title : str) : Prop :=
  major <> [] /\ forallb Unicode.is_digit major = true /\
  minor <> [] /\ forallb Unicode.is_digit minor = true /\
  seps <> [] /\ forallb heading_separator seps = true /\
  forallb not_LF seps = true /\
  head_is heading_separator title = false /\
  forallb not_LF title = true /\
  Py.rstrip (seps ++ title) = seps ++ title.

(** ** Words for the all-capitals heading, as the specification has them *)

(** An uppercase letter: a character that lower case changes. *)
Definition uppercase_letter (c : char) : bool := negb (Unicode.lower c =? c)%N.

(** A line of 3 to [longest] characters that are uppercase letters and
    spaces, the first of them a letter. *)
Definition capitals_and_spaces (longest : nat) (line : str) : Prop :=
  3 <= List.length line <= longest /\
  head_is uppercase_letter line = true /\
  forallb (fun c => uppercase_letter c || (c =? SPACE)%N) line = true.

(** A line with no uppercase letter other than A to Z and no whitespace
    character other than the space. *)
Definition plain_capitals (line : str) : Prop :=
  forallb (fun c => (negb (uppercase_letter c) || Closed.is_AZ c)
                    && (negb (Unicode.is_space c) || (c =? SPACE)%N)) line = true.

(** * The command-line tools

    What the two tools ask of the operating system beyond the files and
    the console of [world]: paths, directories, sizes and the clock.  A
    clock reading is numbered by the readings made before it.  The modules
    are loaded: the import of [pdfplumber] at the top of [extract_pdf.py]
    has succeeded. *)

Module process_books.
Import Py.

(** The dictionary [book_data] of [process_all_pdfs]. *)
Record book_data : Type :=
  { book_name : str;
    original_file : str;
    output_file : str;
    page_count : nat;
    title : option str;
    chapter_count : nat;
    description : str;
    processed_at : str;
    file_size : nat;
    output_size : nat }.

(** The dictionary [report] of [save_processing_report]. *)
Record report : Type :=
  { report_processed_at : str;
    total_books : nat;
    report_books : list book_data }.

End process_books.

Record system : Type :=
  { fs : world;
    path_exists : str -> bool;                   (* Path(p).exists(), os.path.exists(p) *)
    mkdir : str -> result unit;                  (* Path(p).mkdir(parents=True, exist_ok=True) *)
    glob_pdf : str -> result (list Path);        (* list(Path(p).glob("*.pdf")) *)
    path_str : str -> str;                       (* str(Path(p)) *)
    child : str -> str -> str;                   (* str(Path(p) / name) *)
    os_path_join : str -> str -> str;            (* os.path.join(p, name) *)
    stem_of : str -> str;                        (* Path(p).stem *)
    name_of : str -> str;                        (* Path(p).name *)
    stat_size : str -> result nat;               (* Path(p).stat().st_size *)
    now_isoformat : nat -> str;                  (* datetime.now().isoformat() *)
    now_strftime : nat -> str;                   (* datetime.now().strftime('%d/%m/%Y %H:%M') *)
    json_dump : str -> process_books.report -> result unit
                                                 (* open(p, 'w') and json.dump(report, f, ...) *) }.

(** What [parser.parse_args()] does with the command line: it returns the
    arguments, or it ends the process itself, with status 2 after a usage
    error and with status 0 after [--help]. *)
Inductive parsed (A : Type) : Type :=
| Parsed (a : A)
| Exits (status : nat).

Arguments Parsed {A} a.
Arguments Exits {A} status.


(** Several [print] calls in a row. *)
Fixpoint print_lines (w : world) (lines : list str) : result unit :=
  match lines with
  | [] => Ok tt
  | line :: lines' => _ <- println w line ;; print_lines w lines'
  end.

Definition EQUALS : char := 61%N.

(** ** [extract_pdf.py]: [process_directory] and [main] *)

Module extract_pdf.
Import Py VietnamesePDFExtractor.

(** The path [output_path / name] as a [Path]. *)
Definition output_path_of (sys : system) (output_dir name : str) : Path :=
  {| as_str := child sys output_dir name;
     path_name := name_of sys (child sys output_dir name);
     path_stem := stem_of sys (child sys output_dir name) |}.

Definition process_directory (sys : system) (input_dir output_dir : str) : result unit :=
  if negb (path_exists sys input_dir) then
    println (fs sys) (py "Input directory does not exist: " ++ input_dir)
  else
    _ <- mkdir sys output_dir ;;
    pdf_files <- glob_pdf sys input_dir ;;
    if is_empty pdf_files then
      println (fs sys) (py "No PDF files found in " ++ input_dir)
    else
      _ <- println (fs sys) (py "Found " ++ str_of_nat (List.length pdf_files)
                             ++ py " PDF files to process") ;;
      _ <- directory_loop (fs sys)
             (map (fun pdf_file =>
                     (pdf_file, output_path_of sys output_dir (path_stem pdf_file ++ py ".txt")))
                  pdf_files) ;;
      Ok tt.

(** The parsed arguments. *)
Record args : Type :=
  { input : str;
    output : str;
    file : option str }.

(** The output file of the single-file mode. *)
Definition single_output (sys : system) (a : args) (f : str) : str :=
  let output_file := stem_of sys f ++ py ".txt" in
  if negb (str_eqb (output a) (py "output")) then os_path_join sys (output a) output_file
  else output_file.

(** [main]; [parse_args] is what [parser.parse_args()] does.  [Ok n] is
    the end of the process with status [n], which is 1 after [sys.exit(1)]
    and 0 when [main] returns. *)
Definition main (sys : system) (parse_args : parsed args) : result nat :=
  match parse_args with
  | Exits status => Ok status
  | Parsed a =>
      match file a with
      | Some (c :: f') =>
          let f := c :: f' in
          (* Process single file *)
          if negb (path_exists sys f) then
            _ <- println (fs sys) (py "File not found: " ++ f) ;;
            Ok 1
          else
            success <- extract_text_from_pdf (fs sys) f (single_output sys a f) ;;
            if success then
              _ <- println (fs sys) (py "✅ Successfully processed " ++ f) ;;
              Ok 0
            else
              _ <- println (fs sys) (py "❌ Failed to process " ++ f) ;;
              Ok 1
      | _ =>
          (* Process directory *)
          _ <- process_directory sys (input a) (output a) ;;
          Ok 0
      end
  end.

End extract_pdf.

(** ** [process_books.py]: [process_all_pdfs], the report, the catalog and
    [main] *)

Module batch.
Import Py VietnamesePDFExtractor BookProcessor process_books.

(** [self.processed_books] and the number of clock readings so far. *)
Definition state : Type := (list book_data * nat)%type.

(** The dictionary that [process_all_pdfs] returns; it has no [books]
    when the function returns early. *)
Record batch_result : Type :=
  { success : bool;
    processed : nat;
    failed : nat;
    books : option (list book_data) }.

(** The [for pdf_file in pdf_files] loop of [process_all_pdfs]. *)
Fixpoint pdf_loop (sys : system) (output_dir : str) (pdf_files : list Path)
    (st : state) (processed_count failed_count : nat) : result (state * nat * nat) :=
  match pdf_files with
  | [] => Ok (st, processed_count, failed_count)
  | pdf_file :: pdf_files' =>
      _ <- println (fs sys) ([LF] ++ py "📖 Processing: " ++ path_name pdf_file) ;;
      (* Generate output filename *)
      let book_name := path_stem pdf_file in
      let output_file := child sys output_dir (book_name ++ py ".txt") in
      (* Extract text *)
      success <- extract_text_from_pdf (fs sys) (as_str pdf_file) output_file ;;
      if success then
        (* Count pages and extract metadata *)
        page_count <- count_pages_in_text (fs sys) output_file ;;
        book_info <- extract_book_info (fs sys) output_file ;;
        let processed_at := now_isoformat sys (snd st) in
        file_size <- stat_size sys (as_str pdf_file) ;;
        output_size <- stat_size sys output_file ;;
        let book_data :=
          {| book_name := book_name;
             original_file := as_str pdf_file;
             output_file := output_file;
             page_count := page_count;
             title := BookProcessor.title book_info;
             chapter_count := BookProcessor.chapter_count book_info;
             description := BookProcessor.description book_info;
             processed_at := processed_at;
             file_size := file_size;
             output_size := output_size |} in
        _ <- println (fs sys) (py "✅ " ++ path_name pdf_file ++ py " -> "
                               ++ name_of sys output_file) ;;
        _ <- println (fs sys) (py "   📄 Pages: " ++ str_of_nat page_count) ;;
        _ <- println (fs sys) (py "   📚 Chapters: "
                               ++ str_of_nat (BookProcessor.chapter_count book_info)) ;;
        _ <- match BookProcessor.title book_info with
             | Some (c :: t) =>
                 println (fs sys) (py "   📝 Title: " ++ firstn 50 (c :: t) ++ py "...")
             | _ => Ok tt
             end ;;
        pdf_loop sys output_dir pdf_files' (fst st ++ [book_data], S (snd st))
          (S processed_count) failed_count
      else
        _ <- println (fs sys) (py "❌ Failed to process " ++ path_name pdf_file) ;;
        pdf_loop sys output_dir pdf_files' st processed_count (S failed_count)
  end.

Definition save_processing_report (sys : system) (output_dir : str) (st : state)
  : result state :=
  let report_file := child sys output_dir (py "processing_report.json") in
  let report :=
    {| report_processed_at := now_isoformat sys (snd st);
       total_books := List.length (fst st);
       report_books := fst st |} in
  _ <- json_dump sys report_file report ;;
  _ <- println (fs sys) (py "📋 Processing report saved: " ++ report_file) ;;
  Ok (fst st, S (snd st)).

Definition process_all_pdfs (sys : system) (input_dir output_dir : str) (st : state)
  : result (batch_result * state) :=
  if negb (path_exists sys input_dir) then
    _ <- println (fs sys) (py "❌ Input directory does not exist: " ++ path_str sys input_dir) ;;
    Ok ({| success := false; processed := 0; failed := 0; books := None |}, st)
  else
    _ <- mkdir sys output_dir ;;
    pdf_files <- glob_pdf sys input_dir ;;
    if is_empty pdf_files then
      _ <- println (fs sys) (py "📁 No PDF files found in " ++ path_str sys input_dir) ;;
      Ok ({| success := true; processed := 0; failed := 0; books := None |}, st)
    else
      _ <- print_lines (fs sys)
             [py "📚 Found " ++ str_of_nat (List.length pdf_files) ++ py " PDF files to process";
              repeat EQUALS 50] ;;
      r <- pdf_loop sys output_dir pdf_files st 0 0 ;;
      match r with
      | (st, processed_count, failed_count) =>
          (* Save processing report *)
          st <- save_processing_report sys output_dir st ;;
          _ <- print_lines (fs sys)
                 [[LF] ++ repeat EQUALS 50;
                  py "📊 Processing Summary:";
                  py "   ✅ Processed: " ++ str_of_nat processed_count;
                  py "   ❌ Failed: " ++ str_of_nat failed_count;
                  py "   📁 Output directory: " ++ path_str sys output_dir] ;;
          Ok ({| success := true; processed := processed_count; failed := failed_count;
                 books := Some (fst st) |}, st)
      end.

(** What [generate_book_catalog] writes for one book. *)
Definition catalog_entry (sys : system) (book : book_data) : str :=
  py "## " ++ book_name book ++ [LF]
  ++ match title book with
     | Some (c :: t) => py "**Tiêu đề:** " ++ (c :: t) ++ [LF; LF]
     | _ => []
     end
  ++ py "**Số trang:** " ++ str_of_nat (page_count book) ++ [LF; LF]
  ++ py "**Số chương:** " ++ str_of_nat (chapter_count book) ++ [LF; LF]
  ++ (if is_empty (description book) then []
      else py "**Mô tả:** " ++ description book ++ [LF; LF])
  ++ py "**File gốc:** " ++ name_of sys (original_file book) ++ [LF; LF]
  ++ py "---" ++ [LF; LF].

Definition catalog_text (sys : system) (st : state) : str :=
  py "# Thư viện Sách Điện tử" ++ [LF; LF]
  ++ py "Tổng số sách: " ++ str_of_nat (List.length (fst st)) ++ [LF]
  ++ py "Cập nhật lần cuối: " ++ now_strftime sys (snd st) ++ [LF; LF]
  ++ List.concat (map (catalog_entry sys) (fst st)).

Definition generate_book_catalog (sys : system) (output_dir : str) (st : state)
  : result state :=
  let catalog_file := child sys output_dir (py "book_catalog.md") in
  _ <- write_text (fs sys) catalog_file (catalog_text sys st) ;;
  _ <- println (fs sys) (py "📖 Book catalog generated: " ++ catalog_file) ;;
  Ok (fst st, S (snd st)).

(** The parsed arguments. *)
Record args : Type :=
  { input : str;
    output : str;
    catalog : bool }.

(** [main]; [parse_args] is what [parser.parse_args()] does.  [Ok n] is
    the end of the process with status [n], which is 1 after [sys.exit(1)]
    and 0 when [main] returns.  The processor is new: it has no books. *)
Definition main (sys : system) (parse_args : parsed args) : result nat :=
  match parse_args with
  | Exits status => Ok status
  | Parsed a =>
      _ <- print_lines (fs sys) [py "🚀 Vietnamese PDF Book Processor"; repeat EQUALS 50] ;;
      r <- process_all_pdfs sys (input a) (output a) ([], 0) ;;
      match r with
      | (result, st) =>
          if success result && (0 <? processed result) then
            _ <- (if catalog a then
                    _ <- generate_book_catalog sys (output a) st ;; Ok tt
                  else Ok tt) ;;
            _ <- print_lines (fs sys)
                   [[LF] ++ py "🎉 Processing completed successfully!";
                    [LF] ++ py "📋 Next steps:";
                    py "1. Check the output files in the output/ directory";
                    py "2. Verify Vietnamese text is properly encoded";
                    py "3. Test reading a few pages in the reading system";
                    py "4. The books are now available in your reading system!"] ;;
            Ok 0
          else if 0 <? failed result then
            _ <- println (fs sys)
                   ([LF] ++ py "⚠️  Some files failed to process. Check the error messages above.") ;;
            Ok 1
          else
            _ <- println (fs sys) ([LF] ++ py "📁 No files to process.") ;;
            Ok 0
      end
  end.

(** The extraction of a file of the batch came back with this value. *)
Definition extraction (sys : system) (output_dir : str) (pdf_file : Path) : result bool :=
  extract_text_from_pdf (fs sys) (as_str pdf_file)
    (child sys output_dir (path_stem pdf_file ++ py ".txt")).

Definition extracted (sys : system) (output_dir : str) (pdf_file : Path) : bool :=
  match extraction sys output_dir pdf_file with
  | Ok true => true
  | _ => false
  end.

(** Nothing but the extraction and the reading of its output fails: the
    console, the directories, the sizes and the report are there. *)
Definition quiet (sys : system) : Prop :=
  failures_are_Exceptions (fs sys) /\
  console_works (fs sys) /\
  (forall p, only_Exception (read_text (fs sys) p)) /\
  (forall p, mkdir sys p = Ok tt) /\
  (forall p, exists pdf_files, glob_pdf sys p = Ok pdf_files) /\
  (forall p, exists n, stat_size sys p = Ok n) /\
  (forall p r, json_dump sys p r = Ok tt).

End batch.

(** ** Systems of the examples *)

(** A system over [example_world] whose input directory holds the given
    files; nothing but the extraction and the reading of texts fails. *)
Definition example_system (pdf_files : list Path) : system :=
  {| fs := example_world;
     path_exists := fun _ => true;
     mkdir := fun _ => Ok tt;
     glob_pdf := fun _ => Ok pdf_files;
     path_str := fun p => p;
     child := fun p name => p ++ py "/" ++ name;
     os_path_join := fun p name => p ++ py "/" ++ name;
     stem_of := fun p => p;
     name_of := fun p => p;
     stat_size := fun _ => Ok 0;
     now_isoformat := fun _ => py "2024-01-01T00:00:00";
     now_strftime := fun _ => py "01/01/2024 00:00";
     json_dump := fun _ _ => Ok tt |}.



(** The result and the state of [process_all_pdfs] on the three example
    files. *)
Definition example_outcome : batch.batch_result * batch.state := Eval vm_compute in
    match batch.process_all_pdfs (example_system example_files) (py "input") (py "output")
            ([], 0) with
    | Ok x => x
    | Raise _ =>
        ({| batch.success := false; batch.processed := 0; batch.failed := 0;
            batch.books := None |}, ([], 0))
    end.

Definition example_directory_args : extract_pdf.args :=
  {| extract_pdf.input := py "input"; extract_pdf.output := py "output";
     extract_pdf.file := None |}.

Definition example_file_args : extract_pdf.args :=
  {| extract_pdf.input := py "input"; extract_pdf.output := py "output";
     extract_pdf.file := Some (py "missing.pdf") |}.

(** * Proofs *)

(** ** Facts about the character tables *)

Module UnicodeFacts.
Import Unicode Closed.

Lemma in_range_disjoint (c : char) (r1 r2 : N * N) :
  ((snd r1 <? fst r2) || (snd r2 <? fst r1))%N = true ->
  in_range c r1 = true -> in_range c r2 = false.
Proof.
  unfold in_range. intros H H1.
  apply andb_true_iff in H1. destruct H1 as [Ha Hb].
  apply N.leb_le in Ha. apply N.leb_le in Hb.
  apply andb_false_iff.
  apply orb_true_iff in H. destruct H as [H | H]; apply N.ltb_lt in H.
  - left. apply N.leb_gt. lia.
  - right. apply N.leb_gt. lia.
Qed.

Lemma disjoint_sound (a b : list (N * N)) (c : char) :
  disjoint a b = true -> in_ranges a c = true -> in_ranges b c = false.
Proof.
  unfold disjoint, in_ranges. intros Hd Ha.
  apply existsb_exists in Ha. destruct Ha as [r1 [Hin1 Hr1]].
  rewrite forallb_forall in Hd. specialize (Hd r1 Hin1).
  rewrite forallb_forall in Hd.
  destruct (existsb (in_range c) b) eqn:E; [| reflexivity].
  apply existsb_exists in E. destruct E as [r2 [Hin2 Hr2]].
  rewrite (in_range_disjoint c r1 r2 (Hd r2 Hin2) Hr1) in Hr2. discriminate.
Qed.

Lemma digit_not_space (c : char) : is_digit c = true -> is_space c = false.
Proof. apply disjoint_sound. vm_compute. reflexivity. Qed.

Lemma space_not_digit (c : char) : is_space c = true -> is_digit c = false.
Proof. apply disjoint_sound. vm_compute. reflexivity. Qed.

Lemma AZ_not_digit (c : char) : is_AZ c = true -> is_digit c = false.
Proof.
  intros H. apply (disjoint_sound [(65, 90)%N] decimal_digits).
  - vm_compute. reflexivity.
  - unfold in_ranges, in_range. simpl. unfold is_AZ in H. rewrite H. reflexivity.
Qed.

Lemma AZ_not_space (c : char) : is_AZ c = true -> is_space c = false.
Proof.
  intros H. apply (disjoint_sound [(65, 90)%N] whitespace).
  - vm_compute. reflexivity.
  - unfold in_ranges, in_range. simpl. unfold is_AZ in H. rewrite H. reflexivity.
Qed.

Lemma LF_is_space : is_space LF = true.
Proof. reflexivity. Qed.

Lemma SPACE_is_space : is_space SPACE = true.
Proof. reflexivity. Qed.

Lemma not_space_not_LF (c : char) : is_space c = false -> (c =? LF)%N = false.
Proof.
  intros H. destruct (N.eqb_spec c LF) as [-> | _]; [| reflexivity].
  rewrite LF_is_space in H. discriminate.
Qed.

Lemma digit_not_LF (c : char) : is_digit c = true -> (c =? LF)%N = false.
Proof. intros H. apply not_space_not_LF, digit_not_space, H. Qed.

End UnicodeFacts.

(** ** Facts about [strip], [split] and the closed forms *)

Module PyFacts.
Import Unicode Py Closed UnicodeFacts.

Lemma lstrip_app_run (s : str) : exists w, s = w ++ lstrip s /\ all_space w = true.
Proof.
  induction s as [| c s IH]; simpl.
  - exists []. split; reflexivity.
  - destruct (is_space c) eqn:E.
    + destruct IH as [w [Hs Hw]]. exists (c :: w). simpl. rewrite E, Hw.
      split; [f_equal; exact Hs | reflexivity].
    + exists []. split; reflexivity.
Qed.

Lemma lstrip_head (s : str) (c : char) (s' : str) :
  lstrip s = c :: s' -> is_space c = false.
Proof.
  induction s as [| a s IH]; simpl; [discriminate |].
  destruct (is_space a) eqn:E; [exact IH |].
  intros H. injection H as -> _. exact E.
Qed.

Lemma lstrip_fixed (s : str) :
  match s with c :: _ => is_space c = false | [] => True end -> lstrip s = s.
Proof. destruct s as [| c s]; simpl; [reflexivity |]. intros ->. reflexivity. Qed.

Lemma lstrip_idem (s : str) : lstrip (lstrip s) = lstrip s.
Proof.
  apply lstrip_fixed. destruct (lstrip s) as [| c s'] eqn:E; [exact Logic.I |].
  exact (lstrip_head s c s' E).
Qed.

Lemma lstrip_all_space (w s : str) : all_space w = true -> lstrip (w ++ s) = lstrip s.
Proof.
  induction w as [| c w IH]; simpl; [reflexivity |].
  intros H. apply andb_true_iff in H. destruct H as [Hc Hw]. rewrite Hc. exact (IH Hw).
Qed.

Lemma rstrip_nil_iff (s : str) : rstrip s = [] <-> all_space s = true.
Proof.
  induction s as [| c s IH]; simpl; [tauto |].
  destruct (rstrip s) as [| x r] eqn:E.
  - destruct (is_space c); simpl.
    + split; [intros _; apply IH; reflexivity | reflexivity].
    + split; discriminate.
  - split; [discriminate |]. intros H. apply andb_true_iff in H.
    destruct H as [_ H]. apply IH in H. discriminate.
Qed.

Lemma rstrip_app_run (s : str) : exists w, s = rstrip s ++ w /\ all_space w = true.
Proof.
  induction s as [| c s IH]; simpl.
  - exists []. split; reflexivity.
  - destruct IH as [w [Hs Hw]].
    destruct (rstrip s) as [| x r] eqn:E.
    + simpl in Hs. subst w. destruct (is_space c) eqn:Ec.
      * exists (c :: s). simpl. rewrite Ec. simpl in Hw. rewrite Hw. split; reflexivity.
      * exists s. split; [reflexivity | exact Hw].
    + exists w. split; [| exact Hw]. simpl. f_equal. exact Hs.
Qed.

Lemma rstrip_head (s : str) (c : char) :
  is_space c = false -> exists r, rstrip (c :: s) = c :: r.
Proof.
  intros H. simpl. destruct (rstrip s) as [| x r].
  - rewrite H. exists []. reflexivity.
  - exists (x :: r). reflexivity.
Qed.

Lemma rstrip_idem (s : str) : rstrip (rstrip s) = rstrip s.
Proof.
  induction s as [| c s IH]; simpl; [reflexivity |].
  destruct (rstrip s) as [| x r] eqn:E.
  - destruct (is_space c) eqn:Ec; simpl; [reflexivity | rewrite Ec; reflexivity].
  - change (rstrip (c :: x :: r)) with
      (match rstrip (x :: r) with [] => if is_space c then [] else [c] | r0 => c :: r0 end).
    rewrite IH. reflexivity.
Qed.

(** The result of [strip] does not begin with whitespace. *)
Lemma strip_head (s : str) (c : char) (s' : str) :
  strip s = c :: s' -> is_space c = false.
Proof.
  unfold strip. destruct (lstrip s) as [| a u] eqn:E; simpl; [discriminate |].
  pose proof (lstrip_head s a u E) as Ha.
  destruct (rstrip_head u a Ha) as [r Hr]. simpl in Hr. rewrite Hr.
  intros H. injection H as -> _. exact Ha.
Qed.

Lemma lstrip_strip (s : str) : lstrip (strip s) = strip s.
Proof.
  apply lstrip_fixed. destruct (strip s) as [| c s'] eqn:E; [exact Logic.I |].
  exact (strip_head s c s' E).
Qed.

Lemma strip_idem (s : str) : strip (strip s) = strip s.
Proof.
  unfold strip at 1. rewrite lstrip_strip. unfold strip. apply rstrip_idem.
Qed.

(** [lstrip s] is [strip s] followed by whitespace. *)
Lemma strip_app_run (s : str) : exists w, lstrip s = strip s ++ w /\ all_space w = true.
Proof. unfold strip. apply rstrip_app_run. Qed.

Lemma In_lstrip (c : char) (s : str) : In c (lstrip s) -> In c s.
Proof.
  induction s as [| a s IH]; simpl; [tauto |].
  destruct (is_space a); simpl; tauto.
Qed.

Lemma In_rstrip (c : char) (s : str) : In c (rstrip s) -> In c s.
Proof.
  induction s as [| a s IH]; simpl; [tauto |].
  destruct (rstrip s) as [| x r].
  - destruct (is_space a); simpl; tauto.
  - simpl. simpl in IH. tauto.
Qed.

Lemma In_strip (c : char) (s : str) : In c (strip s) -> In c s.
Proof. intros H. apply In_lstrip, In_rstrip, H. Qed.

Lemma split_no_sep (sep : char) (s : str) : ~ In sep s -> split sep s = [s].
Proof.
  induction s as [| c s IH]; simpl; [reflexivity |].
  intros H. destruct (N.eqb_spec c sep) as [-> | Hne]; [tauto |].
  rewrite IH by tauto. reflexivity.
Qed.

End PyFacts.

(** ** Facts about the matching engine *)

Module ReFacts.
Import Unicode Py Re Closed UnicodeFacts PyFacts.

Lemma option_eta {A : Type} (o : option A) :
  match o with Some x => Some x | None => None end = o.
Proof. destruct o; reflexivity. Qed.

(** One step of a repetition. *)
Lemma rep_cons {A : Type} (p : char -> bool) (lo : nat) (hi : option nat)
    (n : nat) (pv : option char) (c : char) (s : str)
    (k : nat -> option char -> str -> option A) :
  rep p lo hi n pv (c :: s) k =
  let stop := match lo with O => k n pv (c :: s) | S _ => None end in
  if p c && can_repeat hi then
    match rep p (Nat.pred lo) (dec hi) (S n) (Some c) s k with
    | Some x => Some x
    | None => stop
    end
  else stop.
Proof. reflexivity. Qed.

Lemma rep_nil {A : Type} (p : char -> bool) (lo : nat) (hi : option nat)
    (n : nat) (pv : option char) (k : nat -> option char -> str -> option A) :
  rep p lo hi n pv [] k = match lo with O => k n pv [] | S _ => None end.
Proof. reflexivity. Qed.

(** [a+]: one character, then [a*]. *)
Lemma rep_plus_cons {A : Type} (p : char -> bool) (n : nat) (pv : option char)
    (c : char) (s : str) (k : nat -> option char -> str -> option A) :
  rep p 1 None n pv (c :: s) k =
  if p c then rep p 0 None (S n) (Some c) s k else None.
Proof.
  rewrite rep_cons. simpl. destruct (p c); simpl; [apply option_eta | reflexivity].
Qed.

(** [a*] when what follows cannot start with an [a]: no backtracking. *)
Lemma rep_star_cons {A : Type} (p : char -> bool) (n : nat) (pv : option char)
    (c : char) (s : str) (k : nat -> option char -> str -> option A) :
  (p c = true -> k n pv (c :: s) = None) ->
  rep p 0 None n pv (c :: s) k =
  if p c then rep p 0 None (S n) (Some c) s k else k n pv (c :: s).
Proof.
  intros H. rewrite rep_cons. simpl. destruct (p c); simpl; [| reflexivity].
  rewrite (H eq_refl). apply option_eta.
Qed.

(** *** The equations of [sub_from] *)

Lemma sub_from_skip (fl : flags) (r : regex) (repl : str) (n : nat) (pv : option char)
    (c : char) (s : str) (k : nat) :
  sub_from fl r repl n pv (c :: s) (S k) = sub_from fl r repl (S n) (Some c) s k.
Proof. reflexivity. Qed.

Lemma sub_from_fail (fl : flags) (r : regex) (repl : str) (n : nat) (pv : option char)
    (s : str) :
  attempt fl r n pv s false = None ->
  sub_from fl r repl n pv s 0 =
  match s with
  | c :: s' => c :: sub_from fl r repl (S n) (Some c) s' 0
  | [] => []
  end.
Proof. intros H. destruct s; simpl; rewrite H; reflexivity. Qed.

Lemma sub_from_hit (fl : flags) (r : regex) (repl : str) (n : nat) (pv : option char)
    (c : char) (s : str) (len : nat) :
  attempt fl r n pv (c :: s) false = Some (S len) ->
  sub_from fl r repl n pv (c :: s) 0 = repl ++ sub_from fl r repl (S n) (Some c) s len.
Proof. intros H. simpl. rewrite H. reflexivity. Qed.

(** *** [\s+] replaced by a space *)

Lemma rep_space_total (n0 : nat) (s : str) (n : nat) (pv : option char) :
  rep is_space 0 None n pv s (fun n' _ _ => Some (n' - n0)) = Some (n + run_length s - n0).
Proof.
  revert n pv. induction s as [| c s IH]; intros n pv.
  - rewrite rep_nil. simpl. rewrite Nat.add_0_r. reflexivity.
  - rewrite rep_cons. simpl. destruct (is_space c); simpl.
    + rewrite IH. f_equal. lia.
    + rewrite Nat.add_0_r. reflexivity.
Qed.

Lemma attempt_spaces (n : nat) (pv : option char) (s : str) :
  attempt no_flags (plus Space) n pv s false =
  match run_length s with
  | O => None
  | S k => Some (S k)
  end.
Proof.
  unfold attempt, plus. cbn [exec pos prev rest caps andb].
  change (atom_matches no_flags Space) with is_space.
  destruct s as [| c s].
  - reflexivity.
  - rewrite rep_plus_cons. simpl. destruct (is_space c); [| reflexivity].
    rewrite (rep_space_total n s (S n) (Some c)). f_equal. lia.
Qed.

Lemma collapse_no_run (s : str) : run_length s = 0 -> collapse true s = collapse false s.
Proof.
  destruct s as [| c s]; simpl; [reflexivity |].
  destruct (is_space c); [discriminate | reflexivity].
Qed.

Lemma sub_spaces_from (s : str) (n : nat) (pv : option char) :
  sub_from no_flags (plus Space) [SPACE] n pv s 0 = collapse false s /\
  sub_from no_flags (plus Space) [SPACE] n pv s (run_length s) = collapse true s.
Proof.
  revert n pv. induction s as [| c s IH]; intros n pv.
  - split; reflexivity.
  - destruct (IH (S n) (Some c)) as [IH0 IH1].
    assert (H0 : sub_from no_flags (plus Space) [SPACE] n pv (c :: s) 0
                 = collapse false (c :: s)).
    { pose proof (attempt_spaces n pv (c :: s)) as Ha. simpl in Ha. simpl collapse.
      destruct (is_space c).
      - rewrite (sub_from_hit _ _ [SPACE] _ _ _ _ _ Ha). simpl. rewrite IH1. reflexivity.
      - rewrite (sub_from_fail _ _ [SPACE] _ _ _ Ha). rewrite IH0. reflexivity. }
    split; [exact H0 |].
    simpl run_length. destruct (is_space c) eqn:E.
    + rewrite sub_from_skip. rewrite IH1. simpl. rewrite E. reflexivity.
    + rewrite H0. simpl. rewrite E. reflexivity.
Qed.

Lemma sub_spaces (s : str) : sub no_flags (plus Space) [SPACE] s = collapse false s.
Proof. unfold sub. apply sub_spaces_from. Qed.

End ReFacts.

(** ** The header and footer patterns on a text without line feed *)

Module AnchoredFacts.
Import Unicode Py Re Closed UnicodeFacts PyFacts ReFacts.

Lemma exec_rep {A : Type} (fl : flags) (a : atom) (lo : nat) (hi : option nat) (r : regex)
    (n : nat) (pv : option char) (s : str) (cs : list (nat * str))
    (k : mstate -> option A) :
  exec fl (Cat (Rep a lo hi) r) (mk n pv s cs) k =
  rep (atom_matches fl a) lo hi n pv s (fun n' pv' s' => exec fl r (mk n' pv' s' cs) k).
Proof. reflexivity. Qed.

Lemma exec_eol_cons {A : Type} (n : nat) (pv : option char) (c : char) (s : str)
    (cs : list (nat * str)) (k : mstate -> option A) :
  (c =? LF)%N = false -> exec M Eol (mk n pv (c :: s) cs) k = None.
Proof. intros H. simpl. unfold at_eol. simpl. rewrite H. reflexivity. Qed.

Section Tails.
Context {A : Type} (k : mstate -> option A) (Hk : pos_only k).

Lemma exec_spaces_eol (cs : list (nat * str)) (s : str) (n : nat) (pv : option char) :
  ~ In LF s ->
  exec M spaces_eol (mk n pv s cs) k =
  if all_space s then done k (n + List.length s) else None.
Proof.
  unfold spaces_eol, star. rewrite exec_rep.
  revert n pv. induction s as [| c s IH]; intros n pv Hs.
  - rewrite rep_nil. simpl. rewrite Hk. simpl. rewrite Nat.add_0_r. reflexivity.
  - assert (Hc : (c =? LF)%N = false).
    { apply N.eqb_neq. intros ->. apply Hs. left. reflexivity. }
    rewrite rep_star_cons by (intros _; apply exec_eol_cons, Hc).
    change (atom_matches M Space c) with (is_space c). simpl all_space.
    destruct (is_space c); simpl.
    + rewrite IH by (intros H; apply Hs; right; exact H).
      replace (S n + List.length s) with (n + S (List.length s)) by lia. reflexivity.
    + apply exec_eol_cons, Hc.
Qed.

Lemma exec_number_tail (cs : list (nat * str)) (s : str) (n : nat) (pv : option char) :
  ~ In LF s ->
  rep is_digit 0 None n pv s (fun n' pv' s' => exec M spaces_eol (mk n' pv' s' cs) k) =
  if number_tail s then done k (n + List.length s) else None.
Proof.
  revert n pv. induction s as [| c s IH]; intros n pv Hs.
  - rewrite rep_nil. rewrite exec_spaces_eol by exact Hs. reflexivity.
  - assert (Hs' : ~ In LF s) by (intros H; apply Hs; right; exact H).
    rewrite rep_star_cons.
    + simpl number_tail. destruct (is_digit c) eqn:E.
      * rewrite IH by exact Hs'.
        replace (S n + List.length s) with (n + List.length (c :: s)) by (simpl; lia).
        reflexivity.
      * apply exec_spaces_eol, Hs.
    + intros E. rewrite exec_spaces_eol by exact Hs. simpl.
      rewrite (digit_not_space c E). reflexivity.
Qed.

Lemma exec_number_eol (cs : list (nat * str)) (s : str) (n : nat) (pv : option char) :
  ~ In LF s ->
  exec M number_eol (mk n pv s cs) k =
  if number_body s then done k (n + List.length s) else None.
Proof.
  intros Hs. unfold number_eol, plus. rewrite exec_rep.
  change (atom_matches M Digit) with is_digit.
  destruct s as [| c s].
  - reflexivity.
  - rewrite rep_plus_cons. simpl number_body. destruct (is_digit c); cbn [andb]; [| reflexivity].
    rewrite exec_number_tail by (intros H; apply Hs; right; exact H).
    replace (S n + List.length s) with (n + S (List.length s)) by lia. reflexivity.
Qed.

(** [\s*] in front of something that cannot begin with whitespace. *)
Lemma exec_leading_spaces (r : regex) (body : str -> bool) (cs : list (nat * str)) :
  (forall s n pv, ~ In LF s ->
     exec M r (mk n pv s cs) k = if body s then done k (n + List.length s) else None) ->
  (forall c s, is_space c = true -> body (c :: s) = false) ->
  forall s n pv, ~ In LF s ->
    exec M (Cat (star Space) r) (mk n pv s cs) k =
    if body (lstrip s) then done k (n + List.length s) else None.
Proof.
  intros Hr Hb. unfold star. intros s n pv. rewrite exec_rep.
  change (atom_matches M Space) with is_space.
  revert n pv. induction s as [| c s IH]; intros n pv Hs.
  - rewrite rep_nil. apply Hr. exact Hs.
  - assert (Hs' : ~ In LF s) by (intros H; apply Hs; right; exact H).
    rewrite rep_star_cons.
    + simpl lstrip. destruct (is_space c) eqn:E.
      * rewrite IH by exact Hs'.
        replace (S n + List.length s) with (n + List.length (c :: s)) by (simpl; lia).
        reflexivity.
      * apply Hr. exact Hs.
    + intros E. rewrite Hr by exact Hs. rewrite (Hb c s E). reflexivity.
Qed.

Lemma number_body_space (c : char) (s : str) :
  is_space c = true -> number_body (c :: s) = false.
Proof. intros H. simpl. rewrite (space_not_digit c H). reflexivity. Qed.

(** The page-number pattern after its [^]. *)
Lemma exec_page_number_body (cs : list (nat * str)) (s : str) (n : nat) (pv : option char) :
  ~ In LF s ->
  exec M (Cat (star Space) number_eol) (mk n pv s cs) k =
  if is_page_number s then done k (n + List.length s) else None.
Proof.
  apply (exec_leading_spaces number_eol number_body cs).
  - intros s0 n0 pv0. apply exec_number_eol.
  - apply number_body_space.
Qed.

(** A literal word, compared exactly. *)
Lemma exec_word (fl : flags) (w : str) (r : regex) (cs : list (nat * str)) :
  IGNORECASE fl = false ->
  forall s n pv,
    exists pv',
      exec fl (Cat (Str w) r) (mk n pv s cs) k =
      if startswith s w
      then exec fl r (mk (n + List.length w) pv' (skipn (List.length w) s) cs) k
      else None.
Proof.
  intros Hfl. induction w as [| x w IH]; intros s n pv.
  - exists pv. simpl. rewrite Nat.add_0_r. reflexivity.
  - destruct w as [| y w].
    + destruct s as [| c s].
      * exists pv. reflexivity.
      * exists (Some c). simpl. unfold char_eq. rewrite Hfl.
        destruct (c =? x)%N; simpl; [| reflexivity].
        replace (n + 1) with (S n) by lia. reflexivity.
    + destruct s as [| c s].
      * exists pv. reflexivity.
      * destruct (IH s (S n) (Some c)) as [pv' IH'].
        exists pv'.
        change (Str (x :: y :: w)) with (Cat (One (Lit x)) (Str (y :: w))).
        change (exec fl (Cat (Cat (One (Lit x)) (Str (y :: w))) r) (mk n pv (c :: s) cs) k)
          with (if atom_matches fl (Lit x) c
                then exec fl (Cat (Str (y :: w)) r) (mk (S n) (Some c) s cs) k
                else None).
        simpl atom_matches. unfold char_eq. rewrite Hfl.
        change (startswith (c :: s) (x :: y :: w))
          with ((c =? x)%N && startswith s (y :: w)).
        destruct (c =? x)%N; simpl andb; [| reflexivity].
        rewrite IH'.
        replace (S n + List.length (y :: w)) with (n + List.length (x :: y :: w))
          by (simpl; lia).
        reflexivity.
Qed.

Lemma startswith_length (s w : str) :
  startswith s w = true -> List.length w <= List.length s.
Proof.
  revert s. induction w as [| x w IH]; intros s H; simpl; [lia |].
  destruct s as [| c s]; simpl in H; [discriminate |].
  apply andb_true_iff in H. destruct H as [_ H]. apply IH in H. simpl. lia.
Qed.

Lemma In_skipn (c : char) (n : nat) (s : str) : In c (skipn n s) -> In c s.
Proof.
  revert s. induction n as [| n IH]; intros s; simpl; [tauto |].
  destruct s as [| a s]; [tauto |]. intros H. right. apply IH, H.
Qed.

(** The word, whitespace and a number. *)
Lemma exec_header_body (w : str) (cs : list (nat * str)) (s : str) (n : nat)
    (pv : option char) :
  ~ In LF s ->
  exec M (Cat (Str w) (Cat (plus Space) number_eol)) (mk n pv s cs) k =
  if header_body w s then done k (n + List.length s) else None.
Proof.
  intros Hs. destruct (exec_word M w (Cat (plus Space) number_eol) cs eq_refl s n pv)
    as [pv' ->].
  unfold header_body. destruct (startswith s w) eqn:Ew; [| reflexivity].
  simpl andb. unfold plus. rewrite exec_rep.
  change (atom_matches M Space) with is_space.
  pose proof (startswith_length s w Ew) as Hlen.
  assert (Hl : List.length (skipn (List.length w) s) = List.length s - List.length w)
    by apply length_skipn.
  assert (Hs' : ~ In LF (skipn (List.length w) s))
    by (intros H; apply Hs; exact (In_skipn _ _ _ H)).
  destruct (skipn (List.length w) s) as [| c t].
  - reflexivity.
  - rewrite rep_plus_cons. destruct (is_space c); cbn [andb]; [| reflexivity].
    change (rep is_space 0 None (S (n + List.length w)) (Some c) t
              (fun n' pv0 s' => exec M number_eol (mk n' pv0 s' cs) k))
      with (exec M (Cat (star Space) number_eol)
              (mk (S (n + List.length w)) (Some c) t cs) k).
    rewrite exec_page_number_body by (intros H; apply Hs'; right; exact H).
    unfold is_page_number. simpl in Hl.
    replace (S (n + List.length w) + List.length t) with (n + List.length s) by lia.
    reflexivity.
Qed.

Lemma header_body_space (w : str) (c : char) (s : str) :
  match w with x :: _ => is_space x = false | [] => False end ->
  is_space c = true -> header_body w (c :: s) = false.
Proof.
  destruct w as [| x w]; [tauto |]. intros Hx Hc. unfold header_body. simpl.
  destruct (N.eqb_spec c x) as [-> | _]; [| reflexivity].
  rewrite Hx in Hc. discriminate.
Qed.

Lemma exec_page_header_body (w : str) (cs : list (nat * str)) (s : str) (n : nat)
    (pv : option char) :
  match w with x :: _ => is_space x = false | [] => False end ->
  ~ In LF s ->
  exec M (Cat (star Space) (Cat (Str w) (Cat (plus Space) number_eol))) (mk n pv s cs) k =
  if is_page_header w s then done k (n + List.length s) else None.
Proof.
  intros Hw.
  apply (exec_leading_spaces (Cat (Str w) (Cat (plus Space) number_eol)) (header_body w) cs).
  - intros s0 n0 pv0. apply exec_header_body.
  - intros c0 s0. apply header_body_space, Hw.
Qed.

End Tails.

End AnchoredFacts.

(** ** The substitutions of [clean_text] *)

Module SubFacts.
Import Unicode Py Re Closed UnicodeFacts PyFacts ReFacts AnchoredFacts.
Import VietnamesePDFExtractor.

(** After a character that is not a line feed, [^] fails. *)
Lemma attempt_bol_inner (r : regex) (n : nat) (c : char) (s : str) (adv : bool) :
  (c =? LF)%N = false -> attempt M (Cat Bol r) n (Some c) s adv = None.
Proof. intros H. unfold attempt. simpl. unfold at_bol. simpl. rewrite H. reflexivity. Qed.

Lemma not_In_cons (c : char) (s : str) :
  ~ In LF (c :: s) -> (c =? LF)%N = false /\ ~ In LF s.
Proof.
  intros H. split.
  - apply N.eqb_neq. intros ->. apply H. left. reflexivity.
  - intros H'. apply H. right. exact H'.
Qed.

Lemma sub_bol_inner (r : regex) (repl : str) (s : str) (n : nat) (c : char) :
  (c =? LF)%N = false -> ~ In LF s ->
  sub_from M (Cat Bol r) repl n (Some c) s 0 = s.
Proof.
  revert n c. induction s as [| a s IH]; intros n c Hc Hs.
  - rewrite sub_from_fail by (apply attempt_bol_inner, Hc). reflexivity.
  - rewrite sub_from_fail by (apply attempt_bol_inner, Hc).
    destruct (not_In_cons a s Hs) as [Ha Hs'].
    rewrite (IH (S n) a Ha Hs'). reflexivity.
Qed.

Lemma sub_bol_skip_all (r : regex) (repl : str) (s : str) (n : nat) (c : char) :
  (c =? LF)%N = false -> ~ In LF s ->
  sub_from M (Cat Bol r) repl n (Some c) s (List.length s) = [].
Proof.
  revert n c. induction s as [| a s IH]; intros n c Hc Hs.
  - simpl List.length. rewrite sub_from_fail by (apply attempt_bol_inner, Hc). reflexivity.
  - destruct (not_In_cons a s Hs) as [Ha Hs'].
    simpl List.length. rewrite sub_from_skip. apply IH; assumption.
Qed.

(** A pattern between [^] and [$] that matches the whole text or nothing
    erases the text or leaves it. *)
Lemma sub_anchored (r : regex) (s : str) (b : bool) :
  ~ In LF s ->
  attempt M (Cat Bol r) 0 None s false = (if b then Some (List.length s) else None) ->
  (b = true -> s <> []) ->
  sub M (Cat Bol r) [] s = if b then [] else s.
Proof.
  intros Hs Ha Hb. unfold sub. destruct b.
  - destruct s as [| c s]; [exfalso; apply (Hb eq_refl); reflexivity |].
    destruct (not_In_cons c s Hs) as [Hc Hs'].
    simpl List.length in Ha. rewrite (sub_from_hit _ _ [] _ _ _ _ _ Ha).
    simpl. apply sub_bol_skip_all; assumption.
  - rewrite sub_from_fail by exact Ha.
    destruct s as [| c s]; [reflexivity |].
    destruct (not_In_cons c s Hs) as [Hc Hs'].
    rewrite sub_bol_inner by assumption. reflexivity.
Qed.

Lemma length_found_pos_only : pos_only length_found.
Proof. intros st. reflexivity. Qed.

Lemma attempt_page_number (s : str) :
  ~ In LF s ->
  attempt M page_number 0 None s false =
  if is_page_number s then Some (List.length s) else None.
Proof.
  intros Hs.
  change (attempt M page_number 0 None s false)
    with (exec M (Cat (star Space) number_eol) (mk 0 None s []) length_found).
  rewrite (exec_page_number_body length_found length_found_pos_only) by exact Hs.
  unfold done, length_found. simpl. rewrite Nat.sub_0_r. reflexivity.
Qed.

Lemma attempt_page_header (w : str) (s : str) :
  match w with x :: _ => is_space x = false | [] => False end ->
  ~ In LF s ->
  attempt M (page_header w) 0 None s false =
  if is_page_header w s then Some (List.length s) else None.
Proof.
  intros Hw Hs.
  change (attempt M (page_header w) 0 None s false)
    with (exec M (Cat (star Space) (Cat (Str w) (Cat (plus Space) number_eol)))
            (mk 0 None s []) length_found).
  rewrite (exec_page_header_body length_found length_found_pos_only) by assumption.
  unfold done, length_found. simpl. rewrite Nat.sub_0_r. reflexivity.
Qed.

Lemma page_number_nonempty (s : str) : is_page_number s = true -> s <> [].
Proof. intros H ->. discriminate. Qed.

Lemma page_header_nonempty (w s : str) : is_page_header w s = true -> s <> [].
Proof.
  intros H ->. unfold is_page_header, header_body in H. simpl in H.
  apply andb_true_iff in H. destruct H as [_ H].
  destruct (List.length w); discriminate.
Qed.

Lemma sub_page_number (s : str) :
  ~ In LF s -> sub M page_number [] s = if is_page_number s then [] else s.
Proof.
  intros Hs.
  apply (sub_anchored (Cat (star Space) number_eol) s (is_page_number s) Hs).
  - apply attempt_page_number, Hs.
  - apply page_number_nonempty.
Qed.

Lemma sub_page_header (w s : str) :
  match w with x :: _ => is_space x = false | [] => False end ->
  ~ In LF s -> sub M (page_header w) [] s = if is_page_header w s then [] else s.
Proof.
  intros Hw Hs.
  apply (sub_anchored (Cat (star Space) (Cat (Str w) (Cat (plus Space) number_eol)))
           s (is_page_header w s) Hs).
  - apply attempt_page_header; assumption.
  - apply page_header_nonempty.
Qed.

(** The rule for line breaks needs a line feed to start. *)
Lemma attempt_blank_lines (n : nat) (pv : option char) (s : str) :
  match s with c :: _ => (c =? LF)%N = false | [] => True end ->
  attempt no_flags blank_lines n pv s false = None.
Proof.
  destruct s as [| c s]; [reflexivity |]. intros H.
  unfold attempt, blank_lines. simpl. unfold char_eq. simpl. rewrite H. reflexivity.
Qed.

Lemma sub_blank_lines_from (s : str) (n : nat) (pv : option char) :
  ~ In LF s -> sub_from no_flags blank_lines [LF; LF] n pv s 0 = s.
Proof.
  revert n pv. induction s as [| c s IH]; intros n pv Hs.
  - rewrite sub_from_fail by (apply attempt_blank_lines; exact Logic.I). reflexivity.
  - destruct (not_In_cons c s Hs) as [Hc Hs'].
    rewrite sub_from_fail by (apply attempt_blank_lines; exact Hc).
    rewrite IH by exact Hs'. reflexivity.
Qed.

Lemma sub_blank_lines (s : str) :
  ~ In LF s -> sub no_flags blank_lines [LF; LF] s = s.
Proof. apply sub_blank_lines_from. Qed.

(** *** The collapsed text *)

Lemma collapse_spaces (b : bool) (s : str) (c : char) :
  In c (collapse b s) -> is_space c = true -> c = SPACE.
Proof.
  revert b. induction s as [| a s IH]; intros b; simpl; [tauto |].
  destruct (is_space a) eqn:E.
  - destruct b; simpl.
    + apply IH.
    + intros [<- | H] Hc; [reflexivity | exact (IH true H Hc)].
  - simpl. intros [<- | H] Hc.
    + rewrite E in Hc. discriminate.
    + exact (IH false H Hc).
Qed.

Lemma collapse_no_LF (b : bool) (s : str) : ~ In LF (collapse b s).
Proof.
  intros H. pose proof (collapse_spaces b s LF H LF_is_space) as E. discriminate E.
Qed.

Lemma collapse_true_head (s : str) :
  match collapse true s with c :: _ => is_space c = false | [] => True end.
Proof.
  induction s as [| a s IH]; simpl; [exact Logic.I |].
  destruct (is_space a) eqn:E; [exact IH | exact E].
Qed.

Lemma single_spaced_collapse (b : bool) (s : str) : single_spaced (collapse b s) = true.
Proof.
  revert b. induction s as [| a s IH]; intros b; simpl; [reflexivity |].
  destruct (is_space a) eqn:E.
  - destruct b; [apply IH |].
    simpl. rewrite (IH true). pose proof (collapse_true_head s) as Hh.
    destruct (collapse true s) as [| x r]; [reflexivity |]. rewrite Hh. reflexivity.
  - simpl. rewrite E. apply IH.
Qed.

Lemma collapse_fixed (s : str) : single_spaced s = true -> collapse false s = s.
Proof.
  induction s as [| c s IH]; simpl; [reflexivity |].
  intros H. apply andb_true_iff in H. destruct H as [Hc Hs].
  destruct (is_space c) eqn:E.
  - apply andb_true_iff in Hc. destruct Hc as [Hc Hn].
    apply N.eqb_eq in Hc. subst c. f_equal.
    rewrite collapse_no_run; [apply IH, Hs |].
    destruct s as [| x r]; [reflexivity |]. simpl.
    apply negb_true_iff in Hn. rewrite Hn. reflexivity.
  - f_equal. apply IH, Hs.
Qed.

Lemma single_spaced_suffix (a b : str) :
  single_spaced (a ++ b) = true -> single_spaced b = true.
Proof.
  induction a as [| c a IH]; simpl; [tauto |].
  intros H. apply andb_true_iff in H. destruct H as [_ H]. apply IH, H.
Qed.

Lemma single_spaced_prefix (a b : str) :
  single_spaced (a ++ b) = true -> single_spaced a = true.
Proof.
  induction a as [| c a IH]; simpl; [reflexivity |].
  intros H. apply andb_true_iff in H. destruct H as [Hc H].
  rewrite (IH H), andb_true_r.
  destruct (is_space c); [| reflexivity].
  apply andb_true_iff in Hc. destruct Hc as [Hc Hn]. rewrite Hc. simpl.
  destruct a as [| x r]; [reflexivity | exact Hn].
Qed.

Lemma single_spaced_strip (s : str) : single_spaced s = true -> single_spaced (strip s) = true.
Proof.
  intros H. destruct (lstrip_app_run s) as [w [Hs _]].
  rewrite Hs in H. apply single_spaced_suffix in H.
  destruct (strip_app_run s) as [w' [Hs' _]].
  rewrite Hs' in H. apply single_spaced_prefix in H. exact H.
Qed.

(** *** Whitespace after the text does not change what the header
    patterns see *)

Lemma all_space_app (a b : str) :
  all_space a = true -> all_space b = true -> all_space (a ++ b) = true.
Proof. unfold all_space. intros Ha Hb. rewrite forallb_app, Ha, Hb. reflexivity. Qed.

Lemma number_tail_app (s w : str) :
  all_space w = true -> number_tail s = true -> number_tail (s ++ w) = true.
Proof.
  intros Hw. induction s as [| c s IH]; simpl.
  - intros _. destruct w as [| x w]; [reflexivity |].
    simpl in Hw. apply andb_true_iff in Hw. destruct Hw as [Hx Hw].
    simpl. rewrite (space_not_digit x Hx), Hx. exact Hw.
  - destruct (is_digit c); [exact IH |].
    intros H. apply andb_true_iff in H. destruct H as [Hc Hs]. rewrite Hc. simpl.
    apply (all_space_app s w Hs Hw).
Qed.

Lemma number_body_app (s w : str) :
  all_space w = true -> number_body s = true -> number_body (s ++ w) = true.
Proof.
  intros Hw. destruct s as [| c s]; simpl; [discriminate |].
  intros H. apply andb_true_iff in H. destruct H as [Hc Hs].
  rewrite Hc. simpl. apply number_tail_app; assumption.
Qed.

Lemma lstrip_app_nonempty (a b : str) : lstrip a <> [] -> lstrip (a ++ b) = lstrip a ++ b.
Proof.
  induction a as [| c a IH]; simpl; [intros H; exfalso; apply H; reflexivity |].
  destruct (is_space c); [exact IH | reflexivity].
Qed.

Lemma startswith_app (s w t : str) : startswith s t = true -> startswith (s ++ w) t = true.
Proof.
  revert s. induction t as [| x t IH]; intros s; simpl; [reflexivity |].
  destruct s as [| c s]; simpl; [discriminate |].
  intros H. apply andb_true_iff in H. destruct H as [Hc Hs].
  rewrite Hc. simpl. apply IH, Hs.
Qed.

Lemma header_body_app (t s w : str) :
  all_space w = true -> header_body t s = true -> header_body t (s ++ w) = true.
Proof.
  intros Hw. unfold header_body. intros H.
  apply andb_true_iff in H. destruct H as [Hp Hr].
  rewrite (startswith_app s w t Hp). simpl.
  pose proof (startswith_length s t Hp) as Hlen.
  rewrite skipn_app. replace (List.length t - List.length s) with 0 by lia.
  simpl skipn at 2.
  destruct (skipn (List.length t) s) as [| c u]; [discriminate |].
  apply andb_true_iff in Hr. destruct Hr as [Hc Hu]. simpl. rewrite Hc. simpl.
  rewrite lstrip_app_nonempty.
  - apply number_body_app; assumption.
  - intros E. rewrite E in Hu. discriminate.
Qed.

Lemma erased_strip (s : str) : erased (strip s) = true -> erased s = true.
Proof.
  unfold erased, is_page_number, is_page_header. rewrite lstrip_strip.
  destruct (strip_app_run s) as [w [-> Hw]].
  intros H. apply orb_true_iff in H. destruct H as [H | H].
  - apply orb_true_iff in H. destruct H as [H | H].
    + rewrite (number_body_app _ w Hw H). reflexivity.
    + rewrite (header_body_app _ _ w Hw H). rewrite orb_true_r. reflexivity.
  - rewrite (header_body_app _ _ w Hw H). rewrite orb_true_r. reflexivity.
Qed.

(** *** [clean_text] in closed form *)

Lemma Page_head : match py "Page" with x :: _ => is_space x = false | [] => False end.
Proof. vm_compute. reflexivity. Qed.

Lemma Trang_head : match py "Trang" with x :: _ => is_space x = false | [] => False end.
Proof. vm_compute. reflexivity. Qed.

Lemma sub_page_header_nil (w : str) :
  match w with x :: _ => is_space x = false | [] => False end ->
  sub M (page_header w) [] [] = [].
Proof.
  intros Hw. rewrite (sub_page_header w [] Hw) by (intros []).
  destruct (is_page_header w []); reflexivity.
Qed.

Lemma clean_text_closed (text : str) :
  clean_text text =
  if is_empty text then []
  else if erased (collapse false text) then [] else strip (collapse false text).
Proof.
  unfold clean_text. destruct (is_empty text); [reflexivity |].
  rewrite sub_spaces.
  pose proof (collapse_no_LF false text) as Ht.
  set (t := collapse false text) in *.
  rewrite (sub_page_number t Ht). unfold erased.
  assert (Hnil : ~ In LF (@nil char)) by (intros []).
  destruct (is_page_number t); simpl orb.
  - rewrite (sub_page_header_nil (py "Page") Page_head).
    rewrite (sub_page_header_nil (py "Trang") Trang_head).
    rewrite (sub_blank_lines [] Hnil). reflexivity.
  - rewrite (sub_page_header (py "Page") t Page_head Ht).
    destruct (is_page_header (py "Page") t); simpl orb.
    + rewrite (sub_page_header_nil (py "Trang") Trang_head).
      rewrite (sub_blank_lines [] Hnil). reflexivity.
    + rewrite (sub_page_header (py "Trang") t Trang_head Ht).
      destruct (is_page_header (py "Trang") t).
      * rewrite (sub_blank_lines [] Hnil). reflexivity.
      * rewrite (sub_blank_lines t Ht). reflexivity.
Qed.

End SubFacts.

(** ** The all-capitals section pattern *)

Module CapsFacts.
Import Unicode Py Re Closed UnicodeFacts PyFacts ReFacts AnchoredFacts.
Import VietnamesePDFExtractor.

Lemma last_cons {A : Type} (a : A) (l : list A) (d : A) : last (a :: l) d = last l a.
Proof.
  revert a d. induction l as [| b l IH]; intros a d; [reflexivity |].
  change (last (a :: b :: l) d) with (last (b :: l) d). rewrite !IH. reflexivity.
Qed.

Lemma prev_after_cons (pv : option char) (c : char) (s : str) :
  prev_after pv (c :: s) = prev_after (Some c) s.
Proof. unfold prev_after. simpl map. apply last_cons. Qed.

Lemma ends_with_LF_cons (c : char) (s : str) : ends_with_LF s -> ends_with_LF (c :: s).
Proof. intros [a ->]. exists (c :: a). reflexivity. Qed.

Lemma caps_set (c : char) :
  atom_matches no_flags (Set_ [upper_AZ; ISpace]) c = is_AZ c || is_space c.
Proof. simpl. unfold char_eq, is_AZ. simpl. rewrite orb_false_r. reflexivity. Qed.

Lemma upper_set (c : char) : atom_matches no_flags (Set_ [upper_AZ]) c = is_AZ c.
Proof. simpl. unfold is_AZ. rewrite orb_false_r. reflexivity. Qed.

(** "[A-Z\s]{lo,hi}" and then "$", on a text that does not end with a line
    feed: all of the text or nothing.  [full] is the text the group started
    at. *)
Lemma rep_caps_eol (full : str) (s : str) (lo hi n : nat) (pv : option char) :
  ~ ends_with_LF s ->
  rep (atom_matches no_flags (Set_ [upper_AZ; ISpace])) lo (Some hi) n pv s
    (fun n' pv' s' =>
       if at_eol no_flags (mk n' pv' s' [])
       then Some (mk n' pv' s' [(1, firstn (n' - 0) full)])
       else None) =
  if caps_tail lo hi s
  then Some (mk (n + List.length s) (prev_after pv s) []
               [(1, firstn (n + List.length s - 0) full)])
  else None.
Proof.
  revert lo hi n pv. induction s as [| x s IH]; intros lo hi n pv Hs.
  - rewrite rep_nil. simpl. rewrite Nat.add_0_r. destruct lo; reflexivity.
  - assert (Hstop : (if at_eol no_flags (mk n pv (x :: s) [])
                     then Some (mk n pv (x :: s) [(1, firstn (n - 0) full)])
                     else None) = None).
    { unfold at_eol. simpl. destruct (N.eqb_spec x LF) as [-> | _]; [| reflexivity].
      destruct s as [| y s]; [| reflexivity].
      exfalso. apply Hs. exists []. reflexivity. }
    rewrite rep_cons. cbv zeta. rewrite Hstop. rewrite caps_set.
    assert (Hs' : ~ ends_with_LF s) by (intros H; apply Hs, ends_with_LF_cons, H).
    simpl caps_tail. destruct (is_AZ x || is_space x); simpl andb.
    + destruct hi as [| hi]; simpl Nat.eqb; simpl negb; simpl can_repeat; cbv iota.
      * destruct lo; reflexivity.
      * simpl dec. rewrite (IH (Nat.pred lo) hi (S n) (Some x) Hs').
        rewrite prev_after_cons.
        replace (S n + List.length s) with (n + List.length (x :: s)) by (simpl; lia).
        cbn [Nat.pred andb].
        destruct (caps_tail (Nat.pred lo) hi s); [reflexivity |].
        destruct lo; reflexivity.
    + destruct lo; reflexivity.
Qed.

Lemma match_caps (line : str) :
  ~ ends_with_LF line ->
  match_ no_flags caps_pattern line =
  if caps_heading line
  then Some (mk (List.length line) (prev_after None line) [] [(1, line)])
  else None.
Proof.
  intros Hl. unfold match_, caps_pattern. simpl nth.
  destruct line as [| c r]; [reflexivity |].
  transitivity
    (if atom_matches no_flags (Set_ [upper_AZ]) c
     then rep (atom_matches no_flags (Set_ [upper_AZ; ISpace])) 2 (Some 30) 1 (Some c) r
            (fun n' pv' s' =>
               if at_eol no_flags (mk n' pv' s' [])
               then Some (mk n' pv' s' [(1, firstn (n' - 0) (c :: r))])
               else None)
     else None);
    [reflexivity |].
  rewrite upper_set. simpl caps_heading. destruct (is_AZ c); [| reflexivity]. simpl andb.
  assert (Hr : ~ ends_with_LF r) by (intros H; apply Hl, ends_with_LF_cons, H).
  rewrite (rep_caps_eol (c :: r) r 2 30 1 (Some c) Hr).
  destruct (caps_tail 2 30 r); [| reflexivity].
  rewrite prev_after_cons.
  replace (1 + List.length r - 0) with (List.length (c :: r)) by (simpl; lia).
  rewrite firstn_all. reflexivity.
Qed.

End CapsFacts.

(** ** The classifier, the page loop and the counters *)

Module PipelineFacts.
Import Unicode Py Re Closed UnicodeFacts PyFacts ReFacts AnchoredFacts SubFacts CapsFacts.
Import VietnamesePDFExtractor.

Lemma str_eqb_eq (a b : str) : str_eqb a b = true <-> a = b.
Proof.
  unfold str_eqb. destruct (list_eq_dec N.eq_dec a b) as [E | E].
  - split; [intros _; exact E | reflexivity].
  - split; [discriminate | intros H; contradiction].
Qed.

Lemma same_chapter_iff (current_chapter : option str) (title : str) :
  same_chapter current_chapter title = true <-> current_chapter = Some title.
Proof.
  destruct current_chapter as [t |]; simpl.
  - rewrite str_eqb_eq. split; [intros ->; reflexivity | intros H; injection H as ->; reflexivity].
  - split; discriminate.
Qed.

Lemma detect_chapter_strip (line : str) : detect_chapter (strip line) = detect_chapter line.
Proof. unfold detect_chapter. rewrite strip_idem. reflexivity. Qed.

Lemma detect_section_strip (line : str) : detect_section (strip line) = detect_section line.
Proof. unfold detect_section. rewrite strip_idem. reflexivity. Qed.

Lemma detect_chapter_blank (line : str) : strip line = [] -> detect_chapter line = None.
Proof. intros H. unfold detect_chapter. rewrite H. reflexivity. Qed.

(** The three branches of the loop body. *)
Lemma process_line_chapter (cur : option str) (content : list str) (line tag title : str) :
  detect_chapter line = Some (tag, title) ->
  process_line (cur, content) line =
  if same_chapter cur title then (cur, content)
  else (Some title, content ++ [chapter_marker title]).
Proof.
  intros H. unfold process_line.
  destruct (is_empty (strip line)) eqn:E.
  - destruct (strip line) eqn:El; [| discriminate].
    rewrite (detect_chapter_blank line El) in H. discriminate.
  - rewrite detect_chapter_strip, H. simpl snd.
    destruct (same_chapter cur title); reflexivity.
Qed.

Lemma process_line_section (cur : option str) (content : list str) (line tag title : str) :
  strip line <> [] ->
  detect_chapter line = None ->
  detect_section line = Some (tag, title) ->
  process_line (cur, content) line = (cur, content ++ [section_marker title]).
Proof.
  intros Hl Hc Hs. unfold process_line.
  assert (E : is_empty (strip line) = false)
    by (destruct (strip line); [contradiction | reflexivity]).
  rewrite E, detect_chapter_strip, Hc, detect_section_strip, Hs. reflexivity.
Qed.

Lemma process_line_body (cur : option str) (content : list str) (line : str) :
  strip line <> [] ->
  detect_chapter line = None ->
  detect_section line = None ->
  process_line (cur, content) line = (cur, content ++ [strip line]).
Proof.
  intros Hl Hc Hs. unfold process_line.
  assert (E : is_empty (strip line) = false)
    by (destruct (strip line); [contradiction | reflexivity]).
  rewrite E, detect_chapter_strip, Hc, detect_section_strip, Hs. reflexivity.
Qed.

(** *** [clean_text] leaves one line *)

Lemma clean_text_no_LF (text : str) : ~ In LF (clean_text text).
Proof.
  rewrite clean_text_closed. destruct (is_empty text); [intros [] |].
  destruct (erased (collapse false text)); [intros [] |].
  intros H. apply In_strip in H. exact (collapse_no_LF false text H).
Qed.

Lemma clean_text_lines (text : str) : split LF (clean_text text) = [clean_text text].
Proof. apply split_no_sep, clean_text_no_LF. Qed.

Lemma clean_text_nil : clean_text [] = [].
Proof. reflexivity. Qed.

(** A page whose line is a chapter heading. *)
Lemma process_page_chapter (cur : option str) (content : list str) (page_num : nat)
    (text h tag title : str) :
  In h (split LF (clean_text text)) ->
  detect_chapter h = Some (tag, title) ->
  process_page (cur, content) page_num (Some text) =
  if same_chapter cur title then (cur, content)
  else (Some title, content ++ [page_marker page_num; chapter_marker title; []]).
Proof.
  intros Hin Hd. rewrite clean_text_lines in Hin.
  destruct Hin as [Hh | []].
  assert (Hne : h <> []).
  { intros ->. discriminate Hd. }
  assert (Ee : is_empty text = false).
  { destruct text; [| reflexivity]. exfalso. apply Hne. rewrite <- Hh. reflexivity. }
  assert (Ee' : is_empty (clean_text text) = false).
  { rewrite Hh. destruct h; [contradiction | reflexivity]. }
  unfold process_page. rewrite Ee, Ee', clean_text_lines, Hh.
  change (fold_left process_line [h] (cur, [])) with (process_line (cur, []) h).
  rewrite (process_line_chapter cur [] h tag title Hd).
  destruct (same_chapter cur title); reflexivity.
Qed.

(** *** Trimmed lines *)

Lemma rstrip_snoc_space (a : str) (c : char) :
  is_space c = true -> rstrip (a ++ [c]) = rstrip a.
Proof.
  intros Hc. induction a as [| x a IH]; simpl.
  - rewrite Hc. reflexivity.
  - rewrite IH. reflexivity.
Qed.

Lemma rstrip_length (s : str) : List.length (rstrip s) <= List.length s.
Proof.
  induction s as [| c s IH]; simpl; [lia |].
  destruct (rstrip s); [destruct (is_space c) |]; simpl in *; lia.
Qed.

Lemma lstrip_length (s : str) : List.length (lstrip s) <= List.length s.
Proof.
  induction s as [| c s IH]; simpl; [lia |].
  destruct (is_space c); simpl; lia.
Qed.

Lemma trimmed_not_LF_end (line : str) : strip line = line -> ~ ends_with_LF line.
Proof.
  intros Ht [a Ha].
  assert (Hl : lstrip line = line).
  { apply lstrip_fixed. destruct line as [| c s] eqn:E; [exact Logic.I |].
    rewrite <- E in Ht. rewrite E in Ht at 2. exact (strip_head line c s Ht). }
  unfold strip in Ht. rewrite Hl in Ht. rewrite Ha in Ht.
  rewrite (rstrip_snoc_space a LF LF_is_space) in Ht.
  pose proof (rstrip_length a) as Hlen. rewrite Ht in Hlen.
  rewrite length_app in Hlen. simpl in Hlen. lia.
Qed.

(** *** The all-capitals heading in words *)

Lemma caps_tail_iff (lo hi : nat) (s : str) :
  caps_tail lo hi s = true <->
  lo <= List.length s <= hi /\ Forall (fun x => is_AZ x = true \/ is_space x = true) s.
Proof.
  revert lo hi. induction s as [| c s IH]; intros lo hi; simpl.
  - rewrite Nat.eqb_eq. split.
    + intros ->. split; [lia | constructor].
    + intros [H _]. lia.
  - rewrite !andb_true_iff, negb_true_iff, Nat.eqb_neq, orb_true_iff, IH. split.
    + intros [[Hc Hhi] [Hlen Hall]]. split; [lia | constructor; assumption].
    + intros [Hlen Hall]. inversion Hall as [| ? ? Hc Hall']; subst.
      split; [split; [exact Hc | lia] | split; [lia | exact Hall']].
Qed.

Lemma caps_heading_iff (s : str) : caps_heading s = true <-> caps_line s.
Proof.
  unfold caps_line. destruct s as [| c r]; simpl.
  - split; [discriminate |]. intros [H _]. lia.
  - rewrite andb_true_iff, caps_tail_iff. split.
    + intros [Hc [Hlen Hall]]. split; [lia |]. exists c, r. auto.
    + intros [Hlen [c' [r' [E [Hc Hall]]]]]. injection E as <- <-.
      split; [exact Hc | split; [lia | exact Hall]].
Qed.

Lemma match_numbered_section_not_digit (c : char) (r : str) :
  is_digit c = false -> match_ no_flags numbered_section_pattern (c :: r) = None.
Proof.
  intros H. unfold match_, numbered_section_pattern. simpl nth.
  transitivity
    (rep (atom_matches no_flags Digit) 1 None 0 None (c :: r)
       (fun n' pv' s' =>
          exec no_flags
            (Cat (One (Lit FULL_STOP)) (plus Digit))
            (mk n' pv' s' [])
            (fun st' =>
               exec no_flags
                 (Seq [plus (Set_ [ISpace; IChar FULL_STOP; IChar COLON]); Group 2 (star Dot); Eol])
                 {| pos := pos st'; prev := prev st'; rest := rest st';
                    caps := (1, firstn (pos st' - 0) (c :: r)) :: caps st' |}
                 (fun st => Some st))));
    [reflexivity |].
  rewrite rep_plus_cons. change (atom_matches no_flags Digit c) with (is_digit c).
  rewrite H. reflexivity.
Qed.

Lemma detect_section_caps (line : str) :
  strip line = line -> caps_heading line = true ->
  detect_section line = Some (SECTION, line).
Proof.
  intros Ht Hc. unfold detect_section. rewrite Ht.
  pose proof (proj1 (caps_heading_iff line) Hc) as [Hlen [c [r [E [Hc1 _]]]]].
  assert (Hguard : is_empty line || (80 <? List.length line) = false).
  { clear E. destruct line; [discriminate Hc |].
    cbn [is_empty orb]. apply Nat.ltb_ge. lia. }
  rewrite Hguard.
  change section_patterns with [numbered_section_pattern; caps_pattern].
  assert (Hn : match_ no_flags numbered_section_pattern line = None).
  { rewrite E. apply match_numbered_section_not_digit, AZ_not_digit, Hc1. }
  unfold section_loop.
  rewrite Hn, (match_caps line (trimmed_not_LF_end line Ht)), Hc.
  reflexivity.
Qed.

(** *** [count] and the number of occurrences *)

Lemma startswith_split (s t : str) :
  startswith s t = true -> s = t ++ skipn (List.length t) s.
Proof.
  revert s. induction t as [| x t IH]; intros s; simpl; [reflexivity |].
  destruct s as [| c s]; [discriminate |].
  intros H. apply andb_true_iff in H. destruct H as [Hc Hs].
  apply N.eqb_eq in Hc. subst c. f_equal. apply IH, Hs.
Qed.

Lemma count_from_occurrences (c0 : char) (t' : str) :
  ~ In c0 t' ->
  forall s pre post,
    s = pre ++ post -> (forall x, In x pre -> x <> c0) ->
    count_from (c0 :: t') s (List.length pre) = occurrences (c0 :: t') s.
Proof.
  intros Hc0. induction s as [| a s IH]; intros pre post Hs Hpre.
  - reflexivity.
  - destruct pre as [| p pre].
    + simpl List.length. simpl in Hs. cbn [count_from occurrences].
      destruct (startswith (a :: s) (c0 :: t')) eqn:E.
      * simpl in E. apply andb_true_iff in E. destruct E as [_ E].
        cbn [List.length Nat.pred].
        rewrite (IH t' (skipn (List.length t') s) (startswith_split s t' E)).
        -- reflexivity.
        -- intros x Hx ->. exact (Hc0 Hx).
      * apply (IH [] s eq_refl). intros x [].
    + simpl in Hs. injection Hs as Hap Hs. subst p.
      cbn [List.length count_from occurrences].
      rewrite (IH pre post Hs) by (intros x Hx; apply Hpre; right; exact Hx).
      assert (E : startswith (a :: s) (c0 :: t') = false).
      { simpl. destruct (N.eqb_spec a c0) as [-> | _]; [| reflexivity].
        exfalso. apply (Hpre c0); [left |]; reflexivity. }
      rewrite E. reflexivity.
Qed.

Lemma count_occurrences (c0 : char) (t' : str) (s : str) :
  ~ In c0 t' -> count s (c0 :: t') = occurrences (c0 :: t') s.
Proof.
  intros H. unfold count.
  apply (count_from_occurrences c0 t' H s [] s eq_refl). intros x [].
Qed.

(** *** Failures in the page loop *)

Lemma pages_loop_only_Exception (pages : list page) (n : nat) (st : option str * list str) :
  Forall only_Exception pages -> only_Exception (pages_loop pages n st).
Proof.
  revert n st. induction pages as [| p pages IH]; intros n st H; simpl.
  - exact Logic.I.
  - inversion H as [| ? ? Hp Hps]; subst. destruct p as [text | e]; simpl.
    + apply IH, Hps.
    + exact Hp.
Qed.

End PipelineFacts.

(** ** The extractor and the console *)

Module ExtractorFacts.
Import Unicode Py Re Closed VietnamesePDFExtractor UnicodeFacts PipelineFacts.

Lemma map_numbered {A : Type} (f : nat * A -> A) (l : list A) :
  (forall n a, f (n, a) = a) ->
  forall start, map f (combine (seq start (List.length l)) l) = l.
Proof.
  intros Hf. induction l as [| a l IH]; intros start; [reflexivity |].
  cbn [List.length seq combine map]. rewrite Hf, IH. reflexivity.
Qed.

(** With a console that works the progress lines change nothing. *)
Lemma announced_console (w : world) (total_pages : nat) (pages : list page) :
  console_works w -> announced w total_pages pages = pages.
Proof.
  intros Hc. unfold announced. apply map_numbered.
  intros n p. rewrite Hc. reflexivity.
Qed.

Lemma println_console (w : world) (text : str) : console_works w -> println w text = Ok tt.
Proof. intros Hc. apply Hc. Qed.

(** The loop over pages that all give their text (or no text). *)
Lemma pages_loop_texts (texts : list (option str)) :
  forall n st,
    pages_loop (map Ok texts) n st =
    Ok (fold_left (fun st numbered => process_page st (fst numbered) (snd numbered))
          (combine (seq n (List.length texts)) texts) st).
Proof.
  induction texts as [| t texts IH]; intros n st; [reflexivity |].
  cbn [map pages_loop bind List.length seq combine fold_left fst snd]. apply IH.
Qed.

(** The loop ends only when every page gave its text. *)
Lemma pages_loop_ends (pages : list page) :
  forall n st st', pages_loop pages n st = Ok st' -> exists texts, pages = map Ok texts.
Proof.
  induction pages as [| p pages IH]; intros n st st' H.
  - exists []. reflexivity.
  - cbn [pages_loop] in H. destruct p as [t | e]; cbn [bind] in H; [| discriminate].
    destruct (IH _ _ _ H) as [texts ->]. exists (t :: texts). reflexivity.
Qed.

(** What [extract_text_from_pdf] returns when the console works and the
    failures are instances of [Exception]. *)
Lemma extract_returns (w : world) (pdf_path output_path : str) :
  failures_are_Exceptions w -> console_works w ->
  exists b,
    extract_text_from_pdf w pdf_path output_path = Ok b /\
    (b = true <->
     exists texts,
       pdfplumber_open w pdf_path = Ok (map Ok texts) /\
       write_text w output_path (join [LF] (document texts)) = Ok tt).
Proof.
  intros [Hopen [Hpages Hwrite]] Hc. unfold extract_text_from_pdf.
  rewrite !(println_console w _ Hc). cbn [bind].
  pose proof (Hopen pdf_path) as Ho. pose proof (Hpages pdf_path) as Hp.
  destruct (pdfplumber_open w pdf_path) as [pages | e] eqn:Eo.
  - cbn [bind]. rewrite (announced_console w _ pages Hc).
    rewrite !(println_console w _ Hc). cbn [bind].
    pose proof (pages_loop_only_Exception pages 1 (None, []) (Hp pages eq_refl)) as Hl.
    destruct (pages_loop pages 1 (None, [])) as [st | e] eqn:El.
    + cbn [bind]. destruct (pages_loop_ends pages _ _ _ El) as [texts ->].
      rewrite pages_loop_texts in El. injection El as <-.
      fold (document texts).
      pose proof (Hwrite output_path (join [LF] (document texts))) as Hw.
      destruct (write_text w output_path (join [LF] (document texts))) as [[] | e] eqn:Ew.
      * cbn [bind try_except]. exists true. split; [reflexivity |]. split; [| reflexivity].
        intros _. exists texts. split; [reflexivity | exact Ew].
      * destruct e as [msg | msg]; [| contradiction].
        cbn [bind try_except]. rewrite (println_console w _ Hc). cbn [bind].
        exists false. split; [reflexivity |]. split; [discriminate |].
        intros [texts' [H1 H2]]. injection H1 as H1.
        assert (E : texts' = texts).
        { clear -H1. revert texts' H1. induction texts as [| t texts IH]; intros [| t' texts'] H;
            try discriminate; [reflexivity |].
          injection H as -> H. rewrite (IH _ H). reflexivity. }
        subst texts'. rewrite Ew in H2. discriminate.
    + destruct e as [msg | msg]; [| contradiction].
      cbn [bind try_except]. rewrite (println_console w _ Hc). cbn [bind].
      exists false. split; [reflexivity |]. split; [discriminate |].
      intros [texts [H1 _]]. injection H1 as ->.
      rewrite pages_loop_texts in El. discriminate.
  - destruct e as [msg | msg]; [| contradiction].
    cbn [bind try_except]. rewrite (println_console w _ Hc). cbn [bind].
    exists false. split; [reflexivity |]. split; [discriminate |].
    intros [texts [H1 _]]. discriminate.
Qed.

(** The loop over a directory reaches every file. *)
Lemma directory_loop_returns (w : world) (files : list (Path * Path)) :
  failures_are_Exceptions w -> console_works w ->
  exists outcomes,
    directory_loop w files = Ok outcomes /\
    Forall2 (fun file b => extract_text_from_pdf w (as_str (fst file)) (as_str (snd file)) = Ok b)
      files outcomes.
Proof.
  intros Hw Hc. induction files as [| [pdf_file output_file] files [outcomes [IH Hall]]].
  - exists []. split; [reflexivity | constructor].
  - destruct (extract_returns w (as_str pdf_file) (as_str output_file) Hw Hc) as [b [Hb _]].
    exists (b :: outcomes). cbn [directory_loop]. rewrite Hb. cbn [bind].
    split.
    + destruct b; rewrite (println_console w _ Hc); cbn [bind]; rewrite IH; reflexivity.
    + constructor; [exact Hb | exact Hall].
Qed.

(** A handler that cannot print its message lets the failure out. *)
Lemma extract_raises_without_console :
  extract_text_from_pdf silent_world (py "book.pdf") (py "book.txt")
  = Raise (Exception (py "Broken pipe")).
Proof. vm_compute. reflexivity. Qed.

(** Capitals are uppercase letters. *)
Lemma AZ_uppercase (c : char) : is_AZ c = true -> uppercase_letter c = true.
Proof.
  intros H. unfold is_AZ in H. apply andb_true_iff in H. destruct H as [H1 H2].
  apply N.leb_le in H1. apply N.leb_le in H2.
  assert (Hin : In c (map N.of_nat (seq 65 26))).
  { apply in_map_iff. exists (N.to_nat c). split; [apply N2Nat.id |].
    apply in_seq. lia. }
  assert (Hall : forallb uppercase_letter (map N.of_nat (seq 65 26)) = true)
    by (vm_compute; reflexivity).
  rewrite forallb_forall in Hall. apply Hall, Hin.
Qed.

(** On a line without other capitals and other whitespace, the heading of
    the specification is the heading of the pattern. *)
Lemma capitals_and_spaces_iff (line : str) :
  plain_capitals line -> (capitals_and_spaces 31 line <-> caps_line line).
Proof.
  unfold plain_capitals, capitals_and_spaces, caps_line. intros Hp. split.
  - intros [Hlen [Hhead Hall]]. split; [exact Hlen |].
    destruct line as [| c r]; [discriminate |]. exists c, r. split; [reflexivity |].
    cbn [forallb head_is] in *.
    apply andb_true_iff in Hp. destruct Hp as [Hc Hr].
    apply andb_true_iff in Hall. destruct Hall as [_ Hall].
    split.
    + apply andb_true_iff in Hc. destruct Hc as [Hc _]. rewrite Hhead in Hc. exact Hc.
    + apply Forall_forall. intros x Hx.
      rewrite forallb_forall in Hr, Hall. specialize (Hr x Hx). specialize (Hall x Hx).
      apply andb_true_iff in Hr. destruct Hr as [Hu _].
      apply orb_true_iff in Hall. destruct Hall as [Hup | Hsp].
      * left. rewrite Hup in Hu. exact Hu.
      * right. apply N.eqb_eq in Hsp. subst x. exact SPACE_is_space.
  - intros [Hlen [c [r [-> [Hc Hr]]]]]. split; [exact Hlen |].
    cbn [forallb head_is] in *.
    apply andb_true_iff in Hp. destruct Hp as [_ Hp].
    rewrite (AZ_uppercase c Hc). split; [reflexivity |]. cbn [orb andb].
    apply forallb_forall. intros x Hx.
    rewrite Forall_forall in Hr. rewrite forallb_forall in Hp.
    specialize (Hp x Hx). apply andb_true_iff in Hp. destruct Hp as [_ Hs].
    destruct (Hr x Hx) as [Haz | Hspace].
    + rewrite (AZ_uppercase x Haz). reflexivity.
    + rewrite Hspace in Hs. cbn [negb orb] in Hs. rewrite Hs. apply orb_true_r.
Qed.

End ExtractorFacts.

(** * The claims *)

Import Unicode Py Re Closed VietnamesePDFExtractor BookProcessor.
Import UnicodeFacts PyFacts ReFacts AnchoredFacts SubFacts CapsFacts PipelineFacts.

(** C1 (the code differs): on the page "Chương 1: Mở đầu\nNội dung đầu tiên."
    the first substitution of [clean_text] turns the line feed into a space,
    the page reaches the classifier as one line, and the whole page becomes
    the chapter title.  The output has three lines, not the four of the
    claim. *)
Theorem example_page_output :
  clean_text example_page = py "Chương 1: Mở đầu Nội dung đầu tiên." /\
  pages_loop [Ok (Some example_page)] 1 (None, []) =
    Ok (Some (py "Chương 1: Mở đầu Nội dung đầu tiên."),
        [py "[PAGE:1]"; py "[CHAPTER:Chương 1: Mở đầu Nội dung đầu tiên.]"; []]) /\
  pages_loop [Ok (Some example_page)] 1 (None, []) <>
    Ok (Some (py "Chương 1: Mở đầu"),
        [py "[PAGE:1]"; py "[CHAPTER:Chương 1: Mở đầu]"; py "Nội dung đầu tiên."; []]).
Proof.
  split; [vm_compute; reflexivity |].
  split; [vm_compute; reflexivity |].
  vm_compute. discriminate.
Qed.

(** C2 (the code differs): a line that is only a page number is kept when
    the page has other lines, because the lines are joined before the
    header patterns are tried: "abc\n12\ndef" becomes "abc 12 def".  The
    number is removed only when it is the whole page. *)
Theorem page_number_line_is_kept :
  clean_text (py "abc" ++ [LF] ++ py "12" ++ [LF] ++ py "def") = py "abc 12 def" /\
  clean_text (py "12") = [] /\
  clean_text (py "Trang 12") = [].
Proof. repeat split; vm_compute; reflexivity. Qed.

(** C3 (the code differs): the loop body does what the claim says of it,
    it appends a chapter marker exactly when the title found differs from
    [current_chapter]; but the title it is given is the whole page, joined
    into one line by [clean_text].  Two consecutive pages that both start
    with the heading line "Chapter 1" and go on with different text have
    different titles, and the output has two chapter markers, not one. *)
Theorem repeated_heading_two_markers :
  (forall cur content line tag title,
      detect_chapter line = Some (tag, title) ->
      process_line (cur, content) line =
      if same_chapter cur title then (cur, content)
      else (Some title, content ++ [chapter_marker title])) /\
  (forall cur title, same_chapter cur title = true <-> cur = Some title) /\
  Forall (fun p => exists text, p = Ok (Some text) /\ In (py "Chapter 1") (split LF text))
    repeated_heading_pages /\
  pages_loop repeated_heading_pages 1 (None, []) =
    Ok (Some (py "Chapter 1: It goes on."),
        [py "[PAGE:1]"; py "[CHAPTER:Chapter 1: It begins.]"; [];
         py "[PAGE:2]"; py "[CHAPTER:Chapter 1: It goes on.]"; []]).
Proof.
  split; [exact process_line_chapter |].
  split; [exact same_chapter_iff |].
  split.
  - repeat constructor; eexists; (split; [reflexivity | vm_compute; left; reflexivity]).
  - vm_compute. reflexivity.
Qed.

(** C4: for a trimmed line that is not empty, a chapter match decides the
    line whatever [detect_section] would say of it; a section marker is
    written only when no chapter pattern matched; a line that is neither
    is appended as it is. *)
Theorem chapter_precedes_section (cur : option str) (content : list str) (line : str) :
  strip line = line -> line <> [] ->
  (forall tag title,
      detect_chapter line = Some (tag, title) ->
      process_line (cur, content) line =
      if same_chapter cur title then (cur, content)
      else (Some title, content ++ [chapter_marker title])) /\
  (forall tag title,
      detect_chapter line = None -> detect_section line = Some (tag, title) ->
      process_line (cur, content) line = (cur, content ++ [section_marker title])) /\
  (detect_chapter line = None -> detect_section line = None ->
   process_line (cur, content) line = (cur, content ++ [line])).
Proof.
  intros Ht Hne. assert (Hs : strip line <> []) by (rewrite Ht; exact Hne).
  split; [| split].
  - intros tag title. apply process_line_chapter.
  - intros tag title Hc Hsec. exact (process_line_section cur content line tag title Hs Hc Hsec).
  - intros Hc Hsec. rewrite (process_line_body cur content line Hs Hc Hsec), Ht. reflexivity.
Qed.

(** A line in capitals that starts with a chapter word matches a chapter
    pattern and the all-capitals section pattern; it is a chapter. *)
Lemma chapter_precedes_section_witness :
  detect_section (py "CHAPTER IV") = Some (SECTION, py "CHAPTER IV") /\
  process_line (None, []) (py "CHAPTER IV") =
    (if same_chapter None (py "CHAPTER IV") then (None, [])
     else (Some (py "CHAPTER IV"), [] ++ [chapter_marker (py "CHAPTER IV")])) /\
  process_line (None, []) (py "plain text") = (None, [] ++ [py "plain text"]).
Proof.
  split; [vm_compute; reflexivity |]. split.
  - apply (proj1 (chapter_precedes_section None [] (py "CHAPTER IV")
                    ltac:(vm_compute; reflexivity) ltac:(vm_compute; discriminate))
             CHAPTER (py "CHAPTER IV")).
    vm_compute. reflexivity.
  - apply (proj2 (proj2 (chapter_precedes_section None [] (py "plain text")
                           ltac:(vm_compute; reflexivity) ltac:(vm_compute; discriminate)))).
    + vm_compute. reflexivity.
    + vm_compute. reflexivity.
Defined.

(** The guards measure the trimmed line. *)
Lemma trimmed_length_guards (line : str) :
  (100 < List.length (strip line) -> detect_chapter line = None) /\
  (80 < List.length (strip line) -> detect_section line = None).
Proof.
  split; intros H.
  - unfold detect_chapter. apply Nat.ltb_lt in H. rewrite H, orb_true_r. reflexivity.
  - unfold detect_section. apply Nat.ltb_lt in H. rewrite H, orb_true_r. reflexivity.
Qed.

(** C5: the classifier is given trimmed lines (the loop strips every line
    before it asks).  A trimmed line of more than 100 characters is never a
    chapter and one of more than 80 characters is never a section, whatever
    the patterns say; the loop writes a line of more than 100 characters
    as body text. *)
Theorem length_guards (line : str) :
  strip line = line ->
  (100 < List.length line -> detect_chapter line = None) /\
  (80 < List.length line -> detect_section line = None) /\
  (100 < List.length line ->
   forall cur content, process_line (cur, content) line = (cur, content ++ [line])).
Proof.
  intros Ht. destruct (trimmed_length_guards line) as [Hc Hs]. rewrite Ht in Hc, Hs.
  split; [exact Hc |]. split; [exact Hs |].
  intros H cur content.
  rewrite (process_line_body cur content line); [rewrite Ht; reflexivity | | apply Hc, H |].
  - rewrite Ht. intros ->. simpl in H. lia.
  - apply Hs. lia.
Qed.

(** A trimmed line of 105 characters that starts with "Chapter 1", and 90
    capitals. *)
Lemma length_guards_witness :
  detect_chapter (py "Chapter 1 " ++ repeat 120%N 95) = None /\
  detect_section (repeat 65%N 90) = None.
Proof.
  split.
  - apply (proj1 (length_guards (py "Chapter 1 " ++ repeat 120%N 95)
                    ltac:(vm_compute; reflexivity))).
    vm_compute. lia.
  - apply (proj1 (proj2 (length_guards (repeat 65%N 90) ltac:(vm_compute; reflexivity)))).
    vm_compute. lia.
Defined.

(** C6 as stated fails: the pattern is one letter and then 2 to 30 more
    characters, so a line of 31 capitals is a section heading. *)
Lemma caps_length_counterexample :
  List.length (repeat 65%N 31) = 31 /\
  strip (repeat 65%N 31) = repeat 65%N 31 /\
  detect_chapter (repeat 65%N 31) = None /\
  detect_section (repeat 65%N 31) = Some (SECTION, repeat 65%N 31) /\
  process_line (None, []) (repeat 65%N 31) = (None, [section_marker (repeat 65%N 31)]).
Proof. repeat split; vm_compute; reflexivity. Qed.

(** C6 (amended): a trimmed line that matches no chapter pattern and has
    no uppercase letter other than A to Z and no whitespace other than the
    space is a section by the all-capitals pattern exactly when it has 3 to
    31 characters, all of them uppercase letters or spaces and the first a
    letter; the marker then carries the line itself. *)
Theorem caps_heading_is_section (line : str) :
  strip line = line -> detect_chapter line = None -> plain_capitals line ->
  (match_ no_flags caps_pattern line <> None <-> capitals_and_spaces 31 line) /\
  (capitals_and_spaces 31 line ->
   detect_section line = Some (SECTION, line) /\
   forall cur content,
     process_line (cur, content) line = (cur, content ++ [section_marker line])).
Proof.
  intros Ht Hc Hp.
  pose proof (ExtractorFacts.capitals_and_spaces_iff line Hp) as Hiff.
  split.
  - rewrite Hiff, (match_caps line (trimmed_not_LF_end line Ht)), <- caps_heading_iff.
    destruct (caps_heading line); split; congruence.
  - intros Hl. apply Hiff in Hl. pose proof (proj2 (caps_heading_iff line) Hl) as Hh.
    pose proof (detect_section_caps line Ht Hh) as Hs.
    split; [exact Hs |]. intros cur content.
    apply (process_line_section cur content line SECTION line); [| exact Hc | exact Hs].
    rewrite Ht. intros ->. discriminate Hh.
Qed.

Lemma capitals_31_line : capitals_and_spaces 31 (repeat 65%N 31).
Proof. repeat split; vm_compute; try reflexivity; lia. Qed.

(** 31 capitals are a section heading, 32 do not match the pattern. *)
Lemma caps_heading_is_section_witness :
  process_line (None, []) (repeat 65%N 31) = (None, [] ++ [section_marker (repeat 65%N 31)]) /\
  ~ (match_ no_flags caps_pattern (repeat 65%N 32) <> None).
Proof.
  split.
  - apply (proj2 (caps_heading_is_section (repeat 65%N 31)
                    ltac:(vm_compute; reflexivity) ltac:(vm_compute; reflexivity)
                    ltac:(vm_compute; reflexivity))).
    exact capitals_31_line.
  - intros H.
    apply (proj1 (caps_heading_is_section (repeat 65%N 32)
                    ltac:(vm_compute; reflexivity) ltac:(vm_compute; reflexivity)
                    ltac:(vm_compute; reflexivity))) in H.
    destruct H as [[_ H] _]. vm_compute in H. lia.
Defined.

(** What the amended statement leaves out: a heading in Vietnamese
    capitals, which the pattern, written with the letters A to Z, does not
    take for a heading. *)
Remark accented_capitals_are_body_text :
  capitals_and_spaces 31 (py "MỞ ĐẦU") /\
  detect_chapter (py "MỞ ĐẦU") = None /\
  detect_section (py "MỞ ĐẦU") = None /\
  process_line (None, []) (py "MỞ ĐẦU") = (None, [py "MỞ ĐẦU"]).
Proof.
  split; [repeat split; vm_compute; try reflexivity; lia |].
  repeat split; vm_compute; reflexivity.
Qed.

(** C7: cleaning a cleaned text changes nothing. *)
Theorem clean_text_idempotent (text : str) :
  clean_text (clean_text text) = clean_text text.
Proof.
  rewrite (clean_text_closed text).
  destruct (is_empty text); [reflexivity |].
  destruct (erased (collapse false text)) eqn:Ee; [reflexivity |].
  set (t := collapse false text) in *.
  rewrite (clean_text_closed (strip t)).
  destruct (is_empty (strip t)) eqn:En.
  - destruct (strip t); [reflexivity | discriminate].
  - assert (Hs : single_spaced (strip t) = true)
      by (apply single_spaced_strip, single_spaced_collapse).
    rewrite (collapse_fixed (strip t) Hs).
    destruct (erased (strip t)) eqn:Es.
    + rewrite (erased_strip t Es) in Ee. discriminate.
    + apply strip_idem.
Qed.


Lemma example_world_failures : failures_are_Exceptions example_world.
Proof.
  split; [| split].
  - intros path. simpl.
    destruct (str_eqb path (py "missing.pdf")); [exact Logic.I |].
    destruct (str_eqb path (py "broken.pdf")); exact Logic.I.
  - intros path pages. simpl.
    destruct (str_eqb path (py "missing.pdf")); [discriminate |].
    destruct (str_eqb path (py "broken.pdf")); intros H; injection H as <-;
      repeat constructor.
  - intros path text. exact Logic.I.
Qed.

Lemma example_world_console : console_works example_world.
Proof. intros text e. reflexivity. Qed.


Lemma PAGE_token : py "[PAGE:" = [91; 80; 65; 71; 69; 58]%N.
Proof. vm_compute. reflexivity. Qed.

Lemma CHAPTER_token : py "[CHAPTER:" = [91; 67; 72; 65; 80; 84; 69; 82; 58]%N.
Proof. vm_compute. reflexivity. Qed.

Lemma count_PAGE (content : str) :
  count content (py "[PAGE:") = occurrences (py "[PAGE:") content.
Proof.
  rewrite PAGE_token. apply count_occurrences.
  simpl. intros H. repeat (destruct H as [H | H]; [discriminate H |]). exact H.
Qed.

Lemma count_CHAPTER (content : str) :
  count content (py "[CHAPTER:") = occurrences (py "[CHAPTER:") content.
Proof.
  rewrite CHAPTER_token. apply count_occurrences.
  simpl. intros H. repeat (destruct H as [H | H]; [discriminate H |]). exact H.
Qed.

(** C9: the counters of the batch are counts of marker tokens in the text
    that was read: [chapter_count] is the number of places where "[CHAPTER:"
    occurs, the page count is the number of places where "[PAGE:" occurs,
    or 1 when there is none.  No page number is read. *)
Theorem counters_count_markers (w : world) (text_file content : str) :
  read_text w text_file = Ok content ->
  count_pages_in_text w text_file =
    Ok (if Nat.eqb (occurrences (py "[PAGE:") content) 0 then 1
        else occurrences (py "[PAGE:") content) /\
  exists info,
    extract_book_info w text_file = Ok info /\
    chapter_count info = occurrences (py "[CHAPTER:") content.
Proof.
  intros Hr. split.
  - unfold count_pages_in_text. rewrite Hr. cbn [bind try_except].
    unfold count_pages. rewrite count_PAGE.
    destruct (occurrences (py "[PAGE:") content); reflexivity.
  - exists (book_info_of content). split.
    + unfold extract_book_info. rewrite Hr. reflexivity.
    + unfold book_info_of. cbn [chapter_count]. apply count_CHAPTER.
Qed.

(** Pages 1 and 3: the page count is 2, and so is the chapter count. *)
Lemma counters_count_markers_witness :
  sparse_document =
    py "[PAGE:1]" ++ [LF] ++ py "[CHAPTER:Chapter 1]" ++ [LF; LF] ++
    py "[PAGE:3]" ++ [LF] ++ py "[CHAPTER:Chapter 2]" ++ [LF] /\
  count_pages_in_text sparse_world (py "book.txt") = Ok 2 /\
  exists info,
    extract_book_info sparse_world (py "book.txt") = Ok info /\
    chapter_count info = 2.
Proof.
  split; [vm_compute; reflexivity |].
  exact (counters_count_markers sparse_world (py "book.txt") sparse_document eq_refl).
Defined.

(** C10: the cleaned text has no line feed.  The first substitution leaves
    no whitespace but single spaces, the later steps add none, and
    splitting the result at line feeds gives back the text as its only
    line. *)
Theorem clean_text_is_one_line (text : str) :
  ~ In LF (clean_text text) /\
  (forall c, In c (sub no_flags (plus Space) [SPACE] text) ->
             is_space c = true -> c = SPACE) /\
  split LF (clean_text text) = [clean_text text].
Proof.
  split; [apply clean_text_no_LF |].
  split; [| apply clean_text_lines].
  intros c. rewrite sub_spaces. apply collapse_spaces.
Qed.

(** The outcomes in [example_world]: two failures, then a success. *)
Example directory_loop_outcomes :
  directory_loop example_world example_pairs = Ok [false; false; true].
Proof. vm_compute. reflexivity. Qed.

(** * Further properties of the code *)

(** X1: [clean_text] in closed form: the empty text and a text that is, as a
    whole, a number or "Page" or "Trang" and a number (with whitespace
    around) give the empty text; any other text has every run of whitespace
    replaced by one space and is trimmed. *)
Theorem clean_text_characterisation (text : str) :
  clean_text text =
  if is_empty text then []
  else if erased (collapse false text) then []
       else strip (collapse false text).
Proof. apply clean_text_closed. Qed.

(** X2: a page adds nothing, or its marker, at least one line and a blank
    line; a page without text adds nothing and leaves the chapter as it
    was. *)
Theorem page_marker_only_with_content (cur : option str) (content : list str)
    (page_num : nat) (page_text : option str) :
  (page_text = None \/ page_text = Some [] ->
   process_page (cur, content) page_num page_text = (cur, content)) /\
  (snd (process_page (cur, content) page_num page_text) = content \/
   exists page_content,
     page_content <> [] /\
     snd (process_page (cur, content) page_num page_text) =
     content ++ [page_marker page_num] ++ page_content ++ [[]]).
Proof.
  split.
  - intros [-> | ->]; reflexivity.
  - unfold process_page. destruct page_text as [text |]; [| left; reflexivity].
    destruct (is_empty text); [left; reflexivity |].
    destruct (is_empty (clean_text text)); [left; reflexivity |].
    destruct (fold_left process_line (split LF (clean_text text)) (cur, []))
      as [cur' page_content].
    destruct page_content as [| l ls]; [left; reflexivity |].
    right. exists (l :: ls). split; [discriminate | reflexivity].
Qed.

Lemma page_marker_only_with_content_witness :
  process_page (Some (py "Chapter 1"), [py "x"]) 7 None = (Some (py "Chapter 1"), [py "x"]).
Proof.
  apply (proj1 (page_marker_only_with_content (Some (py "Chapter 1")) [py "x"] 7 None)).
  left. reflexivity.
Defined.

(** X3: the description is empty or at most 200 characters followed by three
    full stops. *)
Theorem description_is_truncated (content : str) :
  description (book_info_of content) = [] \/
  exists d, List.length d <= 200 /\ description (book_info_of content) = d ++ py "...".
Proof.
  unfold book_info_of. cbn [description].
  destruct (is_empty (description_loop (split LF content) [])); [left; reflexivity |].
  right. eexists. split; [| reflexivity]. apply firstn_le_length.
Qed.

(** One line changes the tracked chapter only by appending the marker of
    the new chapter, and never removes a line. *)
Lemma process_line_step (cur : option str) (content : list str) (line : str) :
  exists added,
    snd (process_line (cur, content) line) = content ++ added /\
    (fst (process_line (cur, content) line) = cur \/
     exists title,
       fst (process_line (cur, content) line) = Some title /\
       added = [chapter_marker title]).
Proof.
  unfold process_line.
  destruct (is_empty (strip line)).
  { exists []. rewrite app_nil_r. split; [reflexivity | left; reflexivity]. }
  destruct (detect_chapter (strip line)) as [[tag title] |].
  - simpl snd. destruct (same_chapter cur title); simpl.
    + exists []. rewrite app_nil_r. split; [reflexivity | left; reflexivity].
    + exists [chapter_marker title]. split; [reflexivity |].
      right. exists title. split; reflexivity.
  - destruct (detect_section (strip line)) as [[tag title] |]; simpl;
      eexists; (split; [reflexivity | left; reflexivity]).
Qed.

(** X4: over the lines of a page the output only grows, and when the tracked
    chapter has changed at the end, the marker of the chapter it holds is
    among the lines added. *)
Theorem tracked_chapter_has_its_marker (lines : list str) (cur : option str)
    (content : list str) :
  exists added,
    snd (fold_left process_line lines (cur, content)) = content ++ added /\
    (fst (fold_left process_line lines (cur, content)) = cur \/
     exists title,
       fst (fold_left process_line lines (cur, content)) = Some title /\
       In (chapter_marker title) added).
Proof.
  revert cur content. induction lines as [| line lines IH]; intros cur content.
  - exists []. simpl. rewrite app_nil_r. split; [reflexivity | left; reflexivity].
  - cbn [fold_left].
    destruct (process_line_step cur content line) as [add1 [Hs1 Hc1]].
    destruct (process_line (cur, content) line) as [cur1 content1].
    simpl in Hs1, Hc1. subst content1.
    destruct (IH cur1 (content ++ add1)) as [add2 [Hs2 Hc2]].
    exists (add1 ++ add2). rewrite Hs2, app_assoc. split; [reflexivity |].
    destruct Hc2 as [Hc2 | [title [Hc2 Hin]]].
    + rewrite Hc2. destruct Hc1 as [-> | [title [-> ->]]]; [left; reflexivity |].
      right. exists title. split; [reflexivity |]. apply in_or_app. left. left. reflexivity.
    + right. exists title. split; [exact Hc2 |]. apply in_or_app. right. exact Hin.
Qed.

(** * Further properties: the normaliser, the classifier's input, repeated
    headings *)

Lemma In_collapse (b : bool) (s : str) (c : char) :
  In c (collapse b s) -> In c s \/ c = SPACE.
Proof.
  revert b. induction s as [| a s IH]; intros b; simpl; [tauto |].
  destruct (is_space a).
  - destruct b; simpl.
    + intros H. destruct (IH true H); auto.
    + intros [<- | H]; [auto |]. destruct (IH true H); auto.
  - simpl. intros [<- | H]; [auto |]. destruct (IH false H); auto.
Qed.

Lemma collapse_length (b : bool) (s : str) : List.length (collapse b s) <= List.length s.
Proof.
  revert b. induction s as [| a s IH]; intros b; simpl; [lia |].
  destruct (is_space a); [destruct b |]; simpl;
    try (pose proof (IH true)); try (pose proof (IH false)); lia.
Qed.

Lemma strip_length (s : str) : List.length (strip s) <= List.length s.
Proof.
  unfold strip. pose proof (rstrip_length (lstrip s)). pose proof (lstrip_length s). lia.
Qed.

Lemma single_spaced_inside (a : str) (c d : char) (b : str) :
  single_spaced (a ++ c :: d :: b) = true -> is_space c = true -> is_space d = false.
Proof.
  intros H Hc. apply single_spaced_suffix in H. simpl in H. rewrite Hc in H.
  apply andb_true_iff in H. destruct H as [H _].
  apply andb_true_iff in H. destruct H as [_ H].
  apply negb_true_iff in H. exact H.
Qed.

Lemma single_spaced_spaces (s : str) (c : char) :
  single_spaced s = true -> In c s -> is_space c = true -> c = SPACE.
Proof.
  induction s as [| a s IH]; simpl; [tauto |].
  intros H [<- | Hin] Hc; apply andb_true_iff in H; destruct H as [Ha Hs].
  - rewrite Hc in Ha. apply andb_true_iff in Ha. destruct Ha as [Ha _].
    apply N.eqb_eq in Ha. exact Ha.
  - exact (IH Hs Hin Hc).
Qed.

(** X5: what [clean_text] returns is normalised, for every input: it has no
    whitespace at either end, its only whitespace character is the space,
    no two whitespace characters are adjacent, every character comes from
    the input or is a space, and it is never longer than the input. *)
Theorem clean_text_normal_form (text : str) :
  strip (clean_text text) = clean_text text /\
  (forall c, In c (clean_text text) -> is_space c = true -> c = SPACE) /\
  (forall a c d b,
      clean_text text = a ++ c :: d :: b -> is_space c = true -> is_space d = false) /\
  (forall c, In c (clean_text text) -> In c text \/ c = SPACE) /\
  List.length (clean_text text) <= List.length text.
Proof.
  rewrite clean_text_closed.
  destruct (is_empty text).
  { repeat split; try reflexivity; try (intros; contradiction); try (simpl; lia).
    intros a c d b H. destruct a; discriminate H. }
  destruct (erased (collapse false text)).
  { repeat split; try reflexivity; try (intros; contradiction); try (simpl; lia).
    intros a c d b H. destruct a; discriminate H. }
  assert (Hs : single_spaced (strip (collapse false text)) = true)
    by apply single_spaced_strip, single_spaced_collapse.
  split; [apply strip_idem |].
  split; [intros c; apply single_spaced_spaces, Hs |].
  split.
  { intros a c d b E. rewrite E in Hs. exact (single_spaced_inside a c d b Hs). }
  split.
  - intros c H. apply In_strip in H. exact (In_collapse false text c H).
  - pose proof (strip_length (collapse false text)).
    pose proof (collapse_length false text). lia.
Qed.

Lemma rstrip_app_space (s w : str) : all_space w = true -> rstrip (s ++ w) = rstrip s.
Proof.
  intros Hw. induction s as [| c s IH]; simpl.
  - apply rstrip_nil_iff, Hw.
  - rewrite IH. reflexivity.
Qed.

Lemma lstrip_nil_iff (s : str) : lstrip s = [] <-> all_space s = true.
Proof.
  induction s as [| c s IH]; simpl; [tauto |].
  destruct (is_space c); simpl; [exact IH |]. split; discriminate.
Qed.

Lemma strip_padded (pre line post : str) :
  all_space pre = true -> all_space post = true ->
  strip (pre ++ line ++ post) = strip line.
Proof.
  intros Hpre Hpost. unfold strip. rewrite (lstrip_all_space pre _ Hpre).
  destruct (lstrip line) as [| c u] eqn:E.
  - apply lstrip_nil_iff in E.
    assert (H : lstrip (line ++ post) = []).
    { apply lstrip_nil_iff. apply all_space_app; assumption. }
    rewrite H. reflexivity.
  - rewrite lstrip_app_nonempty by (rewrite E; discriminate).
    rewrite E. apply rstrip_app_space, Hpost.
Qed.

(** X6: whitespace around a line is invisible to the classifier: both
    detectors and the loop body give the same result for the line with any
    whitespace before and after it. *)
Theorem classifier_ignores_padding (pre line post : str) :
  all_space pre = true -> all_space post = true ->
  detect_chapter (pre ++ line ++ post) = detect_chapter line /\
  detect_section (pre ++ line ++ post) = detect_section line /\
  forall st, process_line st (pre ++ line ++ post) = process_line st line.
Proof.
  intros Hpre Hpost. pose proof (strip_padded pre line post Hpre Hpost) as E.
  split; [| split].
  - unfold detect_chapter. rewrite E. reflexivity.
  - unfold detect_section. rewrite E. reflexivity.
  - intros [cur content]. unfold process_line. rewrite E. reflexivity.
Qed.

(** A tab and two spaces before "Chapter 1", a carriage return after. *)
Lemma classifier_ignores_padding_witness :
  detect_chapter ([9; 32; 32]%N ++ py "Chapter 1" ++ [13]%N) = detect_chapter (py "Chapter 1") /\
  detect_section ([9; 32; 32]%N ++ py "Chapter 1" ++ [13]%N) = detect_section (py "Chapter 1") /\
  forall st, process_line st ([9; 32; 32]%N ++ py "Chapter 1" ++ [13]%N)
             = process_line st (py "Chapter 1").
Proof.
  apply (classifier_ignores_padding [9; 32; 32]%N (py "Chapter 1") [13]%N);
    vm_compute; reflexivity.
Defined.

Lemma pages_loop_same_heading (texts : list str) (content : list str) (page_num : nat)
    (h tag title : str) :
  (forall t, In t texts -> In h (split LF (clean_text t))) ->
  detect_chapter h = Some (tag, title) ->
  pages_loop (map (fun t => Ok (Some t)) texts) page_num (Some title, content) =
  Ok (Some title, content).
Proof.
  intros Hall Hd. revert page_num. induction texts as [| t texts IH]; intros page_num.
  - reflexivity.
  - cbn [map pages_loop bind].
    rewrite (process_page_chapter (Some title) content page_num t h tag title
               (Hall t (or_introl eq_refl)) Hd).
    rewrite (proj2 (same_chapter_iff (Some title) title) eq_refl).
    apply IH. intros t' Ht'. apply Hall. right. exact Ht'.
Qed.

(** X7: a running header.  When the line of every page of a run of
    consecutive pages is the same chapter heading and the tracked chapter
    was another one, the whole run adds one page marker (of its first
    page), one chapter marker and one blank line, however long it is. *)
Theorem running_header_one_marker (text : str) (texts : list str) (cur : option str)
    (content : list str) (page_num : nat) (h tag title : str) :
  (forall t, In t (text :: texts) -> In h (split LF (clean_text t))) ->
  detect_chapter h = Some (tag, title) ->
  cur <> Some title ->
  pages_loop (map (fun t => Ok (Some t)) (text :: texts)) page_num (cur, content) =
  Ok (Some title, content ++ [page_marker page_num; chapter_marker title; []]).
Proof.
  intros Hall Hd Hcur. cbn [map pages_loop bind].
  rewrite (process_page_chapter cur content page_num text h tag title
             (Hall text (or_introl eq_refl)) Hd).
  assert (E : same_chapter cur title = false).
  { destruct (same_chapter cur title) eqn:E; [| reflexivity].
    apply same_chapter_iff in E. contradiction. }
  rewrite E.
  apply (pages_loop_same_heading texts _ (S page_num) h tag title); [| exact Hd].
  intros t Ht. apply Hall. right. exact Ht.
Qed.

(** Four pages with the header "CHƯƠNG II", after chapter "Chapter 1". *)
Lemma running_header_one_marker_witness :
  pages_loop
    (map (fun t => Ok (Some t))
       [py "CHƯƠNG II"; py " CHƯƠNG II "; py "CHƯƠNG II"; py "CHƯƠNG II"])
    5 (Some (py "Chapter 1"), [py "x"]) =
  Ok (Some (py "CHƯƠNG II"),
      [py "x"] ++ [page_marker 5; chapter_marker (py "CHƯƠNG II"); []]).
Proof.
  apply (running_header_one_marker _ _ _ _ _ (py "CHƯƠNG II") CHAPTER (py "CHƯƠNG II")).
  - intros t Ht. simpl in Ht.
    destruct Ht as [<- | [<- | [<- | [<- | []]]]]; vm_compute; left; reflexivity.
  - vm_compute. reflexivity.
  - vm_compute. discriminate.
Defined.

(** * Further properties: the metadata of a book *)

Lemma description_loop_closed (lines acc : list str) :
  List.length acc < 3 ->
  description_loop lines acc =
  firstn 3 (acc ++ map strip (filter description_line lines)).
Proof.
  revert acc. induction lines as [| line lines IH]; intros acc Hacc.
  - cbn [description_loop filter map]. rewrite app_nil_r. symmetry. apply firstn_all2. lia.
  - cbn [description_loop filter]. unfold description_line at 1.
    destruct (negb (is_empty (strip line)) && negb (startswith line (py "["))) eqn:E.
    + cbn [map]. destruct (3 <=? List.length (acc ++ [strip line])) eqn:E3.
      * apply Nat.leb_le in E3. rewrite length_app in E3. simpl in E3.
        change (acc ++ strip line :: map strip (filter description_line lines))
          with (acc ++ [strip line] ++ map strip (filter description_line lines)).
        assert (Hl : List.length (acc ++ [strip line]) = 3)
          by (rewrite length_app; cbn [List.length]; lia).
        rewrite app_assoc. rewrite firstn_app, Hl.
        rewrite firstn_all2 by lia.
        cbn [Nat.sub firstn]. rewrite app_nil_r. reflexivity.
      * apply Nat.leb_gt in E3. rewrite (IH _ E3). rewrite <- app_assoc. reflexivity.
    + apply IH, Hacc.
Qed.

(** X8: the description is built from the first three lines of the text
    that are not blank and do not start with "[", each trimmed, joined by a
    space, cut to 200 characters and followed by "..."; it is empty when
    there is no such line.  The three full stops are written even when
    nothing was cut. *)
Theorem description_of_first_lines (content : str) :
  let chosen := firstn 3 (map strip (filter description_line (split LF content))) in
  description (book_info_of content) =
  if is_empty chosen then [] else firstn 200 (join [SPACE] chosen) ++ py "...".
Proof.
  cbv zeta. unfold book_info_of. cbn [description].
  rewrite (description_loop_closed (split LF content) []) by (simpl; lia).
  reflexivity.
Qed.

Lemma find_from_skip (t pre s : str) (k : nat) :
  (forall i, i < List.length pre -> startswith (skipn i (pre ++ s)) t = false) ->
  find_from t (pre ++ s) k = find_from t s (k + List.length pre).
Proof.
  revert k. induction pre as [| a pre IH]; intros k H.
  - simpl. rewrite Nat.add_0_r. reflexivity.
  - assert (H0 : startswith ((a :: pre) ++ s) t = false) by (apply (H 0); simpl; lia).
    change ((a :: pre) ++ s) with (a :: (pre ++ s)) in *.
    destruct t as [| x t]; [discriminate H0 |].
    cbn [find_from]. rewrite H0. rewrite IH.
    + simpl List.length. f_equal. lia.
    + intros i Hi. apply (H (S i)). simpl. lia.
Qed.

Lemma startswith_refl_app (t s : str) : startswith (t ++ s) t = true.
Proof.
  induction t as [| x t IH]; simpl; [reflexivity |].
  rewrite N.eqb_refl. exact IH.
Qed.

Lemma find_from_here (t s : str) (k : nat) : find_from t (t ++ s) k = Some k.
Proof.
  destruct (t ++ s) eqn:E; cbn [find_from]; rewrite <- E, startswith_refl_app; reflexivity.
Qed.

Lemma find_from_char (c : char) (a s : str) (k : nat) :
  ~ In c a -> find_from [c] (a ++ c :: s) k = Some (k + List.length a).
Proof.
  intros Ha.
  replace (a ++ c :: s) with (a ++ [c] ++ s) by reflexivity.
  rewrite find_from_skip.
  - apply find_from_here.
  - intros i Hi.
    destruct (skipn i (a ++ [c] ++ s)) as [| x r] eqn:E; [reflexivity |].
    simpl. rewrite andb_true_r. apply N.eqb_neq. intros ->.
    apply Ha. rewrite skipn_app in E.
    replace (i - List.length a) with 0 in E by lia. simpl skipn at 2 in E.
    destruct (skipn i a) as [| y r'] eqn:E'.
    + apply (f_equal (@List.length char)) in E'. rewrite length_skipn in E'.
      simpl in E'. lia.
    + simpl in E. injection E as -> _.
      apply (In_skipn c i a). rewrite E'. left. reflexivity.
Qed.

(** X9: the title of a book is the text between the first "[CHAPTER:" and
    the first "]" after it.  So the title of the first chapter marker that
    the extractor wrote is read back unchanged when it holds no "]", and is
    cut at its first "]" otherwise; a text without the token, or without a
    "]" after it, has no title. *)
Theorem title_is_first_chapter (pre a post : str) :
  (forall i, i < List.length pre ->
             startswith (skipn i (pre ++ py "[CHAPTER:" ++ a ++ [RIGHT_BRACKET] ++ post))
               (py "[CHAPTER:") = false) ->
  ~ In RIGHT_BRACKET a ->
  title (book_info_of (pre ++ py "[CHAPTER:" ++ a ++ [RIGHT_BRACKET] ++ post)) = Some a.
Proof.
  intros Hpre Ha. unfold book_info_of. cbn [title].
  set (content := pre ++ py "[CHAPTER:" ++ a ++ [RIGHT_BRACKET] ++ post).
  assert (F1 : find content (py "[CHAPTER:") 0 = Some (List.length pre)).
  { unfold find. simpl Nat.leb. cbn [skipn]. unfold content.
    rewrite (find_from_skip _ pre _ 0 Hpre). apply find_from_here. }
  rewrite F1.
  assert (Hlen : List.length pre <= List.length content).
  { unfold content. rewrite length_app. lia. }
  assert (Hskip : skipn (List.length pre) content
                  = py "[CHAPTER:" ++ a ++ [RIGHT_BRACKET] ++ post).
  { unfold content. rewrite skipn_app, Nat.sub_diag, skipn_all. reflexivity. }
  assert (F2 : find content (py "]") (List.length pre)
               = Some (List.length pre + (9 + List.length a))).
  { unfold find. apply Nat.leb_le in Hlen. rewrite Hlen, Hskip.
    change (py "]") with [RIGHT_BRACKET].
    rewrite app_assoc.
    rewrite (find_from_char RIGHT_BRACKET (py "[CHAPTER:" ++ a) post).
    - rewrite length_app. reflexivity.
    - intros H. apply in_app_or in H. destruct H as [H | H]; [| exact (Ha H)].
      vm_compute in H. repeat (destruct H as [H | H]; [discriminate H |]). exact H. }
  rewrite F2. unfold slice. f_equal.
  replace (List.length pre + 9) with (9 + List.length pre) by lia.
  rewrite <- skipn_skipn, Hskip.
  change (skipn 9 (py "[CHAPTER:" ++ a ++ [RIGHT_BRACKET] ++ post))
    with (a ++ [RIGHT_BRACKET] ++ post).
  replace (List.length pre + (9 + List.length a) - (9 + List.length pre))
    with (List.length a + 0) by lia.
  rewrite firstn_app_2. simpl. apply app_nil_r.
Qed.

Lemma find_from_none (t s : str) (k : nat) :
  t <> [] -> occurrences t s = 0 -> find_from t s k = None.
Proof.
  intros Ht. revert k. induction s as [| c s IH]; intros k H.
  - destruct t as [| x t]; [contradiction | reflexivity].
  - cbn [occurrences] in H. cbn [find_from].
    destruct (startswith (c :: s) t); [discriminate H |].
    apply IH. exact H.
Qed.

(** X10: a text in which "[CHAPTER:" does not occur has no title and no
    chapters. *)
Theorem no_chapter_no_title (content : str) :
  occurrences (py "[CHAPTER:") content = 0 ->
  title (book_info_of content) = None /\ chapter_count (book_info_of content) = 0.
Proof.
  intros H. split.
  - unfold book_info_of. cbn [title]. unfold find. simpl Nat.leb. cbn [skipn].
    rewrite (find_from_none _ content 0); [reflexivity | | exact H].
    vm_compute. discriminate.
  - unfold book_info_of. cbn [chapter_count]. rewrite count_CHAPTER. exact H.
Qed.

(** The text written for a page 7 whose line is the heading
    "Chapter 1: Intro". *)
Lemma title_is_first_chapter_witness :
  title (book_info_of (py "[PAGE:7]" ++ [LF] ++ py "[CHAPTER:Chapter 1: Intro]" ++ [LF]))
  = Some (py "Chapter 1: Intro").
Proof.
  exact (title_is_first_chapter (py "[PAGE:7]" ++ [LF]) (py "Chapter 1: Intro") [LF]
           ltac:(intros i Hi; do 9 (destruct i as [| i]; [vm_compute; reflexivity |]);
                 vm_compute in Hi; lia)
           ltac:(vm_compute; intros H;
                 repeat (destruct H as [H | H]; [discriminate H |]); exact H)).
Defined.

Lemma no_chapter_no_title_witness :
  title (book_info_of (py "[PAGE:1]" ++ [LF] ++ py "plain text" ++ [LF])) = None /\
  chapter_count (book_info_of (py "[PAGE:1]" ++ [LF] ++ py "plain text" ++ [LF])) = 0.
Proof.
  apply no_chapter_no_title. vm_compute. reflexivity.
Defined.

(** * Further properties: what the chapter patterns accept *)

Module ChapterFacts.

(** ** The lower-case table *)

Lemma lower_in_outside (runs : list (N * N * N * N)) (c : char) :
  in_ranges (map (fun run => match run with (first, last, _, _) => (first, last) end) runs) c
  = false ->
  lower_in runs c = c.
Proof.
  induction runs as [| [[[first last] step] target] runs IH]; simpl; [reflexivity |].
  intros H. apply orb_false_iff in H. destruct H as [H1 H2].
  unfold in_range in H1. simpl in H1. rewrite H1. simpl. apply IH, H2.
Qed.

Lemma lower_digit (c : char) : is_digit c = true -> lower c = c.
Proof.
  intros H. apply lower_in_outside.
  apply (disjoint_sound decimal_digits lower_sources c); [vm_compute; reflexivity | exact H].
Qed.

Lemma lower_space (c : char) : is_space c = true -> lower c = c.
Proof.
  intros H. apply lower_in_outside.
  apply (disjoint_sound whitespace lower_sources c); [vm_compute; reflexivity | exact H].
Qed.

Lemma lower_in_image (runs : list (N * N * N * N)) (c x : char) :
  lower_in runs c = x -> c = x \/ in_targets runs x = true.
Proof.
  induction runs as [| [[[first last] step] target] runs IH]; simpl.
  - intros H. left. exact H.
  - destruct ((first <=? c) && (c <=? last) && ((c - first) mod step =? 0))%N eqn:E.
    + intros <-. right. apply orb_true_iff. left.
      apply andb_true_iff in E. destruct E as [E _].
      apply andb_true_iff in E. destruct E as [E1 E2].
      apply N.leb_le in E1. apply N.leb_le in E2.
      apply andb_true_iff. split; apply N.leb_le; lia.
    + intros H. destruct (IH H) as [H' | H']; [left; exact H' |].
      right. rewrite H'. apply orb_true_r.
Qed.

(** A pattern character without case, which no other character
    lower-cases to, matches itself only. *)
Lemma ci_eq_exact (x c : char) :
  lower x = x -> extra_of extra_cases x = [] -> in_targets lower_runs x = false ->
  ci_eq x c = (c =? x)%N.
Proof.
  intros Hx He Ht. unfold ci_eq. rewrite Hx, He. simpl. rewrite orb_false_r.
  destruct (N.eqb_spec c x) as [-> | Hne].
  - rewrite Hx. apply N.eqb_refl.
  - apply N.eqb_neq. intros H. destruct (lower_in_image lower_runs c x H) as [E | E].
    + contradiction.
    + rewrite Ht in E. discriminate.
Qed.

Lemma ci_eq_FULL_STOP (c : char) : ci_eq FULL_STOP c = (c =? FULL_STOP)%N.
Proof. apply ci_eq_exact; vm_compute; reflexivity. Qed.

Lemma ci_eq_COLON (c : char) : ci_eq COLON c = (c =? COLON)%N.
Proof. apply ci_eq_exact; vm_compute; reflexivity. Qed.

(** A letter of a pattern does not match a digit. *)
Lemma ci_eq_digit (x c : char) :
  is_digit c = true -> is_digit (lower x) = false ->
  extra_of extra_cases (lower x) = [] ->
  ci_eq x c = false.
Proof.
  intros Hc Hx He. unfold ci_eq. rewrite He, (lower_digit c Hc). simpl. rewrite orb_false_r.
  apply N.eqb_neq. intros ->. rewrite Hc in Hx. discriminate.
Qed.

Lemma number_separator_set (c : char) :
  atom_matches I (Set_ [IChar FULL_STOP; ISpace]) c = number_separator c.
Proof.
  unfold number_separator. simpl. unfold char_eq. simpl.
  rewrite ci_eq_FULL_STOP, orb_false_r. reflexivity.
Qed.

Lemma heading_separator_set (c : char) :
  atom_matches I (Set_ [ISpace; IChar FULL_STOP; IChar COLON]) c = heading_separator c.
Proof.
  unfold heading_separator. simpl. unfold char_eq. simpl.
  rewrite ci_eq_FULL_STOP, ci_eq_COLON, orb_false_r, orb_assoc. reflexivity.
Qed.

Lemma number_separator_not_digit (c : char) : number_separator c = true -> is_digit c = false.
Proof.
  unfold number_separator. intros H. apply orb_true_iff in H. destruct H as [H | H].
  - apply N.eqb_eq in H. subst c. reflexivity.
  - apply space_not_digit, H.
Qed.

Lemma heading_separator_not_digit (c : char) : heading_separator c = true -> is_digit c = false.
Proof.
  unfold heading_separator. intros H.
  apply orb_true_iff in H. destruct H as [H | H].
  - apply orb_true_iff in H. destruct H as [H | H].
    + apply space_not_digit, H.
    + apply N.eqb_eq in H. subst c. reflexivity.
  - apply N.eqb_eq in H. subst c. reflexivity.
Qed.

(** ** Greedy repetition that succeeds at once *)

(** When the text begins with a run of [p], what follows the run does not
    begin with a [p], and the continuation accepts the point after the
    run, that is the match: the engine tries the longest run first. *)
Lemma rep_greedy_hit {A : Type} (p : char -> bool) (run s : str)
    (k : nat -> option char -> str -> option A) (x : A) :
  forallb p run = true ->
  head_is p s = false ->
  forall lo hi n pv,
    lo <= List.length run ->
    match hi with Some h => List.length run <= h | None => True end ->
    k (n + List.length run) (prev_after pv run) s = Some x ->
    rep p lo hi n pv (run ++ s) k = Some x.
Proof.
  intros Hrun Hs. induction run as [| a run IH]; intros lo hi n pv Hlo Hhi Hk.
  - simpl in Hlo. assert (lo = 0) by lia. subst lo.
    simpl in Hk. rewrite Nat.add_0_r in Hk. change (prev_after pv []) with pv in Hk.
    simpl app. destruct s as [| c s].
    + rewrite rep_nil. exact Hk.
    + rewrite rep_cons. simpl in Hs. rewrite Hs. simpl. exact Hk.
  - simpl in Hrun. apply andb_true_iff in Hrun. destruct Hrun as [Ha Hrun].
    simpl app. rewrite rep_cons. rewrite Ha.
    assert (Hcan : can_repeat hi = true).
    { destruct hi as [[| h] |]; simpl in *; [lia | reflexivity | reflexivity]. }
    rewrite Hcan. simpl andb. cbv zeta.
    rewrite (IH Hrun (Nat.pred lo) (dec hi) (S n) (Some a)).
    + reflexivity.
    + simpl in Hlo. lia.
    + destruct hi as [h |]; simpl in *; [lia | exact Logic.I].
    + rewrite prev_after_cons in Hk.
      replace (S n + List.length run) with (n + List.length (a :: run)) by (simpl; lia).
      exact Hk.
Qed.

(** ** A literal word under IGNORECASE *)

Lemma exec_Str_ci {A : Type} (w : str) (cs : list (nat * str)) (k : mstate -> option A) :
  forall s n pv,
    exists pv',
      exec I (Str w) (mk n pv s cs) k =
      if prefix_ci w s
      then k (mk (n + List.length w) pv' (skipn (List.length w) s) cs)
      else None.
Proof.
  induction w as [| x w IH]; intros s n pv.
  - exists pv. simpl. rewrite Nat.add_0_r. reflexivity.
  - destruct w as [| y w].
    + destruct s as [| c s].
      * exists pv. reflexivity.
      * exists (Some c). simpl. unfold char_eq. simpl.
        destruct (ci_eq x c); simpl; [| reflexivity].
        replace (n + 1) with (S n) by lia. reflexivity.
    + destruct s as [| c s].
      * exists pv. reflexivity.
      * destruct (IH s (S n) (Some c)) as [pv' IH'].
        exists pv'.
        transitivity (if atom_matches I (Lit x) c
                      then exec I (Str (y :: w)) (mk (S n) (Some c) s cs) k
                      else None); [reflexivity |].
        simpl atom_matches. unfold char_eq. simpl IGNORECASE. cbv iota.
        change (prefix_ci (x :: y :: w) (c :: s)) with (ci_eq x c && prefix_ci (y :: w) s).
        destruct (ci_eq x c); simpl andb; [| reflexivity].
        rewrite IH'.
        replace (S n + List.length (y :: w)) with (n + List.length (x :: y :: w))
          by (simpl; lia).
        reflexivity.
Qed.

End ChapterFacts.

Module NumberedFacts.
Import ChapterFacts.

Lemma match_word_pattern (w W line : str) :
  match_ I (word_pattern w W) line =
  match exec I (Str w) (mk 0 None line []) (close_group 1 line 0 (fun st => exec I after_word st (fun m => Some m))) with
  | Some x => Some x
  | None => exec I (Str W) (mk 0 None line [])
              (close_group 1 line 0 (fun st => exec I after_word st (fun m => Some m)))
  end.
Proof. reflexivity. Qed.

(** A chapter word does not match a line that starts otherwise. *)
Lemma word_pattern_other_start (w W line : str) :
  prefix_ci w line = false -> prefix_ci W line = false ->
  match_ I (word_pattern w W) line = None.
Proof.
  intros Hw HW. rewrite match_word_pattern.
  destruct (exec_Str_ci w [] (close_group 1 line 0
              (fun st => exec I after_word st (fun m => Some m))) line 0 None) as [pv1 ->].
  destruct (exec_Str_ci W [] (close_group 1 line 0
              (fun st => exec I after_word st (fun m => Some m))) line 0 None) as [pv2 ->].
  rewrite Hw, HW. reflexivity.
Qed.

Lemma words_not_digit (c : char) (r : str) :
  is_digit c = true ->
  Forall (fun w => prefix_ci w (c :: r) = false)
    [py "Chương"; py "CHƯƠNG"; py "Chapter"; py "CHAPTER"; py "Phần"; py "PHẦN";
     py "Bài"; py "BÀI"].
Proof.
  intros Hc.
  assert (H : forall x w, is_digit (lower x) = false ->
                          extra_of extra_cases (lower x) = [] ->
                          prefix_ci (x :: w) (c :: r) = false).
  { intros x w H1 H2. simpl. rewrite (ci_eq_digit x c Hc H1 H2). reflexivity. }
  repeat constructor;
    match goal with
    | |- prefix_ci ?w _ = false =>
        let w' := eval vm_compute in w in
        change w with w'; apply H; vm_compute; reflexivity
    end.
Qed.

Lemma word_patterns_not_digit (c : char) (r : str) :
  is_digit c = true ->
  Forall (fun pattern => match_ I pattern (c :: r) = None) (firstn 4 chapter_patterns).
Proof.
  intros Hc. pose proof (words_not_digit c r Hc) as H.
  inversion H as [| ? ? H1 H']; subst. inversion H' as [| ? ? H2 H'']; subst.
  inversion H'' as [| ? ? H3 H3']; subst. inversion H3' as [| ? ? H4 H4']; subst.
  inversion H4' as [| ? ? H5 H5']; subst. inversion H5' as [| ? ? H6 H6']; subst.
  inversion H6' as [| ? ? H7 H7']; subst. inversion H7' as [| ? ? H8 _]; subst.
  repeat constructor; apply word_pattern_other_start; assumption.
Qed.

Lemma forallb_eq (p q : char -> bool) (s : str) :
  (forall c, p c = q c) -> forallb p s = forallb q s.
Proof. intros H. induction s as [| c s IH]; simpl; [reflexivity |]. rewrite H, IH. reflexivity. Qed.

(** The numbered pattern on a number, separators and a text. *)
Lemma match_numbered (d seps body : str) :
  numbered_line d seps body ->
  exists m,
    match_ I numbered_chapter_pattern (d ++ seps ++ body) = Some m /\
    group m 1 = d /\ group m 2 = body.
Proof.
  intros [Hd [Hdd [Hs [Hss [Hlen [Hhead [Hbody _]]]]]]].
  set (line := d ++ seps ++ body).
  eexists. split.
  - unfold match_.
    transitivity
      (rep (atom_matches I Digit) 1 None 0 None (d ++ seps ++ body)
         (fun n pv s =>
            rep (atom_matches I (Set_ [IChar FULL_STOP; ISpace])) 1 None n pv s
              (fun n' pv' s' =>
                 rep (atom_matches I Dot) 1 (Some 50) n' pv' s'
                   (fun n2 pv2 s2 =>
                      if at_eol I (mk n2 pv2 s2 [(2, firstn (n2 - n') s'); (1, firstn (n - 0) line)])
                      then Some (mk n2 pv2 s2 [(2, firstn (n2 - n') s'); (1, firstn (n - 0) line)])
                      else None))));
      [reflexivity |].
    apply rep_greedy_hit.
    + exact Hdd.
    + destruct seps as [| c seps']; [contradiction |]. simpl in *.
      apply andb_true_iff in Hss. destruct Hss as [Hc _].
      apply number_separator_not_digit, Hc.
    + destruct d; [contradiction | simpl; lia].
    + exact Logic.I.
    + apply rep_greedy_hit.
      * rewrite <- Hss. apply forallb_eq. intros c. apply number_separator_set.
      * destruct body as [| c body']; [reflexivity |]. cbn [head_is] in *.
        rewrite number_separator_set. exact Hhead.
      * destruct seps; [contradiction | simpl; lia].
      * exact Logic.I.
      * rewrite <- (app_nil_r body) at 1. apply rep_greedy_hit.
        -- exact Hbody.
        -- reflexivity.
        -- lia.
        -- lia.
        -- reflexivity.
  - split.
    + unfold group. simpl. unfold line. rewrite Nat.sub_0_r.
      rewrite firstn_app, Nat.sub_diag, firstn_all. simpl. apply app_nil_r.
    + unfold group. simpl.
      match goal with
      | |- firstn ?n body = body => replace n with (List.length body) by lia
      end.
      apply firstn_all.
Qed.

Lemma rstrip_fixed_last (s : str) (c : char) :
  is_space c = false -> rstrip (s ++ [c]) = s ++ [c].
Proof.
  intros Hc. induction s as [| a s IH]; simpl.
  - rewrite Hc. reflexivity.
  - rewrite IH. destruct (s ++ [c]) eqn:E; [destruct s; discriminate E | reflexivity].
Qed.

Lemma rstrip_fixed_inv (s : str) :
  rstrip s = s -> s = [] \/ exists a c, s = a ++ [c] /\ is_space c = false.
Proof.
  intros H. destruct s as [| x s']; [left; reflexivity |].
  destruct (@exists_last _ (x :: s') ltac:(discriminate)) as [a [c E]].
  right. exists a, c. split; [exact E |].
  {
    destruct (is_space c) eqn:Hc; [| reflexivity].
    rewrite E in H. rewrite (rstrip_snoc_space a c Hc) in H.
    pose proof (rstrip_length a) as Hl. rewrite H, length_app in Hl. simpl in Hl. lia. }
Qed.

Lemma chapter_loop_skip (ps qs : list regex) (line : str) :
  Forall (fun pattern => match_ I pattern line = None) ps ->
  chapter_loop (ps ++ qs) line = chapter_loop qs line.
Proof.
  induction 1 as [| p ps Hp _ IH]; [reflexivity |].
  cbn [app chapter_loop]. rewrite Hp. exact IH.
Qed.

Lemma numbered_line_trimmed (d seps body : str) :
  numbered_line d seps body -> strip (d ++ seps ++ body) = d ++ seps ++ body.
Proof.
  intros [Hd [Hdd [_ [_ [Hlen [_ [_ Hr]]]]]]].
  unfold strip. rewrite lstrip_fixed.
  - destruct (rstrip_fixed_inv body Hr) as [-> | [a [c [-> Hc]]]]; [simpl in Hlen; lia |].
    rewrite !app_assoc. apply rstrip_fixed_last, Hc.
  - destruct d as [| c d']; [contradiction |]. simpl in *.
    apply andb_true_iff in Hdd. destruct Hdd as [Hc _]. apply digit_not_space, Hc.
Qed.

End NumberedFacts.

(** X11: a line that is a number, then full stops or whitespace, then a
    text of 1 to 50 characters is a chapter heading, whatever the text is:
    the title is the number, a space and the text.  This takes in the
    numbered section headings up to that length ("1.1 Overview" is the
    chapter "1 1 Overview"), which therefore never reach [detect_section]. *)
Theorem numbered_line_is_chapter (d seps body : str) :
  numbered_line d seps body ->
  List.length (d ++ seps ++ body) <= 100 ->
  detect_chapter (d ++ seps ++ body) = Some (CHAPTER, d ++ [SPACE] ++ body) /\
  forall cur content,
    process_line (cur, content) (d ++ seps ++ body) =
    if same_chapter cur (d ++ [SPACE] ++ body) then (cur, content)
    else (Some (d ++ [SPACE] ++ body),
          content ++ [chapter_marker (d ++ [SPACE] ++ body)]).
Proof.
  intros Hn Hlen.
  assert (Hd : detect_chapter (d ++ seps ++ body) = Some (CHAPTER, d ++ [SPACE] ++ body)).
  { unfold detect_chapter. rewrite (NumberedFacts.numbered_line_trimmed d seps body Hn).
    destruct (NumberedFacts.match_numbered d seps body Hn) as [m [Hm [H1 H2]]].
    destruct Hn as [Hne [Hdd _]].
    destruct d as [| c d']; [contradiction |].
    apply Nat.leb_le in Hlen. rewrite Nat.leb_antisym in Hlen.
    apply negb_true_iff in Hlen. rewrite Hlen. cbn [app is_empty orb].
    change chapter_patterns with (firstn 4 chapter_patterns ++ [numbered_chapter_pattern]).
    rewrite NumberedFacts.chapter_loop_skip.
    - cbn [chapter_loop]. cbn [app] in Hm. rewrite Hm.
      change (groups numbered_chapter_pattern) with 2. cbn [Nat.leb].
      rewrite H1, H2. reflexivity.
    - apply NumberedFacts.word_patterns_not_digit.
      simpl in Hdd. apply andb_true_iff in Hdd. apply Hdd. }
  split; [exact Hd |].
  intros cur content. apply (process_line_chapter cur content _ CHAPTER _ Hd).
Qed.

(** "1.1 Overview" and "1. Introduction". *)
Lemma numbered_line_is_chapter_witness :
  detect_chapter (py "1" ++ py "." ++ py "1 Overview") = Some (CHAPTER, py "1" ++ [SPACE] ++ py "1 Overview") /\
  detect_chapter (py "1" ++ py ". " ++ py "Introduction")
  = Some (CHAPTER, py "1" ++ [SPACE] ++ py "Introduction").
Proof.
  split.
  - apply (proj1 (numbered_line_is_chapter (py "1") (py ".") (py "1 Overview")
                    ltac:(repeat split; vm_compute; try reflexivity; try discriminate; lia)
                    ltac:(vm_compute; lia))).
  - apply (proj1 (numbered_line_is_chapter (py "1") (py ". ") (py "Introduction")
                    ltac:(repeat split; vm_compute; try reflexivity; try discriminate; lia)
                    ltac:(vm_compute; lia))).
Defined.

(** * Further properties: headings written with a chapter word *)

Module HeadingFacts.
Import ChapterFacts NumberedFacts.

(** ** Characters up to case *)

Lemma ci_eq_class (x c : char) : ci_eq x c = true -> In (lower c) (ci_class x).
Proof.
  unfold ci_eq, ci_class. cbv zeta. intros H. apply orb_true_iff in H.
  destruct H as [H | H].
  - left. apply N.eqb_eq in H. symmetry. exact H.
  - right. apply existsb_exists in H. destruct H as [y [Hy E]].
    apply N.eqb_eq in E. subst y. exact Hy.
Qed.

Lemma disjointb_sound (a b : list char) (y : char) :
  disjointb a b = true -> In y a -> In y b -> False.
Proof.
  unfold disjointb. intros H Ha Hb.
  rewrite forallb_forall in H. specialize (H y Ha).
  apply negb_true_iff in H.
  assert (E : existsb (N.eqb y) b = true).
  { apply existsb_exists. exists y. split; [exact Hb | apply N.eqb_refl]. }
  rewrite E in H. discriminate.
Qed.

Lemma ci_eq_apart (x y c : char) :
  disjointb (ci_class x) (ci_class y) = true -> ci_eq y c = true -> ci_eq x c = false.
Proof.
  intros Hd Hy. destruct (ci_eq x c) eqn:Hx; [| reflexivity].
  exfalso. exact (disjointb_sound _ _ _ Hd (ci_eq_class x c Hx) (ci_eq_class y c Hy)).
Qed.

(** A character that case leaves alone is matched by its class only. *)
Lemma ci_eq_plain (p : char -> bool) (x c : char) :
  (forall a, p a = true -> lower a = a) ->
  forallb (fun a => negb (p a)) (ci_class x) = true ->
  ci_eq x c = true -> p c = false.
Proof.
  intros Hp Hx Hc. destruct (p c) eqn:E; [| reflexivity].
  pose proof (ci_eq_class x c Hc) as Hin. rewrite (Hp c E) in Hin.
  rewrite forallb_forall in Hx. specialize (Hx c Hin). rewrite E in Hx. discriminate.
Qed.

Lemma numeral_inv (c : char) :
  numeral c = true -> exists x, In x (py "IVXLCDM") /\ ci_eq x c = true.
Proof.
  unfold numeral, atom_matches, chars. intros H.
  apply existsb_exists in H. destruct H as [it [Hit Hm]].
  apply in_map_iff in Hit. destruct Hit as [x [<- Hx]].
  exists x. split; [exact Hx | exact Hm].
Qed.

Lemma numeral_plain (p : char -> bool) (c : char) :
  (forall a, p a = true -> lower a = a) ->
  forallb (fun x => forallb (fun a => negb (p a)) (ci_class x)) (py "IVXLCDM") = true ->
  numeral c = true -> p c = false.
Proof.
  intros Hp Hall Hc. destruct (numeral_inv c Hc) as [x [Hx Hm]].
  rewrite forallb_forall in Hall.
  exact (ci_eq_plain p x c Hp (Hall x Hx) Hm).
Qed.

Lemma numeral_not_space (c : char) : numeral c = true -> is_space c = false.
Proof. apply numeral_plain; [exact lower_space | vm_compute; reflexivity]. Qed.

Lemma numeral_not_digit (c : char) : numeral c = true -> is_digit c = false.
Proof. apply numeral_plain; [exact lower_digit | vm_compute; reflexivity]. Qed.

Lemma heading_separator_lower (c : char) : heading_separator c = true -> lower c = c.
Proof.
  unfold heading_separator. intros H.
  apply orb_true_iff in H. destruct H as [H | H];
    [apply orb_true_iff in H; destruct H as [H | H] |].
  - apply lower_space, H.
  - apply N.eqb_eq in H. subst c. vm_compute. reflexivity.
  - apply N.eqb_eq in H. subst c. vm_compute. reflexivity.
Qed.

Lemma heading_separator_not_numeral (c : char) :
  heading_separator c = true -> numeral c = false.
Proof.
  intros H. destruct (numeral c) eqn:E; [| reflexivity].
  rewrite (numeral_plain heading_separator c heading_separator_lower) in H;
    [discriminate | vm_compute; reflexivity | exact E].
Qed.

(** ** Words up to case *)

Lemma eq_ci_length (w s : str) : eq_ci w s = true -> List.length s = List.length w.
Proof.
  revert s. induction w as [| x w IH]; intros [| c s] H; simpl in *;
    try discriminate; [reflexivity |].
  apply andb_true_iff in H. destruct H as [_ H]. rewrite (IH s H). reflexivity.
Qed.

Lemma eq_ci_prefix (w s r : str) : eq_ci w s = true -> prefix_ci w (s ++ r) = true.
Proof.
  revert s. induction w as [| x w IH]; intros [| c s] H; simpl in *;
    try discriminate; [reflexivity |].
  apply andb_true_iff in H. destruct H as [Hc H]. rewrite Hc, (IH s H). reflexivity.
Qed.

Lemma prefix_ci_apart (v w s r : str) :
  eq_ci w s = true -> ci_apart v w = true -> prefix_ci v (s ++ r) = false.
Proof.
  revert w s. induction v as [| x v IH]; intros [| y w] [| c s] Hw Ha; simpl in *;
    try discriminate.
  apply andb_true_iff in Hw. destruct Hw as [Hc Hw].
  apply orb_true_iff in Ha. destruct Ha as [Ha | Ha].
  - rewrite (ci_eq_apart x y c Ha Hc). reflexivity.
  - rewrite (IH w s Hw Ha). apply andb_false_r.
Qed.

Lemma eq_ci_head (p : char -> bool) (w s : str) :
  (forall a, p a = true -> lower a = a) ->
  match w with
  | x :: _ => forallb (fun a => negb (p a)) (ci_class x)
  | [] => false
  end = true ->
  eq_ci w s = true -> head_is p s = false /\ s <> [].
Proof.
  intros Hp Hx H. destruct w as [| x w]; [discriminate |].
  destruct s as [| c s]; simpl in *; [discriminate |].
  apply andb_true_iff in H. destruct H as [Hc _].
  split; [exact (ci_eq_plain p x c Hp Hx Hc) | discriminate].
Qed.

(** ** The engine on the rest of a heading *)

Lemma rep_head_fail {A : Type} (p : char -> bool) (lo : nat) (hi : option nat)
    (n : nat) (pv : option char) (s : str) (k : nat -> option char -> str -> option A) :
  head_is p s = false -> rep p (S lo) hi n pv s k = None.
Proof.
  destruct s as [| c s]; simpl; intros H; [reflexivity |]. rewrite H. reflexivity.
Qed.

Lemma head_is_app (p : char -> bool) (a b : str) :
  a <> [] -> head_is p (a ++ b) = head_is p a.
Proof. destruct a; [contradiction | reflexivity]. Qed.

Lemma forallb_head (p q : char -> bool) (s : str) :
  s <> [] -> forallb p s = true -> (forall c, p c = true -> q c = false) ->
  head_is q s = false.
Proof.
  destruct s as [| c s]; [contradiction |]. simpl. intros _ H Hpq.
  apply andb_true_iff in H. apply Hpq, H.
Qed.

Lemma firstn_length_app (a b : str) (n m : nat) :
  m = n + List.length a -> firstn (m - n) (a ++ b) = a.
Proof.
  intros ->. replace (n + List.length a - n) with (List.length a) by lia.
  rewrite firstn_app, Nat.sub_diag, firstn_all. simpl. apply app_nil_r.
Qed.

Lemma match_after_word (word sp num seps title : str) (pv : option char) :
  sp <> [] -> forallb is_space sp = true ->
  num <> [] ->
  (forallb is_digit num = true /\ head_is is_digit (seps ++ title) = false \/
   forallb numeral num = true /\ head_is numeral (seps ++ title) = false) ->
  forallb heading_separator seps = true ->
  head_is heading_separator title = false ->
  forallb not_LF title = true ->
  exists m,
    exec I after_word (mk (List.length word) pv (sp ++ num ++ seps ++ title) [(1, word)])
      (fun m => Some m) = Some m /\
    group m 1 = word /\ group m 2 = num /\ group m 3 = title.
Proof.
  intros Hsp Hsps Hnum Hcase Hseps Htitle Hdots.
  set (n0 := List.length word).
  set (finish := fun (n1 : nat) (s1 : str) (n2 : nat) (pv2 : option char) (s2 : str) =>
         rep (atom_matches I (Set_ [ISpace; IChar FULL_STOP; IChar COLON])) 0 None n2 pv2 s2
           (fun n3 pv3 s3 =>
              rep (atom_matches I Dot) 0 None n3 pv3 s3
                (fun n4 pv4 s4 =>
                   if at_eol I (mk n4 pv4 s4 [(3, firstn (n4 - n3) s3); (2, firstn (n2 - n1) s1); (1, word)])
                   then Some (mk n4 pv4 s4 [(3, firstn (n4 - n3) s3); (2, firstn (n2 - n1) s1); (1, word)])
                   else None))).
  assert (Hshape :
    exec I after_word (mk n0 pv (sp ++ num ++ seps ++ title) [(1, word)]) (fun m => Some m) =
    rep is_space 1 None n0 pv (sp ++ num ++ seps ++ title)
      (fun n1 pv1 s1 =>
         match rep is_digit 1 None n1 pv1 s1 (finish n1 s1) with
         | Some x => Some x
         | None => rep numeral 1 None n1 pv1 s1 (finish n1 s1)
         end)) by reflexivity.
  rewrite Hshape. clear Hshape.
  assert (Hfinish : forall n1 s1 n2 pv2,
    finish n1 s1 n2 pv2 (seps ++ title) =
    Some (mk (n2 + List.length seps + List.length title)
             (prev_after (prev_after pv2 seps) title) []
             [(3, firstn (n2 + List.length seps + List.length title - (n2 + List.length seps)) title);
              (2, firstn (n2 - n1) s1); (1, word)])).
  { intros n1 s1 n2 pv2. unfold finish.
    apply rep_greedy_hit.
    - rewrite <- Hseps. apply forallb_eq. intros c. apply heading_separator_set.
    - destruct title as [| c t]; [reflexivity |]. cbn [head_is] in *.
      rewrite heading_separator_set. exact Htitle.
    - lia.
    - exact Logic.I.
    - rewrite <- (app_nil_r title) at 1. apply rep_greedy_hit.
      + exact Hdots.
      + reflexivity.
      + lia.
      + exact Logic.I.
      + reflexivity. }
  assert (Hgroups : forall n1 n2 pv2,
    n2 = n1 + List.length num ->
    let m := mk (n2 + List.length seps + List.length title)
                (prev_after (prev_after pv2 seps) title) []
                [(3, firstn (n2 + List.length seps + List.length title - (n2 + List.length seps)) title);
                 (2, firstn (n2 - n1) (num ++ seps ++ title)); (1, word)] in
    group m 1 = word /\ group m 2 = num /\ group m 3 = title).
  { intros n1 n2 pv2 E. unfold group. simpl. repeat split.
    - apply firstn_length_app. exact E.
    - match goal with
      | |- firstn ?n title = title => replace n with (List.length title) by lia
      end.
      apply firstn_all. }
  destruct Hcase as [[Hd Hnext] | [Hr Hnext]].
  - eexists. split.
    + apply rep_greedy_hit.
      * exact Hsps.
      * rewrite head_is_app by exact Hnum.
        apply (forallb_head is_digit is_space num Hnum Hd). exact digit_not_space.
      * destruct sp; [contradiction | simpl; lia].
      * exact Logic.I.
      * erewrite (rep_greedy_hit is_digit num (seps ++ title)).
        -- reflexivity.
        -- exact Hd.
        -- exact Hnext.
        -- destruct num; [contradiction | simpl; lia].
        -- exact Logic.I.
        -- apply Hfinish.
    + apply Hgroups. reflexivity.
  - eexists. split.
    + apply rep_greedy_hit.
      * exact Hsps.
      * rewrite head_is_app by exact Hnum.
        apply (forallb_head numeral is_space num Hnum Hr). exact numeral_not_space.
      * destruct sp; [contradiction | simpl; lia].
      * exact Logic.I.
      * rewrite rep_head_fail.
        -- apply rep_greedy_hit.
           ++ exact Hr.
           ++ exact Hnext.
           ++ destruct num; [contradiction | simpl; lia].
           ++ exact Logic.I.
           ++ apply Hfinish.
        -- rewrite head_is_app by exact Hnum.
           apply (forallb_head numeral is_digit num Hnum Hr). exact numeral_not_digit.
    + apply Hgroups. reflexivity.
Qed.

(** ** One word pattern on a heading *)

Lemma match_heading (w W word sp num seps title : str) :
  eq_ci w word = true ->
  sp <> [] -> forallb is_space sp = true ->
  num <> [] ->
  (forallb is_digit num = true /\ head_is is_digit (seps ++ title) = false \/
   forallb numeral num = true /\ head_is numeral (seps ++ title) = false) ->
  forallb heading_separator seps = true ->
  head_is heading_separator title = false ->
  forallb not_LF title = true ->
  exists m,
    match_ I (word_pattern w W) (word ++ sp ++ num ++ seps ++ title) = Some m /\
    group m 1 = word /\ group m 2 = num /\ group m 3 = title.
Proof.
  intros Hw Hsp Hsps Hnum Hcase Hseps Htitle Hdots.
  set (line := word ++ sp ++ num ++ seps ++ title).
  destruct (exec_Str_ci w [] (close_group 1 line 0
              (fun st => exec I after_word st (fun m => Some m))) line 0 None) as [pv1 Hex].
  destruct (match_after_word word sp num seps title pv1 Hsp Hsps Hnum Hcase Hseps Htitle Hdots)
    as [m [Hm Hg]].
  exists m. split; [| exact Hg].
  rewrite match_word_pattern. fold line. rewrite Hex.
  unfold line at 1. rewrite (eq_ci_prefix w word _ Hw).
  unfold close_group. cbn [pos prev rest caps mk].
  pose proof (eq_ci_length w word Hw) as Hlen.
  assert (E1 : skipn (List.length w) line = sp ++ num ++ seps ++ title).
  { unfold line. rewrite <- Hlen. rewrite skipn_app, Nat.sub_diag, skipn_all. reflexivity. }
  assert (E2 : firstn (0 + List.length w - 0) line = word).
  { unfold line. apply firstn_length_app. lia. }
  rewrite E1, E2. simpl Nat.add. rewrite <- Hlen.
  transitivity
    (match exec I after_word (mk (List.length word) pv1 (sp ++ num ++ seps ++ title) [(1, word)])
             (fun m => Some m) with
     | Some x => Some x
     | None => exec I (Str W) (mk 0 None line [])
                 (close_group 1 line 0 (fun st => exec I after_word st (fun m => Some m)))
     end); [reflexivity |].
  rewrite Hm. reflexivity.
Qed.

Lemma groups_Str (w : str) : groups (Str w) = 0.
Proof.
  unfold Str. induction w as [| x w IH]; [reflexivity |].
  destruct w as [| y w]; [reflexivity |].
  change (groups (Cat (One (Lit x)) (Seq (map (fun c => One (Lit c)) (y :: w)))) = 0).
  cbn [groups]. exact IH.
Qed.

Lemma groups_word_pattern (w W : str) : groups (word_pattern w W) = 3.
Proof.
  unfold word_pattern. cbn [Seq groups plus star]. rewrite !groups_Str. reflexivity.
Qed.

Lemma chapter_loop_word (before after : list regex) (w W line : str) (m : mstate) :
  Forall (fun pattern => match_ I pattern line = None) before ->
  match_ I (word_pattern w W) line = Some m ->
  chapter_loop (before ++ word_pattern w W :: after) line =
  Some (CHAPTER,
        if is_empty (strip (group m 3)) then group m 1 ++ [SPACE] ++ group m 2
        else (group m 1 ++ [SPACE] ++ group m 2) ++ py ": " ++ strip (group m 3)).
Proof.
  intros Hb Hm. rewrite chapter_loop_skip by exact Hb.
  cbn [chapter_loop]. rewrite Hm, groups_word_pattern. reflexivity.
Qed.

(** ** Trimmed lines *)

Lemma rstrip_fixed_suffix (a b : str) : rstrip (a ++ b) = a ++ b -> rstrip b = b.
Proof.
  intros H. destruct b as [| x b']; [reflexivity |].
  destruct (@exists_last _ (x :: b') ltac:(discriminate)) as [b0 [c E]].
  rewrite E in *. clear E.
  destruct (rstrip_fixed_inv _ H) as [E | [a' [c' [E Hc]]]].
  - exfalso. destruct a; [destruct b0 |]; discriminate E.
  - rewrite app_assoc in E. apply app_inj_tail in E. destruct E as [_ ->].
    apply rstrip_fixed_last, Hc.
Qed.

Lemma rstrip_fixed_prefix (a b : str) : b <> [] -> rstrip b = b -> rstrip (a ++ b) = a ++ b.
Proof.
  intros Hb H.
  destruct (rstrip_fixed_inv b H) as [-> | [b0 [c [-> Hc]]]]; [contradiction |].
  rewrite app_assoc. apply rstrip_fixed_last, Hc.
Qed.

Lemma rstrip_no_space (s : str) :
  forallb (fun c => negb (is_space c)) s = true -> rstrip s = s.
Proof.
  induction s as [| c s IH]; simpl; [reflexivity |].
  intros H. apply andb_true_iff in H. destruct H as [Hc Hs].
  rewrite (IH Hs). apply negb_true_iff in Hc. rewrite Hc. destruct s; reflexivity.
Qed.

Lemma forallb_imp (p q : char -> bool) (s : str) :
  (forall c, p c = true -> q c = true) -> forallb p s = true -> forallb q s = true.
Proof.
  intros Hpq. induction s as [| c s IH]; simpl; [reflexivity |].
  intros H. apply andb_true_iff in H. destruct H as [Hc Hs].
  rewrite (Hpq c Hc), (IH Hs). reflexivity.
Qed.

Lemma chapter_word_cases (word : str) :
  existsb (fun w => eq_ci w word) chapter_words = true ->
  eq_ci (py "Chương") word = true \/ eq_ci (py "Chapter") word = true \/
  eq_ci (py "Phần") word = true \/ eq_ci (py "Bài") word = true.
Proof.
  unfold chapter_words. cbn [existsb]. intros H.
  apply orb_true_iff in H. destruct H as [H | H]; [left; exact H | right].
  apply orb_true_iff in H. destruct H as [H | H]; [left; exact H | right].
  apply orb_true_iff in H. destruct H as [H | H]; [left; exact H | right].
  apply orb_true_iff in H. destruct H as [H | H]; [exact H | discriminate].
Qed.

Lemma heading_line_trimmed (word sp num seps title : str) :
  heading_line word sp num seps title ->
  strip (word ++ sp ++ num ++ seps ++ title) = word ++ sp ++ num ++ seps ++ title /\
  word <> [] /\ strip title = title.
Proof.
  intros [Hw [Hsp [Hsps [Hnum [Hcase [Hseps [Htitle [Hdots Hr]]]]]]]].
  assert (Hhead : head_is is_space word = false /\ word <> []).
  { destruct (chapter_word_cases word Hw) as [H | [H | [H | H]]];
      apply (eq_ci_head is_space _ word lower_space) in H;
      try exact H; vm_compute; reflexivity. }
  destruct Hhead as [Hhead Hne].
  assert (Hnum_fixed : rstrip num = num).
  { apply rstrip_no_space. destruct Hcase as [[H _] | [H _]].
    - revert H. apply forallb_imp. intros c Hc. rewrite (digit_not_space c Hc). reflexivity.
    - revert H. apply forallb_imp. intros c Hc. rewrite (numeral_not_space c Hc). reflexivity. }
  repeat split.
  - unfold strip. rewrite lstrip_fixed.
    + destruct (seps ++ title) as [| x tail] eqn:E.
      * rewrite app_nil_r. rewrite app_assoc.
        apply rstrip_fixed_prefix; assumption.
      * rewrite <- E in *. rewrite !app_assoc. rewrite <- (app_assoc _ seps title).
        apply rstrip_fixed_prefix; [rewrite E; discriminate | exact Hr].
    + destruct word as [| c word']; [contradiction |]. exact Hhead.
  - exact Hne.
  - unfold strip. rewrite lstrip_fixed.
    + apply (rstrip_fixed_suffix seps title Hr).
    + destruct title as [| c t]; [exact Logic.I |]. cbn [head_is] in Htitle.
      unfold heading_separator in Htitle.
      apply orb_false_iff in Htitle. destruct Htitle as [Htitle _].
      apply orb_false_iff in Htitle. apply Htitle.
Qed.

End HeadingFacts.

(** X12: a heading written with one of the chapter words, in any case,
    then white space, a decimal number or a run of numeral letters,
    separators and a title, is a chapter.  The marker keeps the word and
    the number as the line has them and adds the title after a colon.
    The numeral letters are read without regard to case as well, so that
    the first letters of an ordinary word count as a number: the line
    "Phần mở đầu" is the chapter "Phần m: ở đầu". *)
Theorem word_heading_is_chapter (word sp num seps title : str) :
  heading_line word sp num seps title ->
  List.length (word ++ sp ++ num ++ seps ++ title) <= 100 ->
  detect_chapter (word ++ sp ++ num ++ seps ++ title) =
  Some (CHAPTER,
        (word ++ [SPACE] ++ num) ++ (if is_empty title then [] else py ": " ++ title)).
Proof.
  intros Hh Hlen.
  destruct (HeadingFacts.heading_line_trimmed word sp num seps title Hh)
    as [Hstrip [Hne Htitle]].
  destruct Hh as [Hw [Hsp [Hsps [Hnum [Hcase [Hseps [Hhead [Hdots Hr]]]]]]]].
  unfold detect_chapter. rewrite Hstrip.
  apply Nat.leb_le in Hlen. rewrite Nat.leb_antisym in Hlen.
  apply negb_true_iff in Hlen. rewrite Hlen.
  replace (is_empty (word ++ sp ++ num ++ seps ++ title)) with false
    by (destruct word; [contradiction | reflexivity]).
  cbn [orb].
  assert (Hresult : forall m,
    group m 1 = word /\ group m 2 = num /\ group m 3 = title ->
    Some (CHAPTER,
          if is_empty (strip (group m 3)) then group m 1 ++ [SPACE] ++ group m 2
          else (group m 1 ++ [SPACE] ++ group m 2) ++ py ": " ++ strip (group m 3)) =
    Some (CHAPTER,
          (word ++ [SPACE] ++ num) ++ (if is_empty title then [] else py ": " ++ title))).
  { intros m [-> [-> ->]]. rewrite Htitle.
    destruct (is_empty title); [rewrite app_nil_r |]; reflexivity. }
  assert (Hmiss : forall w v V, eq_ci w word = true ->
    ci_apart v w = true -> ci_apart V w = true ->
    match_ I (word_pattern v V) (word ++ sp ++ num ++ seps ++ title) = None).
  { intros w v V Hm Hv HV. apply NumberedFacts.word_pattern_other_start;
      apply (HeadingFacts.prefix_ci_apart _ w); assumption. }
  apply HeadingFacts.chapter_word_cases in Hw. destruct Hw as [Hw | [Hw | [Hw | Hw]]].
  - destruct (HeadingFacts.match_heading (py "Chương") (py "CHƯƠNG") word sp num seps title
                Hw Hsp Hsps Hnum Hcase Hseps Hhead Hdots) as [m [Hm Hg]].
    rewrite <- (Hresult m Hg).
    apply (HeadingFacts.chapter_loop_word [] _ _ _ _ m); [constructor | exact Hm].
  - destruct (HeadingFacts.match_heading (py "Chapter") (py "CHAPTER") word sp num seps title
                Hw Hsp Hsps Hnum Hcase Hseps Hhead Hdots) as [m [Hm Hg]].
    rewrite <- (Hresult m Hg).
    apply (HeadingFacts.chapter_loop_word
             [word_pattern (py "Chương") (py "CHƯƠNG")] _ _ _ _ m); [| exact Hm].
    repeat constructor; apply (Hmiss _ _ _ Hw); vm_compute; reflexivity.
  - destruct (HeadingFacts.match_heading (py "Phần") (py "PHẦN") word sp num seps title
                Hw Hsp Hsps Hnum Hcase Hseps Hhead Hdots) as [m [Hm Hg]].
    rewrite <- (Hresult m Hg).
    apply (HeadingFacts.chapter_loop_word
             [word_pattern (py "Chương") (py "CHƯƠNG");
              word_pattern (py "Chapter") (py "CHAPTER")] _ _ _ _ m); [| exact Hm].
    repeat constructor; apply (Hmiss _ _ _ Hw); vm_compute; reflexivity.
  - destruct (HeadingFacts.match_heading (py "Bài") (py "BÀI") word sp num seps title
                Hw Hsp Hsps Hnum Hcase Hseps Hhead Hdots) as [m [Hm Hg]].
    rewrite <- (Hresult m Hg).
    apply (HeadingFacts.chapter_loop_word
             [word_pattern (py "Chương") (py "CHƯƠNG");
              word_pattern (py "Chapter") (py "CHAPTER");
              word_pattern (py "Phần") (py "PHẦN")] _ _ _ _ m); [| exact Hm].
    repeat constructor; apply (Hmiss _ _ _ Hw); vm_compute; reflexivity.
Qed.

(** "Chương 1: Mở đầu", "chapter 12" and "Phần mở đầu". *)
Lemma word_heading_is_chapter_witness :
  detect_chapter (py "Chương" ++ py " " ++ py "1" ++ py ": " ++ py "Mở đầu")
  = Some (CHAPTER, py "Chương 1: Mở đầu") /\
  detect_chapter (py "chapter" ++ py " " ++ py "12" ++ [] ++ [])
  = Some (CHAPTER, py "chapter 12") /\
  detect_chapter (py "Phần" ++ py " " ++ py "m" ++ [] ++ py "ở đầu")
  = Some (CHAPTER, py "Phần m: ở đầu").
Proof.
  split; [| split].
  - apply (word_heading_is_chapter (py "Chương") (py " ") (py "1") (py ": ") (py "Mở đầu")).
    + repeat split; try (vm_compute; reflexivity); try discriminate.
      left. split; vm_compute; reflexivity.
    + vm_compute. lia.
  - apply (word_heading_is_chapter (py "chapter") (py " ") (py "12") [] []).
    + repeat split; try (vm_compute; reflexivity); try discriminate.
      left. split; vm_compute; reflexivity.
    + vm_compute. lia.
  - apply (word_heading_is_chapter (py "Phần") (py " ") (py "m") [] (py "ở đầu")).
    + repeat split; try (vm_compute; reflexivity); try discriminate.
      right. split; vm_compute; reflexivity.
    + vm_compute. lia.
Defined.

(** * Further properties: numbered section headings *)

Module SectionFacts.
Import ChapterFacts NumberedFacts HeadingFacts.

Lemma rep_all_fail {A : Type} (p : char -> bool) (run s : str)
    (k : nat -> option char -> str -> option A) :
  head_is p s = false ->
  forall lo hi n pv,
    (forall j pv', lo <= j -> j <= List.length run ->
                   match hi with Some h => j <= h | None => True end ->
                   k (n + j) pv' (skipn j run ++ s) = None) ->
    rep p lo hi n pv (run ++ s) k = None.
Proof.
  intros Hs. induction run as [| a run IH]; intros lo hi n pv H.
  - assert (Hstop : match lo with O => k n pv s | S _ => None end = None).
    { destruct lo; [| reflexivity].
      specialize (H 0 pv (Nat.le_refl 0) (Nat.le_refl 0)).
      rewrite Nat.add_0_r in H. apply H. destruct hi; [lia | exact Logic.I]. }
    simpl app. destruct s as [| c s].
    + rewrite rep_nil. exact Hstop.
    + rewrite rep_cons. simpl in Hs. rewrite Hs. exact Hstop.
  - simpl app. rewrite rep_cons. cbv zeta.
    assert (Hstop : match lo with O => k n pv (a :: run ++ s) | S _ => None end = None).
    { destruct lo; [| reflexivity].
      specialize (H 0 pv (Nat.le_refl 0) (Nat.le_0_l _)).
      rewrite Nat.add_0_r in H. apply H. destruct hi; [lia | exact Logic.I]. }
    rewrite Hstop.
    destruct (p a && can_repeat hi) eqn:E; [| reflexivity].
    apply andb_true_iff in E. destruct E as [_ Hcan].
    rewrite IH; [reflexivity |].
    intros j pv' Hlo Hj Hhi.
    replace (S n + j) with (n + S j) by lia.
    apply (H (S j) pv'); [lia | simpl; lia |].
    destruct hi as [[| h] |]; simpl in *; [discriminate | lia | exact Logic.I].
Qed.

Lemma forallb_skipn_head (p : char -> bool) (s : str) (j : nat) :
  forallb p s = true -> j < List.length s ->
  exists c r, skipn j s = c :: r /\ p c = true.
Proof.
  revert j. induction s as [| a s IH]; intros j H Hj; simpl in Hj; [lia |].
  simpl in H. apply andb_true_iff in H. destruct H as [Ha Hs].
  destruct j as [| j].
  - exists a, s. split; [reflexivity | exact Ha].
  - simpl. apply IH; [exact Hs | lia].
Qed.

Lemma digit_not_number_separator (c : char) : is_digit c = true -> number_separator c = false.
Proof.
  intros H. destruct (number_separator c) eqn:E; [| reflexivity].
  rewrite (number_separator_not_digit c E) in H. discriminate.
Qed.

Lemma digit_not_heading_separator (c : char) : is_digit c = true -> heading_separator c = false.
Proof.
  intros H. destruct (heading_separator c) eqn:E; [| reflexivity].
  rewrite (heading_separator_not_digit c E) in H. discriminate.
Qed.

(** The numbered chapter pattern fails on a number, a full stop and more
    than 50 characters that start with a digit. *)
Lemma match_numbered_long (major tail : str) :
  forallb is_digit major = true ->
  head_is is_digit tail = true ->
  forallb not_LF tail = true ->
  50 < List.length tail ->
  match_ I numbered_chapter_pattern (major ++ [FULL_STOP] ++ tail) = None.
Proof.
  intros Hmajor Hhead Hdots Hlen.
  set (line := major ++ [FULL_STOP] ++ tail).
  unfold match_.
  transitivity
    (rep (atom_matches I Digit) 1 None 0 None (major ++ [FULL_STOP] ++ tail)
       (fun n pv s =>
          rep (atom_matches I (Set_ [IChar FULL_STOP; ISpace])) 1 None n pv s
            (fun n' pv' s' =>
               rep (atom_matches I Dot) 1 (Some 50) n' pv' s'
                 (fun n2 pv2 s2 =>
                    if at_eol I (mk n2 pv2 s2 [(2, firstn (n2 - n') s'); (1, firstn (n - 0) line)])
                    then Some (mk n2 pv2 s2 [(2, firstn (n2 - n') s'); (1, firstn (n - 0) line)])
                    else None))));
    [reflexivity |].
  apply rep_all_fail; [reflexivity |].
  intros j pv' Hlo Hj _.
  destruct (Nat.eq_dec j (List.length major)) as [-> | Hne].
  - rewrite skipn_all. simpl app.
    apply (rep_all_fail _ [FULL_STOP] tail).
    + destruct tail as [| c t]; [discriminate |]. cbn [head_is] in *.
      rewrite number_separator_set. apply digit_not_number_separator, Hhead.
    + intros j' pv2 Hlo' Hj' _. simpl in Hj'. assert (j' = 1) by lia. subst j'.
      simpl skipn. simpl app. rewrite <- (app_nil_r tail).
      apply rep_all_fail; [reflexivity |].
      intros j2 pv3 _ _ Hhi.
      destruct (forallb_skipn_head not_LF tail j2 Hdots ltac:(lia)) as [c [r [E Hc]]].
      rewrite E. unfold at_eol. cbn [rest mk app].
      unfold not_LF in Hc. apply negb_true_iff in Hc. rewrite Hc. reflexivity.
  - destruct (forallb_skipn_head is_digit major j Hmajor ltac:(lia)) as [c [r [E Hc]]].
    rewrite E. simpl app. apply rep_head_fail. cbn [head_is].
    rewrite number_separator_set. apply digit_not_number_separator, Hc.
Qed.

Lemma heading_separator_plain (c : char) :
  atom_matches no_flags (Set_ [ISpace; IChar FULL_STOP; IChar COLON]) c = heading_separator c.
Proof.
  unfold heading_separator. simpl. unfold char_eq. simpl.
  rewrite orb_false_r, orb_assoc. reflexivity.
Qed.

(** The numbered section pattern on a heading. *)
Lemma match_section (major minor seps title : str) :
  section_line major minor seps title ->
  exists m,
    match_ no_flags numbered_section_pattern (major ++ [FULL_STOP] ++ minor ++ seps ++ title)
    = Some m /\
    group m 1 = major ++ [FULL_STOP] ++ minor /\ group m 2 = title.
Proof.
  intros [Hmajor [Hmd [Hminor [Hnd [Hseps [Hss [_ [Hhead [Hdots _]]]]]]]]].
  set (line := major ++ [FULL_STOP] ++ minor ++ seps ++ title).
  eexists. split.
  - unfold match_.
    transitivity
      (rep is_digit 1 None 0 None (major ++ [FULL_STOP] ++ minor ++ seps ++ title)
         (fun n1 pv1 s1 =>
            match s1 with
            | c :: s1' =>
                if (c =? FULL_STOP)%N then
                  rep is_digit 1 None (S n1) (Some c) s1'
                    (fun n2 pv2 s2 =>
                       rep (atom_matches no_flags (Set_ [ISpace; IChar FULL_STOP; IChar COLON]))
                         1 None n2 pv2 s2
                         (fun n3 pv3 s3 =>
                            rep (atom_matches no_flags Dot) 0 None n3 pv3 s3
                              (fun n4 pv4 s4 =>
                                 if at_eol no_flags
                                      (mk n4 pv4 s4 [(2, firstn (n4 - n3) s3); (1, firstn (n2 - 0) line)])
                                 then Some (mk n4 pv4 s4 [(2, firstn (n4 - n3) s3); (1, firstn (n2 - 0) line)])
                                 else None)))
                else None
            | [] => None
            end));
      [reflexivity |].
    apply rep_greedy_hit.
    + exact Hmd.
    + reflexivity.
    + destruct major; [contradiction | simpl; lia].
    + exact Logic.I.
    + cbn [app]. rewrite N.eqb_refl.
      apply rep_greedy_hit.
      * exact Hnd.
      * rewrite head_is_app by exact Hseps.
        apply (forallb_head heading_separator is_digit seps Hseps Hss).
        exact heading_separator_not_digit.
      * destruct minor; [contradiction | simpl; lia].
      * exact Logic.I.
      * apply rep_greedy_hit.
        -- rewrite <- Hss. apply forallb_eq. intros c. apply heading_separator_plain.
        -- destruct title as [| c t]; [reflexivity |]. cbn [head_is] in *.
           rewrite heading_separator_plain. exact Hhead.
        -- destruct seps; [contradiction | simpl; lia].
        -- exact Logic.I.
        -- rewrite <- (app_nil_r title) at 1. apply rep_greedy_hit.
           ++ exact Hdots.
           ++ reflexivity.
           ++ lia.
           ++ exact Logic.I.
           ++ reflexivity.
  - unfold group. cbn [caps mk assoc Nat.eqb]. split.
    + unfold line.
      replace (major ++ [FULL_STOP] ++ minor ++ seps ++ title)
        with ((major ++ [FULL_STOP] ++ minor) ++ seps ++ title)
        by (rewrite <- !app_assoc; reflexivity).
      match goal with
      | |- firstn ?n _ = _ =>
          replace n with (List.length (major ++ [FULL_STOP] ++ minor))
            by (rewrite !length_app; simpl; lia)
      end.
      rewrite firstn_app, Nat.sub_diag, firstn_all. simpl. apply app_nil_r.
    + match goal with
      | |- firstn ?n title = title => replace n with (List.length title) by lia
      end.
      apply firstn_all.
Qed.

Lemma section_line_trimmed (major minor seps title : str) :
  section_line major minor seps title ->
  strip (major ++ [FULL_STOP] ++ minor ++ seps ++ title)
  = major ++ [FULL_STOP] ++ minor ++ seps ++ title.
Proof.
  intros [Hmajor [Hmd [Hminor [Hnd [Hseps [Hss [_ [Hhead [Hdots Hr]]]]]]]]].
  unfold strip. rewrite lstrip_fixed.
  - replace (major ++ [FULL_STOP] ++ minor ++ seps ++ title)
      with ((major ++ [FULL_STOP] ++ minor) ++ seps ++ title)
      by (rewrite <- !app_assoc; reflexivity).
    apply rstrip_fixed_prefix; [| exact Hr].
    destruct seps; [contradiction | discriminate].
  - destruct major as [| c major']; [contradiction |]. simpl in *.
    apply andb_true_iff in Hmd. apply digit_not_space, Hmd.
Qed.

End SectionFacts.

(** X13: a numbered section heading (two numbers with a full stop between
    them, separators, a title) whose text after the first full stop is
    longer than 50 characters is no chapter; it is a section when the line
    has at most 80 characters and body text beyond that.  A shorter one is
    a chapter, as shown above, so these are the only numbered headings that
    the section pattern gets to see. *)
Theorem numbered_section_needs_length (major minor seps title : str) :
  let line := major ++ [FULL_STOP] ++ minor ++ seps ++ title in
  section_line major minor seps title ->
  50 < List.length (minor ++ seps ++ title) ->
  detect_chapter line = None /\
  detect_section line =
    (if List.length line <=? 80
     then Some (SECTION, (major ++ [FULL_STOP] ++ minor) ++ [SPACE] ++ title)
     else None) /\
  forall cur content,
    process_line (cur, content) line =
    (cur, content ++ [if List.length line <=? 80
                      then section_marker ((major ++ [FULL_STOP] ++ minor) ++ [SPACE] ++ title)
                      else line]).
Proof.
  intros line Hs Hlen.
  pose proof (SectionFacts.section_line_trimmed major minor seps title Hs) as Hstrip.
  fold line in Hstrip.
  destruct (SectionFacts.match_section major minor seps title Hs) as [m [Hm [Hg1 Hg2]]].
  fold line in Hm.
  destruct Hs as [Hmajor [Hmd [Hminor [Hnd [Hseps [Hss [Hsl [Hhead [Hdots Hr]]]]]]]]].
  assert (Hne : line <> []) by (unfold line; destruct major; [contradiction | discriminate]).
  assert (Hempty : is_empty line = false) by (destruct line; [contradiction | reflexivity]).
  assert (Hc : detect_chapter line = None).
  { unfold detect_chapter. rewrite Hstrip, Hempty. cbn [orb].
    destruct (100 <? List.length line); [reflexivity |].
    change chapter_patterns with (firstn 4 chapter_patterns ++ [numbered_chapter_pattern]).
    rewrite NumberedFacts.chapter_loop_skip.
    - cbn [chapter_loop]. unfold line.
      rewrite SectionFacts.match_numbered_long; [reflexivity | exact Hmd | | | exact Hlen].
      + destruct minor as [| c minor']; [contradiction |]. simpl in *.
        apply andb_true_iff in Hnd. apply Hnd.
      + rewrite !forallb_app. rewrite Hsl, Hdots, !andb_true_r.
        revert Hnd. apply HeadingFacts.forallb_imp. intros c Hc0.
        unfold not_LF. rewrite (digit_not_LF c Hc0). reflexivity.
    - unfold line. destruct major as [| c major']; [contradiction |].
      apply NumberedFacts.word_patterns_not_digit.
      simpl in Hmd. apply andb_true_iff in Hmd. apply Hmd. }
  assert (Hd : detect_section line =
               if List.length line <=? 80
               then Some (SECTION, (major ++ [FULL_STOP] ++ minor) ++ [SPACE] ++ title)
               else None).
  { unfold detect_section. rewrite Hstrip, Hempty. cbn [orb].
    rewrite Nat.ltb_antisym. destruct (List.length line <=? 80); [| reflexivity].
    cbn [negb].
    transitivity (section_loop (numbered_section_pattern :: [caps_pattern]) line);
      [reflexivity |].
    cbn [section_loop]. rewrite Hm.
    change (groups numbered_section_pattern) with 2. cbn [Nat.leb].
    rewrite Hg1, Hg2. reflexivity. }
  split; [exact Hc |]. split; [exact Hd |].
  intros cur content.
  destruct (List.length line <=? 80).
  - apply (process_line_section cur content line SECTION _); [rewrite Hstrip; exact Hne | exact Hc | exact Hd].
  - rewrite <- Hstrip at 2.
    apply process_line_body; [rewrite Hstrip; exact Hne | exact Hc | exact Hd].
Qed.

(** "1.1 " and a title of 49 letters is a section; with "12.1 " and 76
    letters the line has 81 characters and is body text. *)
Lemma numbered_section_needs_length_witness :
  detect_section (py "1" ++ [FULL_STOP] ++ py "1" ++ py " " ++ repeat 97%N 49)
  = Some (SECTION, py "1.1 " ++ repeat 97%N 49) /\
  detect_section (py "12" ++ [FULL_STOP] ++ py "1" ++ py " " ++ repeat 97%N 76) = None.
Proof.
  split.
  - apply (proj1 (proj2 (numbered_section_needs_length (py "1") (py "1") (py " ") (repeat 97%N 49)
                           ltac:(repeat split; try (vm_compute; reflexivity); discriminate)
                           ltac:(vm_compute; lia)))).
  - apply (proj1 (proj2 (numbered_section_needs_length (py "12") (py "1") (py " ") (repeat 97%N 76)
                           ltac:(repeat split; try (vm_compute; reflexivity); discriminate)
                           ltac:(vm_compute; lia)))).
Defined.

(** * Further properties: the batch and the exit status *)

Module BatchFacts.
Import process_books batch.

(** One step of a computation that ended with a value. *)
Ltac bind_ok H :=
  match type of H with
  | bind ?m _ = Ok _ =>
      let E := fresh "E" in
      destruct m eqn:E; cbn [bind] in H; [| discriminate H]
  end.

Lemma count_pages_in_text_positive (w : world) (text_file : str) (n : nat) :
  count_pages_in_text w text_file = Ok n -> 1 <= n.
Proof.
  unfold count_pages_in_text, try_except, bind.
  destruct (read_text w text_file) as [content | [msg | msg]]; intros H.
  - injection H as <-. unfold count_pages.
    destruct (0 <? count content (py "[PAGE:")) eqn:E; [apply Nat.ltb_lt in E; lia | lia].
  - injection H as <-. lia.
  - discriminate.
Qed.

Lemma extracted_true (sys : system) (o : str) (f : Path) :
  extraction sys o f = Ok true -> extracted sys o f = true.
Proof. unfold extracted. intros ->. reflexivity. Qed.

Lemma extracted_false (sys : system) (o : str) (f : Path) :
  extraction sys o f = Ok false -> extracted sys o f = false.
Proof. unfold extracted. intros ->. reflexivity. Qed.

(** What the loop has done when it ends. *)
Lemma pdf_loop_ends (sys : system) (o : str) (pdf_files : list Path) :
  forall st p f st' p' f',
    pdf_loop sys o pdf_files st p f = Ok (st', p', f') ->
    Forall (fun pdf_file => exists b, extraction sys o pdf_file = Ok b) pdf_files /\
    p' = p + List.length (filter (extracted sys o) pdf_files) /\
    f' = f + List.length (filter (fun pdf_file => negb (extracted sys o pdf_file)) pdf_files) /\
    exists new,
      fst st' = fst st ++ new /\
      map book_name new = map path_stem (filter (extracted sys o) pdf_files) /\
      Forall (fun book => 1 <= page_count book) new.
Proof.
  induction pdf_files as [| pdf_file pdf_files IH]; intros st p f st' p' f' H.
  - simpl in H. injection H as <- <- <-. simpl.
    split; [constructor |]. split; [lia |]. split; [lia |].
    exists []. rewrite app_nil_r. repeat split. constructor.
  - cbn [pdf_loop] in H. bind_ok H.
    change (extract_text_from_pdf (fs sys) (as_str pdf_file)
              (child sys o (path_stem pdf_file ++ py ".txt")))
      with (extraction sys o pdf_file) in H.
    destruct (extraction sys o pdf_file) as [[|] | e] eqn:Ex; cbn [bind] in H;
      [| | discriminate].
    + destruct (count_pages_in_text (fs sys) (child sys o (path_stem pdf_file ++ py ".txt")))
        as [pages |] eqn:Ecount; cbn [bind] in H; [| discriminate].
      do 7 bind_ok H.
      apply IH in H. destruct H as [Hall [Hp [Hf [new [Hnew [Hnames Hpages]]]]]].
      cbn [filter]. rewrite (extracted_true sys o pdf_file Ex). cbn [negb List.length].
      split; [constructor; [exists true; exact Ex | exact Hall] |].
      split; [lia |]. split; [lia |].
      eexists (_ :: new). cbn [fst] in Hnew. rewrite Hnew, <- app_assoc.
      split; [reflexivity |]. split.
      * cbn [map book_name]. rewrite Hnames. reflexivity.
      * constructor; [| exact Hpages]. cbn [process_books.page_count].
        exact (count_pages_in_text_positive _ _ _ Ecount).
    + bind_ok H.
      apply IH in H. destruct H as [Hall [Hp [Hf [new [Hnew [Hnames Hpages]]]]]].
      cbn [filter]. rewrite (extracted_false sys o pdf_file Ex). cbn [negb List.length].
      split; [constructor; [exists false; exact Ex | exact Hall] |].
      split; [lia |]. split; [lia |].
      exists new. repeat split; assumption.
Qed.

Lemma filter_split_length {A : Type} (p : A -> bool) (l : list A) :
  List.length (filter p l) + List.length (filter (fun x => negb (p x)) l) = List.length l.
Proof.
  induction l as [| a l IH]; simpl; [reflexivity |].
  destruct (p a); simpl; lia.
Qed.

(** What [process_all_pdfs] has done when it returns. *)
Lemma process_all_pdfs_ends (sys : system) (i o : str) (st st' : state) (r : batch_result) :
  process_all_pdfs sys i o st = Ok (r, st') ->
  if path_exists sys i then
    success r = true /\
    exists pdf_files,
      glob_pdf sys i = Ok pdf_files /\
      Forall (fun pdf_file => exists b, extraction sys o pdf_file = Ok b) pdf_files /\
      processed r = List.length (filter (extracted sys o) pdf_files) /\
      failed r = List.length (filter (fun pdf_file => negb (extracted sys o pdf_file)) pdf_files) /\
      exists new,
        fst st' = fst st ++ new /\
        map book_name new = map path_stem (filter (extracted sys o) pdf_files) /\
        Forall (fun book => 1 <= page_count book) new
  else r = {| success := false; processed := 0; failed := 0; books := None |} /\ st' = st.
Proof.
  unfold process_all_pdfs. destruct (path_exists sys i); cbn [negb]; intros H.
  - bind_ok H.
    destruct (glob_pdf sys i) as [pdf_files |]; cbn [bind] in H; [| discriminate].
    destruct pdf_files as [| pdf_file pdf_files]; cbn [Py.is_empty] in H.
    + bind_ok H. injection H as <- <-. split; [reflexivity |]. exists [].
      split; [reflexivity |]. split; [constructor |]. split; [reflexivity |].
      split; [reflexivity |]. exists []. rewrite app_nil_r. repeat split. constructor.
    + bind_ok H.
      destruct (pdf_loop sys o (pdf_file :: pdf_files) st 0 0) as [[[st1 p1] f1] |] eqn:El;
        cbn [bind] in H; [| discriminate].
      destruct (save_processing_report sys o st1) as [st2 |] eqn:Es; cbn [bind] in H;
        [| discriminate].
      bind_ok H. injection H as <- <-. cbn [success processed failed].
      assert (E2 : fst st2 = fst st1).
      { unfold save_processing_report in Es. do 2 bind_ok Es. injection Es as <-. reflexivity. }
      rewrite E2.
      apply pdf_loop_ends in El. destruct El as [Hall [Hp [Hf Hnew]]].
      split; [reflexivity |]. exists (pdf_file :: pdf_files).
      split; [reflexivity |]. split; [exact Hall |].
      split; [exact Hp |]. split; [exact Hf |]. exact Hnew.
  - bind_ok H. injection H as <- <-. split; reflexivity.
Qed.



Lemma print_lines_console (w : world) (lines : list str) :
  console_works w -> print_lines w lines = Ok tt.
Proof.
  intros Hc. induction lines as [| line lines IH]; [reflexivity |].
  cbn [print_lines]. rewrite (ExtractorFacts.println_console w _ Hc). exact IH.
Qed.

Lemma reading_returns {A : Type} (w : world) (p : str) (f : str -> A) (d : A) :
  only_Exception (read_text w p) ->
  exists a, try_except (content <- read_text w p ;; Ok (f content)) (fun _ => Ok d) = Ok a.
Proof.
  intros H. destruct (read_text w p) as [content | [msg | msg]]; cbn [bind try_except].
  - exists (f content). reflexivity.
  - exists d. reflexivity.
  - contradiction.
Qed.

Lemma pdf_loop_returns (sys : system) (o : str) (pdf_files : list Path) :
  quiet sys ->
  forall st p f, exists r, pdf_loop sys o pdf_files st p f = Ok r.
Proof.
  intros [Hw [Hc [Hread [_ [_ [Hstat _]]]]]].
  induction pdf_files as [| pdf_file pdf_files IH]; intros st p f.
  - eexists. reflexivity.
  - cbn [pdf_loop]. rewrite (ExtractorFacts.println_console _ _ Hc). cbn [bind].
    destruct (ExtractorFacts.extract_returns (fs sys) (as_str pdf_file)
                (child sys o (path_stem pdf_file ++ py ".txt")) Hw Hc) as [b [Hb _]].
    rewrite Hb. cbn [bind]. destruct b.
    + destruct (reading_returns (fs sys) (child sys o (path_stem pdf_file ++ py ".txt"))
                  BookProcessor.count_pages 1 (Hread _)) as [n Hn].
      unfold BookProcessor.count_pages_in_text. rewrite Hn. cbn [bind].
      destruct (reading_returns (fs sys) (child sys o (path_stem pdf_file ++ py ".txt"))
                  BookProcessor.book_info_of
                  {| BookProcessor.title := None; BookProcessor.chapter_count := 0;
                     BookProcessor.description := [] |} (Hread _)) as [info Hinfo].
      unfold BookProcessor.extract_book_info. rewrite Hinfo. cbn [bind].
      destruct (Hstat (as_str pdf_file)) as [n1 ->]. cbn [bind].
      destruct (Hstat (child sys o (path_stem pdf_file ++ py ".txt"))) as [n2 ->]. cbn [bind].
      rewrite !(ExtractorFacts.println_console _ _ Hc). cbn [bind].
      assert (Et : match BookProcessor.title info with
                   | Some (c :: t) =>
                       println (fs sys) (py "   📝 Title: " ++ firstn 50 (c :: t) ++ py "...")
                   | _ => Ok tt
                   end = Ok tt).
      { destruct (BookProcessor.title info) as [[| c t] |]; try reflexivity.
        apply ExtractorFacts.println_console, Hc. }
      rewrite Et. cbn [bind]. apply IH.
    + rewrite (ExtractorFacts.println_console _ _ Hc). cbn [bind]. apply IH.
Qed.

Lemma process_all_pdfs_returns (sys : system) (i o : str) (st : state) :
  quiet sys -> exists r st', process_all_pdfs sys i o st = Ok (r, st').
Proof.
  intros Hq. pose proof Hq as [_ [Hc [_ [Hmk [Hglob [_ Hjson]]]]]].
  unfold process_all_pdfs.
  destruct (path_exists sys i); cbn [negb].
  - rewrite Hmk. cbn [bind]. destruct (Hglob i) as [pdf_files ->]. cbn [bind].
    destruct (Py.is_empty pdf_files).
    + rewrite (ExtractorFacts.println_console _ _ Hc). eexists. eexists. reflexivity.
    + rewrite (print_lines_console _ _ Hc). cbn [bind].
      destruct (pdf_loop_returns sys o pdf_files Hq st 0 0) as [[[s1 p1] f1] ->].
      cbn [bind]. unfold save_processing_report. rewrite Hjson. cbn [bind].
      rewrite (ExtractorFacts.println_console _ _ Hc). cbn [bind].
      rewrite (print_lines_console _ _ Hc). cbn [bind].
      eexists. eexists. reflexivity.
  - rewrite (ExtractorFacts.println_console _ _ Hc). eexists. eexists. reflexivity.
Qed.

Lemma example_system_quiet (pdf_files : list Path) : quiet (example_system pdf_files).
Proof.
  split; [exact example_world_failures |].
  split; [exact example_world_console |].
  split; [intros p; exact Logic.I |].
  split; [reflexivity |].
  split; [intros p; exists pdf_files; reflexivity |].
  split; [intros p; exists 0; reflexivity | reflexivity].
Qed.

End BatchFacts.

(** X14: when [process_all_pdfs] returns for an input directory that
    exists, every PDF file of the directory is counted once, as processed
    when its extraction succeeded and as failed otherwise; the books
    added to the processor are those of the processed files, in the order
    of the directory listing, each under the stem of its file and with a
    page count of at least 1. *)
Theorem batch_counts_every_file (sys : system) (input_dir output_dir : str)
    (st st' : batch.state) (r : batch.batch_result) :
  batch.process_all_pdfs sys input_dir output_dir st = Ok (r, st') ->
  path_exists sys input_dir = true ->
  exists pdf_files new,
    glob_pdf sys input_dir = Ok pdf_files /\
    batch.processed r + batch.failed r = List.length pdf_files /\
    batch.processed r = List.length (filter (batch.extracted sys output_dir) pdf_files) /\
    fst st' = fst st ++ new /\
    map process_books.book_name new
    = map path_stem (filter (batch.extracted sys output_dir) pdf_files) /\
    Forall (fun book => 1 <= process_books.page_count book) new.
Proof.
  intros H He. apply BatchFacts.process_all_pdfs_ends in H. rewrite He in H.
  destruct H as [_ [pdf_files [Hg [_ [Hp [Hf [new [Hnew [Hnames Hpages]]]]]]]]].
  exists pdf_files, new. repeat split; try assumption.
  rewrite Hp, Hf. apply BatchFacts.filter_split_length.
Qed.

(** Three files of [example_world], of which the last can be extracted. *)
Lemma batch_counts_every_file_witness :
  exists pdf_files new,
    glob_pdf (example_system example_files) (py "input") = Ok pdf_files /\
    batch.processed (fst example_outcome) + batch.failed (fst example_outcome)
    = List.length pdf_files /\
    batch.processed (fst example_outcome)
    = List.length (filter (batch.extracted (example_system example_files) (py "output")) pdf_files) /\
    fst (snd example_outcome) = fst (([], 0) : batch.state) ++ new /\
    map process_books.book_name new
    = map path_stem (filter (batch.extracted (example_system example_files) (py "output")) pdf_files) /\
    Forall (fun book => 1 <= process_books.page_count book) new.
Proof.
  apply (batch_counts_every_file (example_system example_files) (py "input") (py "output")
           ([], 0) (snd example_outcome) (fst example_outcome)).
  - vm_compute. reflexivity.
  - reflexivity.
Defined.



(** X16: the failures of single documents do not end the batch: when the
    extraction and the reading of its output are all that fails, and only
    with instances of [Exception], [process_all_pdfs] returns and the tool
    run without a catalog ends with a status. *)
Theorem batch_survives_failures (sys : system) (input_dir output_dir : str)
    (st : batch.state) :
  batch.quiet sys ->
  (exists r st', batch.process_all_pdfs sys input_dir output_dir st = Ok (r, st')) /\
  (forall a, batch.catalog a = false -> exists code, batch.main sys (Parsed a) = Ok code).
Proof.
  intros Hq. split; [apply BatchFacts.process_all_pdfs_returns, Hq |].
  intros a Hcat. unfold batch.main.
  pose proof Hq as [_ [Hc _]].
  rewrite (BatchFacts.print_lines_console _ _ Hc). cbn [bind].
  destruct (BatchFacts.process_all_pdfs_returns sys (batch.input a) (batch.output a) ([], 0) Hq)
    as [r [st' ->]].
  cbn [bind]. rewrite Hcat.
  destruct (batch.success r && (0 <? batch.processed r)).
  - cbn [bind]. rewrite (BatchFacts.print_lines_console _ _ Hc). eexists. reflexivity.
  - destruct (0 <? batch.failed r); rewrite (ExtractorFacts.println_console _ _ Hc);
      eexists; reflexivity.
Qed.

Lemma batch_survives_failures_witness :
  (exists r st', batch.process_all_pdfs (example_system example_files) (py "input") (py "output")
                   ([], 0) = Ok (r, st')) /\
  (forall a, batch.catalog a = false ->
             exists code, batch.main (example_system example_files) (Parsed a) = Ok code).
Proof.
  apply (batch_survives_failures (example_system example_files) (py "input") (py "output") ([], 0)
           (BatchFacts.example_system_quiet example_files)).
Defined.

(** X17: the exit status of the extraction tool when the console works,
    the failures of the PDF library and of writing are instances of
    [Exception] and the directories can be made and listed.  When the
    command line does not parse, the status is the one the parser ends the
    process with.  With a file argument the tool ends with status 1 when
    the file does not exist or its extraction fails.  Without one (or with
    an empty one) it works on the directory and ends with status 0
    whatever the outcomes of the extractions are. *)
Theorem extract_exit_status (sys : system) (parse_args : parsed extract_pdf.args) :
  failures_are_Exceptions (fs sys) ->
  console_works (fs sys) ->
  (forall p, mkdir sys p = Ok tt) ->
  (forall p, exists pdf_files, glob_pdf sys p = Ok pdf_files) ->
  exists code,
    extract_pdf.main sys parse_args = Ok code /\
    match parse_args with
    | Exits status => code = status
    | Parsed a =>
        (code = 0 \/ code = 1) /\
        (code = 1 <->
         exists f, extract_pdf.file a = Some f /\ f <> [] /\
                   (path_exists sys f = false \/
                    extract_text_from_pdf (fs sys) f (extract_pdf.single_output sys a f)
                    = Ok false))
    end.
Proof.
  intros Hw Hc Hmk Hglob. destruct parse_args as [a | status];
    [| exists status; split; reflexivity].
  unfold extract_pdf.main.
  assert (Hdir : exists u, extract_pdf.process_directory sys (extract_pdf.input a)
                             (extract_pdf.output a) = Ok u).
  { unfold extract_pdf.process_directory.
    destruct (path_exists sys (extract_pdf.input a)); cbn [negb];
      [| exists tt; apply ExtractorFacts.println_console, Hc].
    rewrite Hmk. cbn [bind]. destruct (Hglob (extract_pdf.input a)) as [pdf_files ->].
    cbn [bind]. destruct (Py.is_empty pdf_files);
      [exists tt; apply ExtractorFacts.println_console, Hc |].
    rewrite (ExtractorFacts.println_console _ _ Hc). cbn [bind].
    match goal with
    | |- context [directory_loop ?w ?l] =>
        destruct (ExtractorFacts.directory_loop_returns w l Hw Hc) as [outcomes [-> _]]
    end.
    exists tt. reflexivity. }
  destruct (extract_pdf.file a) as [[| c f'] |].
  - destruct Hdir as [u ->]. exists 0. cbn [bind].
    split; [reflexivity |]. split; [left; reflexivity |]. split; [discriminate |].
    intros [f [E [Hne _]]]. injection E as <-. contradiction.
  - destruct (path_exists sys (c :: f')) eqn:Ex; cbn [negb].
    + destruct (ExtractorFacts.extract_returns (fs sys) (c :: f')
                  (extract_pdf.single_output sys a (c :: f')) Hw Hc) as [b [Hb _]].
      rewrite Hb. cbn [bind].
      destruct b; rewrite (ExtractorFacts.println_console _ _ Hc); cbn [bind].
      * exists 0. split; [reflexivity |]. split; [left; reflexivity |].
        split; [discriminate |].
        intros [f [E [_ [H | H]]]]; injection E as <-.
        -- rewrite Ex in H. discriminate.
        -- rewrite Hb in H. discriminate.
      * exists 1. split; [reflexivity |]. split; [right; reflexivity |].
        split; [| reflexivity]. intros _.
        exists (c :: f'). split; [reflexivity |]. split; [discriminate |]. right. exact Hb.
    + rewrite (ExtractorFacts.println_console _ _ Hc). cbn [bind].
      exists 1. split; [reflexivity |]. split; [right; reflexivity |].
      split; [| reflexivity]. intros _.
      exists (c :: f'). split; [reflexivity |]. split; [discriminate |]. left. exact Ex.
  - destruct Hdir as [u ->]. exists 0. cbn [bind].
    split; [reflexivity |]. split; [left; reflexivity |]. split; [discriminate |].
    intros [f [E _]]. discriminate.
Qed.

(** The directory of the three example files, two of which fail; the file
    that cannot be opened, given alone; a usage error. *)
Lemma extract_exit_status_witness :
  (exists code,
     extract_pdf.main (example_system example_files) (Parsed example_directory_args) = Ok code /\
     (code = 0 \/ code = 1) /\
     (code = 1 <->
      exists f, extract_pdf.file example_directory_args = Some f /\ f <> [] /\
                (path_exists (example_system example_files) f = false \/
                 extract_text_from_pdf (fs (example_system example_files)) f
                   (extract_pdf.single_output (example_system example_files)
                      example_directory_args f) = Ok false))) /\
  (exists code,
     extract_pdf.main (example_system example_files) (Parsed example_file_args) = Ok code /\
     (code = 0 \/ code = 1) /\
     (code = 1 <->
      exists f, extract_pdf.file example_file_args = Some f /\ f <> [] /\
                (path_exists (example_system example_files) f = false \/
                 extract_text_from_pdf (fs (example_system example_files)) f
                   (extract_pdf.single_output (example_system example_files)
                      example_file_args f) = Ok false))) /\
  (exists code,
     extract_pdf.main (example_system example_files) (Exits 2) = Ok code /\ code = 2).
Proof.
  split; [| split].
  - apply (extract_exit_status (example_system example_files) (Parsed example_directory_args)).
    + exact example_world_failures.
    + exact example_world_console.
    + reflexivity.
    + intros p. exists example_files. reflexivity.
  - apply (extract_exit_status (example_system example_files) (Parsed example_file_args)).
    + exact example_world_failures.
    + exact example_world_console.
    + reflexivity.
    + intros p. exists example_files. reflexivity.
  - apply (extract_exit_status (example_system example_files) (Exits 2)).
    + exact example_world_failures.
    + exact example_world_console.
    + reflexivity.
    + intros p. exists example_files. reflexivity.
Defined.
